(** * TEEHR: request models and DuckDB query builders

    A shallow embedding of [teehr/models/queries.py] (the pydantic request
    models and their validators) and of [teehr/queries/duckdb_database.py]
    (the builders of the SQL text and the relational meaning of the SQL they
    emit), followed by the properties proved about them.

    Layout: Part I holds the definitions, Part II the lemmas and theorems. *)

From Stdlib Require Import List String Ascii ZArith Bool Lia Permutation Sorted.
From Stdlib Require DecimalString.
Import ListNotations.

Local Open Scope string_scope.
Local Open Scope list_scope.

(* ================================================================== *)
(** * Part I. Definitions                                              *)
(* ================================================================== *)

(** ** Python exceptions and the pydantic validation protocol *)

(** The exceptions that leave a model constructor.  A [ValidationError]
    carries one [(loc, msg)] entry per failing field. *)
Inductive exn : Type :=
| ValueError (msg : string)
| KeyError (key : string)
| ValidationError (errors : list (string * string)).

(** A Python computation that either raises or returns. *)
Definition py (A : Type) : Type := (exn + A)%type.

Definition ret {A : Type} (a : A) : py A := inr a.
Definition raise {A : Type} (e : exn) : py A := inl e.
Definition bind {A B : Type} (m : py A) (k : A -> py B) : py B :=
  match m with
  | inl e => inl e
  | inr a => k a
  end.

Notation "x <- m ;; k" := (bind m (fun x => k))
  (at level 61, m at next level, right associativity).

(** What pydantic does with the outcome of a field validator: a
    [ValueError] is recorded against the field and validation goes on with
    the next field; any other exception leaves the constructor at once. *)
Inductive field_outcome (A : Type) : Type :=
| Validated (a : A)
| Invalid (msg : string)
| Propagate (e : exn).
Arguments Validated {A} a.
Arguments Invalid {A} msg.
Arguments Propagate {A} e.

Definition run_field_validator {A : Type} (r : py A) : field_outcome A :=
  match r with
  | inr a => Validated a
  | inl (ValueError m) => Invalid m
  | inl e => Propagate e
  end.

(** The entry a failed field contributes to the [ValidationError].  The
    text pydantic gives for a value outside an enumeration is shortened to
    the name of the enumeration. *)
Definition field_errors {A : Type} (loc : string) (msg : string)
  (v : option A) : list (string * string) :=
  match v with
  | Some _ => []
  | None => [(loc, msg)]
  end.

Definition outcome_errors {A : Type} (loc : string) (o : field_outcome A)
  : list (string * string) :=
  match o with
  | Invalid m => [(loc, m)]
  | _ => []
  end.

Definition outcome_value {A : Type} (o : field_outcome A) : option A :=
  match o with
  | Validated a => Some a
  | _ => None
  end.

(** Validation of a [List[E]] field for a string enumeration [E]: every
    item has to be the value of a member. *)
Fixpoint parse_list {E : Type} (of_value : string -> option E)
  (names : list string) : option (list E) :=
  match names with
  | [] => Some []
  | n :: rest =>
      match of_value n, parse_list of_value rest with
      | Some e, Some es => Some (e :: es)
      | _, _ => None
      end
  end.

(** ** The enumerations of [teehr/models/queries.py] *)

Module FilterOperatorEnum.

Inductive t : Type := eq | gt | lt | gte | lte | islike | isin.

Definition value (o : t) : string :=
  match o with
  | eq => "="
  | gt => ">"
  | lt => "<"
  | gte => ">="
  | lte => "<="
  | islike => "like"
  | isin => "in"
  end.

Definition members : list t := [eq; gt; lt; gte; lte; islike; isin].

Definition of_value (s : string) : option t :=
  find (fun o => String.eqb (value o) s) members.

End FilterOperatorEnum.

Module MetricEnum.

Inductive t : Type :=
| primary_count
| secondary_count
| primary_minimum
| secondary_minimum
| primary_maximum
| secondary_maximum
| primary_average
| secondary_average
| primary_sum
| secondary_sum
| primary_variance
| secondary_variance
| max_value_delta
| nash_sutcliffe_efficiency
| nash_sutcliffe_efficiency_normalized
| kling_gupta_efficiency
| kling_gupta_efficiency_mod1
| kling_gupta_efficiency_mod2
| mean_error
| mean_absolute_error
| mean_squared_error
| root_mean_squared_error
| primary_max_value_time
| secondary_max_value_time
| max_value_timedelta
| relative_bias
| multiplicative_bias
| mean_absolute_relative_error
| pearson_correlation
| r_squared
| annual_peak_relative_bias
| spearman_correlation.

Definition value (m : t) : string :=
  match m with
  | primary_count => "primary_count"
  | secondary_count => "secondary_count"
  | primary_minimum => "primary_minimum"
  | secondary_minimum => "secondary_minimum"
  | primary_maximum => "primary_maximum"
  | secondary_maximum => "secondary_maximum"
  | primary_average => "primary_average"
  | secondary_average => "secondary_average"
  | primary_sum => "primary_sum"
  | secondary_sum => "secondary_sum"
  | primary_variance => "primary_variance"
  | secondary_variance => "secondary_variance"
  | max_value_delta => "max_value_delta"
  | nash_sutcliffe_efficiency => "nash_sutcliffe_efficiency"
  | nash_sutcliffe_efficiency_normalized =>
      "nash_sutcliffe_efficiency_normalized"
  | kling_gupta_efficiency => "kling_gupta_efficiency"
  | kling_gupta_efficiency_mod1 => "kling_gupta_efficiency_mod1"
  | kling_gupta_efficiency_mod2 => "kling_gupta_efficiency_mod2"
  | mean_error => "mean_error"
  | mean_absolute_error => "mean_absolute_error"
  | mean_squared_error => "mean_squared_error"
  | root_mean_squared_error => "root_mean_squared_error"
  | primary_max_value_time => "primary_max_value_time"
  | secondary_max_value_time => "secondary_max_value_time"
  | max_value_timedelta => "max_value_timedelta"
  | relative_bias => "relative_bias"
  | multiplicative_bias => "multiplicative_bias"
  | mean_absolute_relative_error => "mean_absolute_relative_error"
  | pearson_correlation => "pearson_correlation"
  | r_squared => "r_squared"
  | annual_peak_relative_bias => "annual_peak_relative_bias"
  | spearman_correlation => "spearman_correlation"
  end.

(** The members in definition order, as iterating the class yields them. *)
Definition members : list t :=
  [ primary_count; secondary_count; primary_minimum; secondary_minimum;
    primary_maximum; secondary_maximum; primary_average; secondary_average;
    primary_sum; secondary_sum; primary_variance; secondary_variance;
    max_value_delta; nash_sutcliffe_efficiency;
    nash_sutcliffe_efficiency_normalized; kling_gupta_efficiency;
    kling_gupta_efficiency_mod1; kling_gupta_efficiency_mod2; mean_error;
    mean_absolute_error; mean_squared_error; root_mean_squared_error;
    primary_max_value_time; secondary_max_value_time; max_value_timedelta;
    relative_bias; multiplicative_bias; mean_absolute_relative_error;
    pearson_correlation; r_squared; annual_peak_relative_bias;
    spearman_correlation ].

Definition of_value (s : string) : option t :=
  find (fun m => String.eqb (value m) s) members.

Definition eqb (a b : t) : bool := String.eqb (value a) (value b).

End MetricEnum.

Module JoinedFilterFieldEnum.

Inductive t : Type :=
| value_time
| reference_time
| secondary_location_id
| secondary_value
| configuration
| measurement_unit
| variable_name
| primary_value
| primary_location_id
| lead_time
| geometry.

Definition value (f : t) : string :=
  match f with
  | value_time => "value_time"
  | reference_time => "reference_time"
  | secondary_location_id => "secondary_location_id"
  | secondary_value => "secondary_value"
  | configuration => "configuration"
  | measurement_unit => "measurement_unit"
  | variable_name => "variable_name"
  | primary_value => "primary_value"
  | primary_location_id => "primary_location_id"
  | lead_time => "lead_time"
  | geometry => "geometry"
  end.

Definition members : list t :=
  [ value_time; reference_time; secondary_location_id; secondary_value;
    configuration; measurement_unit; variable_name; primary_value;
    primary_location_id; lead_time; geometry ].

Definition of_value (s : string) : option t :=
  find (fun f => String.eqb (value f) s) members.

(** Members of a [StrEnum] compare as their string values. *)
Definition eqb (a b : t) : bool := String.eqb (value a) (value b).

(** Python's [x in xs] on a list of members. *)
Definition mem (x : t) (xs : list t) : bool := existsb (eqb x) xs.

End JoinedFilterFieldEnum.

Module TimeseriesFilterFieldEnum.

Inductive t : Type :=
| value_time
| reference_time
| location_id
| value
| configuration
| measurement_unit
| variable_name
| lead_time
| geometry.

(** The [value] of a member (the class has a member called [value]). *)
Definition to_value (f : t) : string :=
  match f with
  | value_time => "value_time"
  | reference_time => "reference_time"
  | location_id => "location_id"
  | value => "value"
  | configuration => "configuration"
  | measurement_unit => "measurement_unit"
  | variable_name => "variable_name"
  | lead_time => "lead_time"
  | geometry => "geometry"
  end.

Definition members : list t :=
  [ value_time; reference_time; location_id; value; configuration;
    measurement_unit; variable_name; lead_time; geometry ].

Definition of_value (s : string) : option t :=
  find (fun f => String.eqb (to_value f) s) members.

End TimeseriesFilterFieldEnum.

(** ** Filter values *)

(** A point in time as [datetime] holds it. *)
Record datetime : Type := mk_datetime {
  year : Z; month : Z; day : Z; hour : Z; minute : Z; second : Z
}.

(** The members of the [value] union that are not lists.  The payload of a
    [float] is not inspected by any validator; it is kept as the decimal
    text of the number. *)
Inductive scalar : Type :=
| SStr (s : string)
| SInt (i : Z)
| SFloat (repr : string)
| SDatetime (d : datetime).

(** [Union[str, int, float, datetime, List[Union[str, int, float, datetime]]]]. *)
Inductive filter_value : Type :=
| VScalar (s : scalar)
| VList (items : list scalar).

(** [isinstance(obj, Iterable)]: strings and lists are iterable, numbers
    and datetimes are not. *)
Definition isinstance_Iterable (obj : filter_value) : bool :=
  match obj with
  | VScalar (SStr _) => true
  | VScalar _ => false
  | VList _ => true
  end.

(** [isinstance(obj, str)]. *)
Definition isinstance_str (obj : filter_value) : bool :=
  match obj with
  | VScalar (SStr _) => true
  | _ => false
  end.

(** ** [JoinedFilter] *)

Module JoinedFilter.

Record t : Type := mk {
  column : JoinedFilterFieldEnum.t;
  operator : FilterOperatorEnum.t;
  value : filter_value
}.

(** The keyword arguments handed to the constructor: the two enumerated
    fields arrive as strings. *)
Record raw : Type := mk_raw {
  raw_column : string;
  raw_operator : string;
  raw_value : filter_value
}.

(** [info.data]: the fields validated so far.  A field that failed its
    own validation is absent. *)
Record info_data : Type := mk_data {
  data_column : option JoinedFilterFieldEnum.t;
  data_operator : option FilterOperatorEnum.t
}.

(** [info.data["operator"]]. *)
Definition data_getitem_operator (info : info_data)
  : py FilterOperatorEnum.t :=
  match data_operator info with
  | Some o => ret o
  | None => raise (KeyError "operator")
  end.

Definition is_iterable_not_str (obj : filter_value) : bool :=
  if isinstance_Iterable obj && negb (isinstance_str obj)
  then true
  else false.

Definition in_operator_must_have_iterable (v : filter_value)
  (info : info_data) : py filter_value :=
  c1 <- (if is_iterable_not_str v
         then (op <- data_getitem_operator info ;;
               ret (negb (String.eqb (FilterOperatorEnum.value op) "in")))
         else ret false) ;;
  if (c1 : bool)
  then raise (ValueError "iterable value must be used with 'in' operator")
  else
    c2 <- (op <- data_getitem_operator info ;;
           ret (String.eqb (FilterOperatorEnum.value op) "in"
                && negb (is_iterable_not_str v))) ;;
    if (c2 : bool)
    then raise
           (ValueError "'in' operator can only be used with iterable value")
    else ret v.

(** The constructor: fields are validated in declaration order, the field
    validator of [value] runs with the data collected before it. *)
Definition model_validate (r : raw) : py t :=
  let c := JoinedFilterFieldEnum.of_value (raw_column r) in
  let o := FilterOperatorEnum.of_value (raw_operator r) in
  let info := {| data_column := c; data_operator := o |} in
  match run_field_validator
          (in_operator_must_have_iterable (raw_value r) info) with
  | Propagate e => raise e
  | outcome =>
      match c, o, outcome_value outcome with
      | Some c', Some o', Some v' =>
          ret {| column := c'; operator := o'; value := v' |}
      | _, _, _ =>
          raise (ValidationError
                   (field_errors "column" "Input should be a member of JoinedFilterFieldEnum" c
                    ++ field_errors "operator" "Input should be a member of FilterOperatorEnum" o
                    ++ outcome_errors "value" outcome))
      end
  end.

End JoinedFilter.

(** ** [TimeseriesFilter] *)

Module TimeseriesFilter.

Record t : Type := mk {
  column : TimeseriesFilterFieldEnum.t;
  operator : FilterOperatorEnum.t;
  value : filter_value
}.

Record raw : Type := mk_raw {
  raw_column : string;
  raw_operator : string;
  raw_value : filter_value
}.

Record info_data : Type := mk_data {
  data_column : option TimeseriesFilterFieldEnum.t;
  data_operator : option FilterOperatorEnum.t
}.

Definition data_getitem_operator (info : info_data)
  : py FilterOperatorEnum.t :=
  match data_operator info with
  | Some o => ret o
  | None => raise (KeyError "operator")
  end.

Definition is_iterable_not_str (obj : filter_value) : bool :=
  if isinstance_Iterable obj && negb (isinstance_str obj)
  then true
  else false.

Definition in_operator_must_have_iterable (v : filter_value)
  (info : info_data) : py filter_value :=
  c1 <- (if is_iterable_not_str v
         then (op <- data_getitem_operator info ;;
               ret (negb (String.eqb (FilterOperatorEnum.value op) "in")))
         else ret false) ;;
  if (c1 : bool)
  then raise (ValueError "iterable value must be used with 'in' operator")
  else
    c2 <- (op <- data_getitem_operator info ;;
           ret (String.eqb (FilterOperatorEnum.value op) "in"
                && negb (is_iterable_not_str v))) ;;
    if (c2 : bool)
    then raise
           (ValueError "'in' operator can only be used with iterable value")
    else ret v.

Definition model_validate (r : raw) : py t :=
  let c := TimeseriesFilterFieldEnum.of_value (raw_column r) in
  let o := FilterOperatorEnum.of_value (raw_operator r) in
  let info := {| data_column := c; data_operator := o |} in
  match run_field_validator
          (in_operator_must_have_iterable (raw_value r) info) with
  | Propagate e => raise e
  | outcome =>
      match c, o, outcome_value outcome with
      | Some c', Some o', Some v' =>
          ret {| column := c'; operator := o'; value := v' |}
      | _, _, _ =>
          raise (ValidationError
                   (field_errors "column" "Input should be a member of TimeseriesFilterFieldEnum" c
                    ++ field_errors "operator" "Input should be a member of FilterOperatorEnum" o
                    ++ outcome_errors "value" outcome))
      end
  end.

End TimeseriesFilter.


(** ** File paths *)

(** [Union[str, Path]]. *)
Inductive filepath : Type :=
| PathStr (s : string)
| PathObj (p : string).

(** [str(path)]. *)
Definition filepath_str (p : filepath) : string :=
  match p with
  | PathStr s => s
  | PathObj s => s
  end.

(** Truth value of an [Optional[Union[str, Path]]]: [None] and the empty
    string are false, a [Path] object is always true. *)
Definition filepath_truthy (p : option filepath) : bool :=
  match p with
  | None => false
  | Some (PathStr s) => negb (String.eqb s "")
  | Some (PathObj _) => true
  end.

(** ** [MetricQuery] *)

Module MetricQuery.

(** [Union[List[MetricEnum], MetricEnum, str]] after validation. *)
Inductive include_metrics_t : Type :=
| MetricList (ms : list MetricEnum.t)
| MetricMember (m : MetricEnum.t)
| MetricStr (s : string).

(** What a caller passes for [include_metrics]: a list of names or one
    name. *)
Inductive raw_include_metrics_t : Type :=
| RawMetricList (names : list string)
| RawMetricStr (name : string).

Record t : Type := mk {
  primary_filepath : filepath;
  secondary_filepath : filepath;
  crosswalk_filepath : filepath;
  group_by : list JoinedFilterFieldEnum.t;
  order_by : list JoinedFilterFieldEnum.t;
  include_metrics : include_metrics_t;
  filters : list JoinedFilter.t;
  return_query : bool;
  geometry_filepath : option filepath;
  include_geometry : bool;
  remove_duplicates : option bool
}.

(** The keyword arguments handed to the constructor, defaults applied
    ([filters] defaults to the empty list, [remove_duplicates] to [True]).
    Fields of an enumerated type arrive as strings. *)
Record raw : Type := mk_raw {
  raw_primary_filepath : filepath;
  raw_secondary_filepath : filepath;
  raw_crosswalk_filepath : filepath;
  raw_group_by : list string;
  raw_order_by : list string;
  raw_include_metrics : raw_include_metrics_t;
  raw_filters : option (list JoinedFilter.raw);
  raw_return_query : bool;
  raw_geometry_filepath : option filepath;
  raw_include_geometry : bool;
  raw_remove_duplicates : option bool
}.

(** [info.data] when the validator of [include_geometry] runs: the fields
    declared before it that passed their own validation. *)
Record info_data : Type := mk_data {
  data_group_by : option (list JoinedFilterFieldEnum.t);
  data_order_by : option (list JoinedFilterFieldEnum.t);
  data_include_metrics : option include_metrics_t;
  data_filters : option (list JoinedFilter.t);
  data_geometry_filepath : option (option filepath)
}.

(** [info.data["group_by"]]. *)
Definition data_getitem_group_by (info : info_data)
  : py (list JoinedFilterFieldEnum.t) :=
  match data_group_by info with
  | Some gb => ret gb
  | None => raise (KeyError "group_by")
  end.

(** [info.data["geometry_filepath"]]. *)
Definition data_getitem_geometry_filepath (info : info_data)
  : py (option filepath) :=
  match data_geometry_filepath info with
  | Some gf => ret gf
  | None => raise (KeyError "geometry_filepath")
  end.

Definition msg_group_by_primary_location_id : string :=
  "`group_by` must contain `primary_location_id` to include geometry in returned data".

Definition msg_geometry_filepath : string :=
  "`geometry_filepath` must be provided to include geometry in returned data".

Definition msg_geometry_in_group_by : string :=
  "group_by contains `geometry` field but `include_geometry` is False, must be True".

Definition include_geometry_must_group_by_primary_location_id (v : bool)
  (info : info_data) : py bool :=
  c1 <- (if v
         then (gb <- data_getitem_group_by info ;;
               ret (negb (JoinedFilterFieldEnum.mem
                            JoinedFilterFieldEnum.primary_location_id gb)))
         else ret false) ;;
  if (c1 : bool)
  then raise (ValueError msg_group_by_primary_location_id)
  else
    c2 <- (if v
           then (gf <- data_getitem_geometry_filepath info ;;
                 ret (negb (filepath_truthy gf)))
           else ret false) ;;
    if (c2 : bool)
    then raise (ValueError msg_geometry_filepath)
    else
      c3 <- (gb <- data_getitem_group_by info ;;
             ret (JoinedFilterFieldEnum.mem JoinedFilterFieldEnum.geometry gb
                  && negb v)) ;;
      if (c3 : bool)
      then raise (ValueError msg_geometry_in_group_by)
      else ret v.

Definition filter_must_be_list (v : option (list JoinedFilter.t))
  : list JoinedFilter.t :=
  match v with
  | None => []
  | Some l => l
  end.

(** The union is tried member by member: a list validates as
    [List[MetricEnum]] when every item is the value of a member and as
    nothing else; a string validates as [str]. *)
Definition validate_include_metrics (r : raw_include_metrics_t)
  : option include_metrics_t :=
  match r with
  | RawMetricList names =>
      match parse_list MetricEnum.of_value names with
      | Some ms => Some (MetricList ms)
      | None => None
      end
  | RawMetricStr s => Some (MetricStr s)
  end.

(** Validation of the items of [filters]: an exception that is not a
    validation error leaves at once, a validation error of an item makes the
    field invalid. *)
Fixpoint validate_filter_items (rs : list JoinedFilter.raw)
  : py (option (list JoinedFilter.t)) :=
  match rs with
  | [] => ret (Some [])
  | r :: rest =>
      match JoinedFilter.model_validate r with
      | inl (ValidationError _) =>
          _ <- validate_filter_items rest ;; ret None
      | inl e => raise e
      | inr f =>
          fs <- validate_filter_items rest ;;
          ret (match fs with
               | Some l => Some (f :: l)
               | None => None
               end)
      end
  end.

Definition validate_filters (r : option (list JoinedFilter.raw))
  : py (option (list JoinedFilter.t)) :=
  match r with
  | None => ret (Some (filter_must_be_list None))
  | Some rs =>
      fs <- validate_filter_items rs ;;
      ret (match fs with
           | Some l => Some (filter_must_be_list (Some l))
           | None => None
           end)
  end.

(** The constructor.  Fields are validated in declaration order and the
    errors of all fields are reported together; an exception that is not a
    [ValueError] leaves the constructor where it is raised. *)
Definition model_validate (r : raw) : py t :=
  let gb := parse_list JoinedFilterFieldEnum.of_value (raw_group_by r) in
  let ob := parse_list JoinedFilterFieldEnum.of_value (raw_order_by r) in
  let im := validate_include_metrics (raw_include_metrics r) in
  fl <- validate_filters (raw_filters r) ;;
  let info := {| data_group_by := gb;
                 data_order_by := ob;
                 data_include_metrics := im;
                 data_filters := fl;
                 data_geometry_filepath := Some (raw_geometry_filepath r) |} in
  match run_field_validator
          (include_geometry_must_group_by_primary_location_id
             (raw_include_geometry r) info) with
  | Propagate e => raise e
  | outcome =>
      match gb, ob, im, fl, outcome_value outcome with
      | Some gb', Some ob', Some im', Some fl', Some ig' =>
          ret {| primary_filepath := raw_primary_filepath r;
                 secondary_filepath := raw_secondary_filepath r;
                 crosswalk_filepath := raw_crosswalk_filepath r;
                 group_by := gb';
                 order_by := ob';
                 include_metrics := im';
                 filters := fl';
                 return_query := raw_return_query r;
                 geometry_filepath := raw_geometry_filepath r;
                 include_geometry := ig';
                 remove_duplicates := raw_remove_duplicates r |}
      | _, _, _, _, _ =>
          raise (ValidationError
                   (field_errors "group_by" "Input should be a member of JoinedFilterFieldEnum" gb
                    ++ field_errors "order_by" "Input should be a member of JoinedFilterFieldEnum" ob
                    ++ field_errors "include_metrics" "Input should be a member of MetricEnum" im
                    ++ field_errors "filters" "Input should be a valid JoinedFilter" fl
                    ++ outcome_errors "include_geometry" outcome))
      end
  end.

End MetricQuery.

(** ** [JoinedTimeseriesQuery] *)

Module JoinedTimeseriesQuery.

Record t : Type := mk {
  primary_filepath : filepath;
  secondary_filepath : filepath;
  crosswalk_filepath : filepath;
  order_by : list JoinedFilterFieldEnum.t;
  filters : list JoinedFilter.t;
  return_query : bool;
  geometry_filepath : option filepath;
  include_geometry : bool;
  remove_duplicates : option bool
}.

End JoinedTimeseriesQuery.


(** ** Text helpers *)

Definition nl : string := String "010" EmptyString.

(** Decimal text of an integer, as [str(int)] gives it. *)
Definition str_of_Z (z : Z) : string :=
  DecimalString.NilZero.string_of_int (Z.to_int z).

(** Decimal text left-padded with zeros to [width] characters. *)
Fixpoint zero_pad (width : nat) (s : string) : string :=
  match width with
  | O => s
  | S w => if Nat.ltb (String.length s) width
           then zero_pad w ("0" ++ s)
           else s
  end.

(** [SQL_DATETIME_STR_FORMAT = "%Y-%m-%d %H:%M:%S"] applied by
    [strftime]. *)
Definition strftime_sql (d : datetime) : string :=
  zero_pad 4 (str_of_Z (year d)) ++ "-" ++
  zero_pad 2 (str_of_Z (month d)) ++ "-" ++
  zero_pad 2 (str_of_Z (day d)) ++ " " ++
  zero_pad 2 (str_of_Z (hour d)) ++ ":" ++
  zero_pad 2 (str_of_Z (minute d)) ++ ":" ++
  zero_pad 2 (str_of_Z (second d)).

(** ** [teehr.queries.utils] ([tqu]): the filter clause *)

Module tqu.

(** Modelled from the spec: [teehr/queries/utils.py] is not among the
    sources, so the text of one [(column operator value)] condition follows
    section 4.3 of the specification and the string expected by
    [tests/test_metric_filter_formatting.py]: strings and datetimes are
    quoted, numbers are bare, a list is a parenthesised comma-separated
    sequence of its items. *)
Definition format_scalar (s : scalar) : string :=
  match s with
  | SStr x => "'" ++ x ++ "'"
  | SInt i => str_of_Z i
  | SFloat x => x
  | SDatetime d => "'" ++ strftime_sql d ++ "'"
  end.

(** Modelled from the spec: see [format_scalar]. *)
Definition format_value (v : filter_value) : string :=
  match v with
  | VScalar s => format_scalar s
  | VList items => "(" ++ String.concat "," (map format_scalar items) ++ ")"
  end.

(** Modelled from the spec: see [format_scalar]. *)
Definition format_filter_item (f : JoinedFilter.t) : string :=
  JoinedFilterFieldEnum.value (JoinedFilter.column f) ++ " " ++
  FilterOperatorEnum.value (JoinedFilter.operator f) ++ " " ++
  format_value (JoinedFilter.value f).

(** The restriction a query carries: none, or the conjunction of the listed
    conditions. *)
Inductive where_clause (cond : Type) : Type :=
| NoWhere
| Where (conds : list cond).
Arguments NoWhere {cond}.
Arguments Where {cond} conds.

(** Modelled from the spec: [filters_to_sql] is not among the sources.
    Section 4.3, step 3: all filters are conjoined with [AND] and an empty
    list compiles to no restriction. *)
Definition filters_to_where {F : Type} (filters : list F) : where_clause F :=
  match filters with
  | [] => NoWhere
  | _ :: _ => Where filters
  end.

(** Modelled from the spec: the text of the clause, as
    [tests/test_metric_filter_formatting.py] expects it: the conditions
    joined by [" AND "] after [WHERE], and the SQL comment
    [--no where clause] when there is no filter. *)
Definition render_where {F : Type} (fmt : F -> string) (w : where_clause F)
  : string :=
  match w with
  | NoWhere => "--no where clause"
  | Where conds => "WHERE " ++ String.concat " AND " (map fmt conds)
  end.

(** Modelled from the spec: [filters_to_sql(filters)]. *)
Definition filters_to_sql (filters : list JoinedFilter.t) : string :=
  render_where format_filter_item (filters_to_where filters).

(** The other helpers of [tqu] that [create_get_metrics_query] calls with
    the request.  Their bodies are not among the sources; the builder is
    parameterised by them. *)
Inductive helper : Type :=
| _nse_cte
| _annual_metrics_cte
| _spearman_ranks_cte
| _select_primary_count
| _select_secondary_count
| _select_primary_minimum
| _select_secondary_minimum
| _select_primary_maximum
| _select_secondary_maximum
| _select_primary_average
| _select_secondary_average
| _select_primary_sum
| _select_secondary_sum
| _select_primary_variance
| _select_secondary_variance
| _select_max_value_delta
| _select_mean_error
| _select_nash_sutcliffe_efficiency
| _select_nash_sutcliffe_efficiency_normalized
| _select_kling_gupta_efficiency
| _select_kling_gupta_efficiency_mod1
| _select_kling_gupta_efficiency_mod2
| _select_mean_absolute_error
| _select_mean_squared_error
| _select_root_mean_squared_error
| _select_primary_max_value_time
| _select_secondary_max_value_time
| _select_max_value_timedelta
| _select_relative_bias
| _select_multiplicative_bias
| _select_mean_absolute_relative_error
| _select_pearson_correlation
| _select_r_squared
| _select_spearman_correlation
| _join_nse_cte
| _join_spearman_ranks_cte
| metrics_select_clause
| geometry_select_clause
| metric_geometry_join_clause_db
| _join_annual_metrics_cte.

(** Modelled from the spec: the expansion of [include_metrics] by the
    absent helpers.  Section 4.2: ["all"] expands to every registered metric
    id; a list stands for its members and a single id for itself.  The
    specification does not say what a single string that is neither ["all"]
    nor a registered id stands for. *)
Definition expand_include_metrics (im : MetricQuery.include_metrics_t)
  : option (list MetricEnum.t) :=
  match im with
  | MetricQuery.MetricList ms => Some ms
  | MetricQuery.MetricMember m => Some [m]
  | MetricQuery.MetricStr s =>
      if String.eqb s "all"
      then Some MetricEnum.members
      else match MetricEnum.of_value s with
           | Some m => Some [m]
           | None => None
           end
  end.

End tqu.

(** ** The interpreter state seen by the query builders *)

(** A reference to a request object. *)
Definition ref : Type := nat.

(** The shared state a builder runs in: the request objects on the heap. *)
Record world : Type := mk_world {
  objects : ref -> MetricQuery.t
}.

(** A computation that may read and write the shared state. *)
Definition st (A : Type) : Type := world -> A * world.

Definition st_ret {A : Type} (a : A) : st A := fun w => (a, w).

Definition st_bind {A B : Type} (m : st A) (k : A -> st B) : st B :=
  fun w => let (a, w') := m w in k a w'.

(** Reading attribute [attr] of the request behind [r]. *)
Definition getattr {A : Type} (attr : MetricQuery.t -> A) (r : ref) : st A :=
  fun w => (attr (objects w r), w).

(** Evaluating the items of a list from left to right. *)
Fixpoint st_mapM {A B : Type} (f : A -> st B) (l : list A) : st (list B) :=
  match l with
  | [] => st_ret []
  | a :: rest =>
      st_bind (f a) (fun b =>
      st_bind (st_mapM f rest) (fun bs => st_ret (b :: bs)))
  end.

(** ** [create_get_metrics_query]: the query text *)

(** An interpolation of the f-string. *)
Inductive interpolation : Type :=
| FiltersToSql                        (* tqu.filters_to_sql(mq.filters) *)
| Call (h : tqu.helper)               (* tqu.h(mq) *)
| JoinGroupBy (prefix : string)       (* ",".join([f"prefix{gb}" for gb in mq.group_by]) *)
| JoinOrderBy (prefix : string).      (* ",".join([f"prefix{ob}" for ob in mq.order_by]) *)

(** A line of the f-string: literal text, or indentation followed by one
    interpolation. *)
Inductive template_line : Type :=
| L (text : string)
| I (indent : string) (e : interpolation).

Definition metrics_query_template : list template_line :=
  [ L "";
    L "        WITH joined as (";
    L "            SELECT";
    L "                *";
    L "            FROM joined_timeseries sf";
    I "            " FiltersToSql;
    L "        )";
    I "        " (Call tqu._nse_cte);
    I "        " (Call tqu._annual_metrics_cte);
    I "        " (Call tqu._spearman_ranks_cte);
    L "        , metrics AS (";
    L "            SELECT";
    I "                " (JoinGroupBy "joined.");
    I "                " (Call tqu._select_primary_count);
    I "                " (Call tqu._select_secondary_count);
    I "                " (Call tqu._select_primary_minimum);
    I "                " (Call tqu._select_secondary_minimum);
    I "                " (Call tqu._select_primary_maximum);
    I "                " (Call tqu._select_secondary_maximum);
    I "                " (Call tqu._select_primary_average);
    I "                " (Call tqu._select_secondary_average);
    I "                " (Call tqu._select_primary_sum);
    I "                " (Call tqu._select_secondary_sum);
    I "                " (Call tqu._select_primary_variance);
    I "                " (Call tqu._select_secondary_variance);
    I "                " (Call tqu._select_max_value_delta);
    I "                " (Call tqu._select_mean_error);
    I "                " (Call tqu._select_nash_sutcliffe_efficiency);
    I "                " (Call tqu._select_nash_sutcliffe_efficiency_normalized);
    I "                " (Call tqu._select_kling_gupta_efficiency);
    I "                " (Call tqu._select_kling_gupta_efficiency_mod1);
    I "                " (Call tqu._select_kling_gupta_efficiency_mod2);
    I "                " (Call tqu._select_mean_absolute_error);
    I "                " (Call tqu._select_mean_squared_error);
    I "                " (Call tqu._select_root_mean_squared_error);
    I "                " (Call tqu._select_primary_max_value_time);
    I "                " (Call tqu._select_secondary_max_value_time);
    I "                " (Call tqu._select_max_value_timedelta);
    I "                " (Call tqu._select_relative_bias);
    I "                " (Call tqu._select_multiplicative_bias);
    I "                " (Call tqu._select_mean_absolute_relative_error);
    I "                " (Call tqu._select_pearson_correlation);
    I "                " (Call tqu._select_r_squared);
    I "                " (Call tqu._select_spearman_correlation);
    L "            FROM";
    L "                joined";
    I "                " (Call tqu._join_nse_cte);
    I "                " (Call tqu._join_spearman_ranks_cte);
    L "            GROUP BY";
    I "                " (JoinGroupBy "joined.");
    L "        )";
    L "        SELECT";
    I "            " (JoinGroupBy "metrics.");
    I "            " (Call tqu.metrics_select_clause);
    I "            " (Call tqu.geometry_select_clause);
    L "        FROM metrics";
    I "            " (Call tqu.metric_geometry_join_clause_db);
    I "            " (Call tqu._join_annual_metrics_cte);
    L "        ORDER BY";
    I "            " (JoinOrderBy "metrics.");
    L "    ;" ].

(** [",".join([f"{prefix}{x}" for x in fields])]. *)
Definition join_fields (prefix : string) (fields : list JoinedFilterFieldEnum.t)
  : string :=
  String.concat ","
    (map (fun x => (prefix ++ JoinedFilterFieldEnum.value x)%string) fields).

Section MetricsQueryText.

(** The helpers of [tqu] as the interpreter runs them: handed the reference
    to the request, in the shared state. *)
Variable call_tqu : tqu.helper -> ref -> st string.

Definition eval_interpolation (mq : ref) (e : interpolation) : st string :=
  match e with
  | FiltersToSql =>
      st_bind (getattr MetricQuery.filters mq) (fun fs =>
      st_ret (tqu.filters_to_sql fs))
  | Call h => call_tqu h mq
  | JoinGroupBy prefix =>
      st_bind (getattr MetricQuery.group_by mq) (fun gb =>
      st_ret (join_fields prefix gb))
  | JoinOrderBy prefix =>
      st_bind (getattr MetricQuery.order_by mq) (fun ob =>
      st_ret (join_fields prefix ob))
  end.

Definition eval_line (mq : ref) (l : template_line) : st string :=
  match l with
  | L text => st_ret text
  | I indent e =>
      st_bind (eval_interpolation mq e) (fun s => st_ret (indent ++ s)%string)
  end.

Definition create_get_metrics_query (mq : ref) : st string :=
  st_bind (st_mapM (eval_line mq) metrics_query_template) (fun lines =>
  st_ret (String.concat nl lines)).

End MetricsQueryText.

(** The text of one line as a function of the value of the request, for
    helpers that are functions of the value of the request. *)
Definition line_text (tqu_text : tqu.helper -> MetricQuery.t -> string)
  (q : MetricQuery.t) (l : template_line) : string :=
  match l with
  | L text => text
  | I indent FiltersToSql =>
      (indent ++ tqu.filters_to_sql (MetricQuery.filters q))%string
  | I indent (Call h) => (indent ++ tqu_text h q)%string
  | I indent (JoinGroupBy prefix) =>
      (indent ++ join_fields prefix (MetricQuery.group_by q))%string
  | I indent (JoinOrderBy prefix) =>
      (indent ++ join_fields prefix (MetricQuery.order_by q))%string
  end.

(** The text of the query as a function of the value of the request. *)
Definition metrics_query_text (tqu_text : tqu.helper -> MetricQuery.t -> string)
  (q : MetricQuery.t) : string :=
  String.concat nl (map (line_text tqu_text q) metrics_query_template).


(** ** Relations: lists of rows and the SQL operators the queries use *)

(** [ORDER BY]: a stable sort, by insertion. *)
Fixpoint insert_by {A : Type} (leb : A -> A -> bool) (x : A) (l : list A)
  : list A :=
  match l with
  | [] => [x]
  | y :: rest => if leb x y then x :: l else y :: insert_by leb x rest
  end.

Fixpoint sort_by {A : Type} (leb : A -> A -> bool) (l : list A) : list A :=
  match l with
  | [] => []
  | x :: rest => insert_by leb x (sort_by leb rest)
  end.

(** [DISTINCT]: the first occurrence of every value, in scan order. *)
Fixpoint distinct_by {A : Type} (eqb : A -> A -> bool) (l : list A) : list A :=
  match l with
  | [] => []
  | x :: rest => x :: filter (fun y => negb (eqb x y)) (distinct_by eqb rest)
  end.

(** [GROUP BY]: one group per distinct key, holding a representative and
    all the rows that share its key, in scan order. *)
Definition group_by {A : Type} (same : A -> A -> bool) (rows : list A)
  : list (A * list A) :=
  map (fun rep => (rep, filter (same rep) rows)) (distinct_by same rows).

(** [HAVING COUNT( * ) > 1]. *)
Definition having_count_gt_1 {A : Type} (g : A * list A) : bool :=
  Nat.ltb 1 (List.length (snd g)).

(** [ANY_VALUE(col)] over a group: the value of the first row of the
    group. *)
Definition any_value {A B : Type} (col : A -> B) (g : A * list A) : B :=
  hd (col (fst g)) (map col (snd g)).

(** The rows of a relation paired with their position in scan order. *)
Definition indexed {A : Type} (l : list A) : list (nat * A) :=
  combine (seq 0 (List.length l)) l.

(** Every element of a list of options, or nothing. *)
Fixpoint all_some {A : Type} (l : list (option A)) : option (list A) :=
  match l with
  | [] => Some []
  | Some a :: rest =>
      match all_some rest with
      | Some r => Some (a :: r)
      | None => None
      end
  | None :: _ => None
  end.

(** The [WHERE] stage: a row passes when every condition holds on it, and
    every row passes when there is no clause.  [holds] is the engine's
    evaluation of one condition on one row. *)
Definition eval_where {F R : Type} (holds : F -> R -> bool)
  (w : tqu.where_clause F) (r : R) : bool :=
  match w with
  | tqu.NoWhere => true
  | tqu.Where conds => forallb (fun c => holds c r) conds
  end.

Definition select_where {F R : Type} (holds : F -> R -> bool)
  (w : tqu.where_clause F) (rows : list R) : list R :=
  filter (eval_where holds w) rows.

(** ** Stored values *)

(** The [value] columns hold 32-bit floats.  Their arithmetic is not
    modelled: the operations the queries apply to them are an interface. *)
Class ValueOps (value : Type) : Type := {
  value_eqb : value -> value -> bool;           (* SQL equality in GROUP BY / DISTINCT *)
  value_leb : value -> value -> bool;           (* SQL ordering in ORDER BY *)
  value_abs_diff : value -> value -> value      (* abs(a - b) *)
}.

(** One cell of a column.  Timestamps are seconds since the epoch,
    intervals are seconds; every column is NOT NULL, as in the store
    schema. *)
Inductive cell (value : Type) : Type :=
| CText (s : string)
| CTime (t : Z)
| CInterval (d : Z)
| CValue (v : value).
Arguments CText {value} s.
Arguments CTime {value} t.
Arguments CInterval {value} d.
Arguments CValue {value} v.

Definition cell_rank {value : Type} (c : cell value) : nat :=
  match c with
  | CText _ => 0
  | CTime _ => 1
  | CInterval _ => 2
  | CValue _ => 3
  end.

Definition cell_eqb {value : Type} `{ValueOps value} (a b : cell value)
  : bool :=
  match a, b with
  | CText x, CText y => String.eqb x y
  | CTime x, CTime y => Z.eqb x y
  | CInterval x, CInterval y => Z.eqb x y
  | CValue x, CValue y => value_eqb x y
  | _, _ => false
  end.

(** Ascending order of the cells of a column.  A column holds cells of one
    kind; cells of different kinds are ordered by kind. *)
Definition cell_leb {value : Type} `{ValueOps value} (a b : cell value)
  : bool :=
  match a, b with
  | CText x, CText y => String.leb x y
  | CTime x, CTime y => Z.leb x y
  | CInterval x, CInterval y => Z.leb x y
  | CValue x, CValue y => value_leb x y
  | _, _ => Nat.leb (cell_rank a) (cell_rank b)
  end.

(** [ORDER BY k1, k2, ...], ascending: rows compare by the first key on
    which they differ. *)
Fixpoint lex_leb {value R : Type} `{ValueOps value}
  (keys : list (R -> cell value)) (a b : R) : bool :=
  match keys with
  | [] => true
  | k :: ks =>
      if cell_eqb (k a) (k b) then lex_leb ks a b else cell_leb (k a) (k b)
  end.

(** The [ORDER BY] clause built from a list of field names.  The engine
    rejects the statement when the list is empty (the clause has no
    expression) or when a name does not resolve to a column. *)
Definition sql_order_by {value F R : Type} `{ValueOps value}
  (resolve : F -> option (R -> cell value)) (fields : list F)
  (rows : list R) : option (list R) :=
  match fields with
  | [] => None
  | _ :: _ =>
      match all_some (map resolve fields) with
      | Some keys => Some (sort_by (lex_leb keys) rows)
      | None => None
      end
  end.

(** ** The stores *)

(** A row of a timeseries store (and of the result of a timeseries
    query). *)
Record timeseries_row (value : Type) : Type := mk_timeseries_row {
  ts_value : value;
  ts_reference_time : Z;
  ts_location_id : string;
  ts_value_time : Z;
  ts_configuration : string;
  ts_variable_name : string;
  ts_measurement_unit : string
}.
Arguments mk_timeseries_row {value}.
Arguments ts_value {value}.
Arguments ts_reference_time {value}.
Arguments ts_location_id {value}.
Arguments ts_value_time {value}.
Arguments ts_configuration {value}.
Arguments ts_variable_name {value}.
Arguments ts_measurement_unit {value}.

Record crosswalk_row : Type := mk_crosswalk_row {
  cw_primary_location_id : string;
  cw_secondary_location_id : string
}.

(** A row of the [initial_joined] stage. *)
Record initial_joined_row (value : Type) : Type := mk_initial_joined_row {
  ij_reference_time : Z;
  ij_value_time : Z;
  ij_secondary_location_id : string;
  ij_secondary_value : value;
  ij_configuration : string;
  ij_measurement_unit : string;
  ij_primary_reference_time : Z;
  ij_variable_name : string;
  ij_primary_value : value;
  ij_primary_location_id : string;
  ij_lead_time : Z;
  ij_absolute_difference : value
}.
Arguments mk_initial_joined_row {value}.
Arguments ij_reference_time {value}.
Arguments ij_value_time {value}.
Arguments ij_secondary_location_id {value}.
Arguments ij_secondary_value {value}.
Arguments ij_configuration {value}.
Arguments ij_measurement_unit {value}.
Arguments ij_primary_reference_time {value}.
Arguments ij_variable_name {value}.
Arguments ij_primary_value {value}.
Arguments ij_primary_location_id {value}.
Arguments ij_lead_time {value}.
Arguments ij_absolute_difference {value}.

(** A row of the [joined_timeseries] table. *)
Record joined_row (value : Type) : Type := mk_joined_row {
  reference_time : Z;
  value_time : Z;
  secondary_location_id : string;
  secondary_value : value;
  configuration : string;
  measurement_unit : string;
  variable_name : string;
  primary_value : value;
  primary_location_id : string;
  lead_time : Z;
  absolute_difference : value
}.
Arguments mk_joined_row {value}.
Arguments reference_time {value}.
Arguments value_time {value}.
Arguments secondary_location_id {value}.
Arguments secondary_value {value}.
Arguments configuration {value}.
Arguments measurement_unit {value}.
Arguments variable_name {value}.
Arguments primary_value {value}.
Arguments primary_location_id {value}.
Arguments lead_time {value}.
Arguments absolute_difference {value}.

(** The parquet files a query reads, by path. *)
Record parquet_files (value : Type) : Type := mk_parquet_files {
  read_parquet : string -> list (timeseries_row value);
  read_parquet_crosswalk : string -> list crosswalk_row
}.
Arguments read_parquet {value}.
Arguments read_parquet_crosswalk {value}.

(** The columns of [joined_timeseries]. *)
Inductive joined_timeseries_column : Type :=
| col_reference_time
| col_value_time
| col_secondary_location_id
| col_secondary_value
| col_configuration
| col_measurement_unit
| col_variable_name
| col_primary_value
| col_primary_location_id
| col_lead_time
| col_absolute_difference.

Definition column_name (c : joined_timeseries_column) : string :=
  match c with
  | col_reference_time => "reference_time"
  | col_value_time => "value_time"
  | col_secondary_location_id => "secondary_location_id"
  | col_secondary_value => "secondary_value"
  | col_configuration => "configuration"
  | col_measurement_unit => "measurement_unit"
  | col_variable_name => "variable_name"
  | col_primary_value => "primary_value"
  | col_primary_location_id => "primary_location_id"
  | col_lead_time => "lead_time"
  | col_absolute_difference => "absolute_difference"
  end.

Definition column_cell {value : Type} (c : joined_timeseries_column)
  (r : joined_row value) : cell value :=
  match c with
  | col_reference_time => CTime (reference_time r)
  | col_value_time => CTime (value_time r)
  | col_secondary_location_id => CText (secondary_location_id r)
  | col_secondary_value => CValue (secondary_value r)
  | col_configuration => CText (configuration r)
  | col_measurement_unit => CText (measurement_unit r)
  | col_variable_name => CText (variable_name r)
  | col_primary_value => CValue (primary_value r)
  | col_primary_location_id => CText (primary_location_id r)
  | col_lead_time => CInterval (lead_time r)
  | col_absolute_difference => CValue (absolute_difference r)
  end.

(** The column of [joined_timeseries] a joined field name denotes;
    [geometry] is not a column of the table. *)
Definition joined_field_column (f : JoinedFilterFieldEnum.t)
  : option joined_timeseries_column :=
  match f with
  | JoinedFilterFieldEnum.value_time => Some col_value_time
  | JoinedFilterFieldEnum.reference_time => Some col_reference_time
  | JoinedFilterFieldEnum.secondary_location_id =>
      Some col_secondary_location_id
  | JoinedFilterFieldEnum.secondary_value => Some col_secondary_value
  | JoinedFilterFieldEnum.configuration => Some col_configuration
  | JoinedFilterFieldEnum.measurement_unit => Some col_measurement_unit
  | JoinedFilterFieldEnum.variable_name => Some col_variable_name
  | JoinedFilterFieldEnum.primary_value => Some col_primary_value
  | JoinedFilterFieldEnum.primary_location_id => Some col_primary_location_id
  | JoinedFilterFieldEnum.lead_time => Some col_lead_time
  | JoinedFilterFieldEnum.geometry => None
  end.

Definition resolve_joined_field {value : Type} (f : JoinedFilterFieldEnum.t)
  : option (joined_row value -> cell value) :=
  match joined_field_column f with
  | Some c => Some (column_cell c)
  | None => None
  end.


(** ** [TimeseriesQuery] *)

Module TimeseriesQuery.

(** Modelled from the spec: the [TimeseriesQuery] that
    [duckdb_database.py] imports from [teehr.models.queries_database] is not
    among the sources.  It is the timeseries request of section 3 (filters
    and ordering over one series) with the [timeseries_name] attribute the
    builder reads. *)
Record t : Type := mk {
  timeseries_name : string;
  order_by : list TimeseriesFilterFieldEnum.t;
  filters : list TimeseriesFilter.t
}.

End TimeseriesQuery.

Section Queries.

Context {value : Type} `{ValueOps value}.

(** *** [create_join_and_save_timeseries_query] *)

(** The [initial_joined] stage: the secondary series joined to the
    crosswalk on the secondary location, then to the primary series on the
    primary location, the value time, the unit and the variable. *)
Definition initial_joined (files : parquet_files value)
  (jtq : JoinedTimeseriesQuery.t) : list (initial_joined_row value) :=
  flat_map (fun sf =>
    flat_map (fun cf =>
      if String.eqb (cw_secondary_location_id cf) (ts_location_id sf)
      then
        flat_map (fun pf =>
          if String.eqb (cw_primary_location_id cf) (ts_location_id pf)
             && Z.eqb (ts_value_time sf) (ts_value_time pf)
             && String.eqb (ts_measurement_unit sf) (ts_measurement_unit pf)
             && String.eqb (ts_variable_name sf) (ts_variable_name pf)
          then
            [ {| ij_reference_time := ts_reference_time sf;
                 ij_value_time := ts_value_time sf;
                 ij_secondary_location_id := ts_location_id sf;
                 ij_secondary_value := ts_value sf;
                 ij_configuration := ts_configuration sf;
                 ij_measurement_unit := ts_measurement_unit sf;
                 ij_primary_reference_time := ts_reference_time pf;
                 ij_variable_name := ts_variable_name sf;
                 ij_primary_value := ts_value pf;
                 ij_primary_location_id := ts_location_id pf;
                 ij_lead_time :=
                   (ts_value_time sf - ts_reference_time sf)%Z;
                 ij_absolute_difference :=
                   value_abs_diff (ts_value pf) (ts_value sf) |} ]
          else [])
          (read_parquet files
             (filepath_str (JoinedTimeseriesQuery.primary_filepath jtq)))
      else [])
      (read_parquet_crosswalk files
         (filepath_str (JoinedTimeseriesQuery.crosswalk_filepath jtq))))
    (read_parquet files
       (filepath_str (JoinedTimeseriesQuery.secondary_filepath jtq))).

(** [PARTITION BY value_time, primary_location_id, configuration,
    variable_name, measurement_unit, reference_time]. *)
Definition partition_key (r : initial_joined_row value)
  : Z * string * string * string * string * Z :=
  (ij_value_time r, ij_primary_location_id r, ij_configuration r,
   ij_variable_name r, ij_measurement_unit r, ij_reference_time r).

Definition key_eqb (a b : Z * string * string * string * string * Z) : bool :=
  match a, b with
  | (vt, pl, cf, vn, mu, rt), (vt', pl', cf', vn', mu', rt') =>
      Z.eqb vt vt' && String.eqb pl pl' && String.eqb cf cf'
      && String.eqb vn vn' && String.eqb mu mu' && Z.eqb rt rt'
  end.

Definition same_partition (a b : initial_joined_row value) : bool :=
  key_eqb (partition_key a) (partition_key b).

(** [ORDER BY primary_reference_time desc] inside a partition: [a] comes
    before [b] when its primary reference time is later; rows with equal
    times keep their scan order. *)
Definition sorts_before (a b : nat * initial_joined_row value) : bool :=
  Z.ltb (ij_primary_reference_time (snd b)) (ij_primary_reference_time (snd a))
  || (Z.eqb (ij_primary_reference_time (snd a))
            (ij_primary_reference_time (snd b))
      && Nat.ltb (fst a) (fst b)).

(** [SELECT *, row_number() OVER (PARTITION BY ... ORDER BY ...) AS rn]:
    the number of a row is one more than the number of rows of its
    partition that come before it. *)
Definition row_number_over (rows : list (initial_joined_row value))
  : list (initial_joined_row value * nat) :=
  let tagged := indexed rows in
  map (fun a =>
         (snd a,
          S (List.length
               (filter (fun b => same_partition (snd b) (snd a)
                                 && sorts_before b a)
                  tagged))))
    tagged.

(** The select list of the [joined] stage. *)
Definition project_joined (r : initial_joined_row value) : joined_row value :=
  {| reference_time := ij_reference_time r;
     value_time := ij_value_time r;
     secondary_location_id := ij_secondary_location_id r;
     secondary_value := ij_secondary_value r;
     configuration := ij_configuration r;
     measurement_unit := ij_measurement_unit r;
     variable_name := ij_variable_name r;
     primary_value := ij_primary_value r;
     primary_location_id := ij_primary_location_id r;
     lead_time := ij_lead_time r;
     absolute_difference := ij_absolute_difference r |}.

(** The [joined] stage: [... WHERE rn = 1]. *)
Definition joined (rows : list (initial_joined_row value))
  : list (joined_row value) :=
  map (fun p => project_joined (fst p))
    (filter (fun p => Nat.eqb (snd p) 1) (row_number_over rows)).

(** The rows the statement inserts into [joined_timeseries]:
    [SELECT * FROM joined ORDER BY order_by]; nothing when the engine
    rejects the statement. *)
Definition join_and_save_timeseries (files : parquet_files value)
  (jtq : JoinedTimeseriesQuery.t) : option (list (joined_row value)) :=
  sql_order_by resolve_joined_field (JoinedTimeseriesQuery.order_by jtq)
    (joined (initial_joined files jtq)).

(** The key of a row of [joined_timeseries] on the partition columns. *)
Definition joined_key (r : joined_row value)
  : Z * string * string * string * string * Z :=
  (value_time r, primary_location_id r, configuration r,
   variable_name r, measurement_unit r, reference_time r).

(** *** [create_get_metrics_query]: the [joined] stage *)

(** [SELECT * FROM joined_timeseries sf {filters_to_sql(mq.filters)}]. *)
Definition metrics_joined (holds : JoinedFilter.t -> joined_row value -> bool)
  (mq : MetricQuery.t) (joined_timeseries : list (joined_row value))
  : list (joined_row value) :=
  select_where holds (tqu.filters_to_where (MetricQuery.filters mq))
    joined_timeseries.

(** *** [describe_timeseries] *)

Record output_report : Type := mk_output_report {
  num_location_ids : nat;               (* "Number of unique location IDs" *)
  total_num_rows : nat;                 (* "Total number of rows" *)
  start_date : option Z;                (* "Start Date" *)
  end_date : option Z;                  (* "End Date" *)
  num_duplicate_rows : nat;             (* "Number of duplicate rows" *)
  num_locations_with_duplicate_value_times : nat;
  num_locations_with_missing_timesteps : nat
}.

Definition min_Z (l : list Z) : option Z :=
  match l with
  | [] => None
  | x :: rest => Some (fold_left Z.min rest x)
  end.

Definition max_Z (l : list Z) : option Z :=
  match l with
  | [] => None
  | x :: rest => Some (fold_left Z.max rest x)
  end.

(** Grouping on all seven columns. *)
Definition same_row (a b : timeseries_row value) : bool :=
  Z.eqb (ts_value_time a) (ts_value_time b)
  && String.eqb (ts_location_id a) (ts_location_id b)
  && value_eqb (ts_value a) (ts_value b)
  && String.eqb (ts_measurement_unit a) (ts_measurement_unit b)
  && Z.eqb (ts_reference_time a) (ts_reference_time b)
  && String.eqb (ts_configuration a) (ts_configuration b)
  && String.eqb (ts_variable_name a) (ts_variable_name b).

(** Grouping on [value_time, location_id, measurement_unit, configuration,
    variable_name]. *)
Definition same_value_time (a b : timeseries_row value) : bool :=
  Z.eqb (ts_value_time a) (ts_value_time b)
  && String.eqb (ts_location_id a) (ts_location_id b)
  && String.eqb (ts_measurement_unit a) (ts_measurement_unit b)
  && String.eqb (ts_configuration a) (ts_configuration b)
  && String.eqb (ts_variable_name a) (ts_variable_name b).

(** Grouping on [location_id, reference_time]. *)
Definition same_forecast (a b : timeseries_row value) : bool :=
  String.eqb (ts_location_id a) (ts_location_id b)
  && Z.eqb (ts_reference_time a) (ts_reference_time b).

(** [value_time - LAG(value_time) OVER (... ORDER BY value_time)] for the
    rows of one partition; the first row has no step. *)
Definition value_time_steps (rows : list (timeseries_row value)) : list Z :=
  let vts := sort_by Z.leb (map ts_value_time rows) in
  map (fun p => (snd p - fst p)%Z) (combine vts (tl vts)).

(** [max_timestep = min_timestep AS none_missing]; [None] is NULL. *)
Definition none_missing (g : timeseries_row value * list (timeseries_row value))
  : option bool :=
  match max_Z (value_time_steps (snd g)), min_Z (value_time_steps (snd g)) with
  | Some mx, Some mn => Some (Z.eqb mx mn)
  | _, _ => None
  end.

Definition describe_timeseries (files : parquet_files value)
  (timeseries_filepath : string) : output_report :=
  let rows := read_parquet files timeseries_filepath in
  {| num_location_ids :=
       List.length (distinct_by String.eqb (map ts_location_id rows));
     total_num_rows := List.length rows;
     start_date := min_Z (map ts_value_time rows);
     end_date := max_Z (map ts_value_time rows);
     (* df.index.size of the groups on all columns HAVING COUNT( * ) > 1 *)
     num_duplicate_rows :=
       List.length (filter having_count_gt_1 (group_by same_row rows));
     num_locations_with_duplicate_value_times :=
       List.length
         (distinct_by String.eqb
            (map (fun g => ts_location_id (fst g))
               (filter (fun g => Nat.ltb 1 (List.length (snd g)))
                  (filter having_count_gt_1
                     (group_by same_value_time rows)))));
     num_locations_with_missing_timesteps :=
       List.length
         (filter (fun g => match none_missing g with
                           | Some false => true
                           | _ => false
                           end)
            (group_by same_forecast rows)) |}.

(** *** [create_get_timeseries_query] *)

(** [GROUP BY value_time, primary_location_id, measurement_unit,
    variable_name]. *)
Definition primary_series_key (r : joined_row value)
  : Z * string * string * string :=
  (value_time r, primary_location_id r, measurement_unit r, variable_name r).

Definition same_primary_series_key (a b : joined_row value) : bool :=
  Z.eqb (value_time a) (value_time b)
  && String.eqb (primary_location_id a) (primary_location_id b)
  && String.eqb (measurement_unit a) (measurement_unit b)
  && String.eqb (variable_name a) (variable_name b).

(** The select list of the primary branch, over one group. *)
Definition primary_series_row (g : joined_row value * list (joined_row value))
  : timeseries_row value :=
  {| ts_reference_time := any_value reference_time g;
     ts_value := any_value primary_value g;
     ts_value_time := value_time (fst g);
     ts_location_id := primary_location_id (fst g);
     ts_configuration := "primary";
     ts_measurement_unit := measurement_unit (fst g);
     ts_variable_name := variable_name (fst g) |}.

(** The select list of the other branch, over one row. *)
Definition secondary_series_row (r : joined_row value) : timeseries_row value :=
  {| ts_reference_time := reference_time r;
     ts_value_time := value_time r;
     ts_location_id := secondary_location_id r;
     ts_value := secondary_value r;
     ts_configuration := configuration r;
     ts_measurement_unit := measurement_unit r;
     ts_variable_name := variable_name r |}.

(** [ORDER BY] of the primary branch: a name denotes a column of the select
    list.  [lead_time] is neither grouped nor aggregated and [geometry] is
    not a column, so the engine rejects them. *)
Definition resolve_primary_order (f : TimeseriesFilterFieldEnum.t)
  : option (timeseries_row value -> cell value) :=
  match f with
  | TimeseriesFilterFieldEnum.value_time =>
      Some (fun r => CTime (ts_value_time r))
  | TimeseriesFilterFieldEnum.reference_time =>
      Some (fun r => CTime (ts_reference_time r))
  | TimeseriesFilterFieldEnum.location_id =>
      Some (fun r => CText (ts_location_id r))
  | TimeseriesFilterFieldEnum.value => Some (fun r => CValue (ts_value r))
  | TimeseriesFilterFieldEnum.configuration =>
      Some (fun r => CText (ts_configuration r))
  | TimeseriesFilterFieldEnum.measurement_unit =>
      Some (fun r => CText (ts_measurement_unit r))
  | TimeseriesFilterFieldEnum.variable_name =>
      Some (fun r => CText (ts_variable_name r))
  | TimeseriesFilterFieldEnum.lead_time => None
  | TimeseriesFilterFieldEnum.geometry => None
  end.

(** [ORDER BY] of the other branch: a name denotes a column of the select
    list or, failing that, a column of [joined_timeseries]. *)
Definition resolve_secondary_order (f : TimeseriesFilterFieldEnum.t)
  : option (joined_row value -> cell value) :=
  match f with
  | TimeseriesFilterFieldEnum.value_time => Some (column_cell col_value_time)
  | TimeseriesFilterFieldEnum.reference_time =>
      Some (column_cell col_reference_time)
  | TimeseriesFilterFieldEnum.location_id =>
      Some (column_cell col_secondary_location_id)
  | TimeseriesFilterFieldEnum.value => Some (column_cell col_secondary_value)
  | TimeseriesFilterFieldEnum.configuration =>
      Some (column_cell col_configuration)
  | TimeseriesFilterFieldEnum.measurement_unit =>
      Some (column_cell col_measurement_unit)
  | TimeseriesFilterFieldEnum.variable_name =>
      Some (column_cell col_variable_name)
  | TimeseriesFilterFieldEnum.lead_time => Some (column_cell col_lead_time)
  | TimeseriesFilterFieldEnum.geometry => None
  end.

(** The rows the query built by [create_get_timeseries_query] returns over
    a [joined_timeseries] table; nothing when the engine rejects it. *)
Definition get_timeseries
  (holds : TimeseriesFilter.t -> joined_row value -> bool)
  (tq : TimeseriesQuery.t) (joined_timeseries : list (joined_row value))
  : option (list (timeseries_row value)) :=
  let sf := select_where holds
              (tqu.filters_to_where (TimeseriesQuery.filters tq))
              joined_timeseries in
  if String.eqb (TimeseriesQuery.timeseries_name tq) "primary"
  then
    sql_order_by resolve_primary_order (TimeseriesQuery.order_by tq)
      (map primary_series_row (group_by same_primary_series_key sf))
  else
    option_map (map secondary_series_row)
      (sql_order_by resolve_secondary_order (TimeseriesQuery.order_by tq) sf).

(** *** [create_unique_field_values_query] *)

(** The rows of [SELECT DISTINCT fn AS unique_fn_values FROM
    joined_timeseries ORDER BY fn]. *)
Definition unique_field_values (fn : joined_timeseries_column)
  (joined_timeseries : list (joined_row value)) : list (cell value) :=
  sort_by cell_leb
    (distinct_by cell_eqb (map (column_cell fn) joined_timeseries)).

End Queries.

(** Modelled from the spec: [JoinedTimeseriesFieldName] is declared in
    [teehr.models.queries_database], which is not among the sources; its
    [field_name] is the name of a column of the joined store (section 4.4
    and section 6). *)
Definition create_unique_field_values_query (fn : joined_timeseries_column)
  : string :=
  String.concat nl
    [ "";
      "        SELECT";
      "        DISTINCT";
      "            " ++ column_name fn;
      "        AS unique_" ++ column_name fn ++ "_values,";
      "        FROM";
      "            joined_timeseries";
      "        ORDER BY";
      "            " ++ column_name fn;
      "        " ]%string.

(** Values in fixed-point units: the instance the examples run on. *)
#[export] Instance Z_ValueOps : ValueOps Z :=
  {| value_eqb := Z.eqb;
     value_leb := Z.leb;
     value_abs_diff := fun a b => Z.abs (a - b) |}.

(** ** Example inputs *)

(** A request as a caller writes it, with the fields the examples vary. *)
Definition example_metric_request (group_by order_by : list string)
  (include_metrics : MetricQuery.raw_include_metrics_t)
  (geometry_filepath : option filepath) (include_geometry : bool)
  : MetricQuery.raw :=
  {| MetricQuery.raw_primary_filepath := PathStr "primary.parquet";
     MetricQuery.raw_secondary_filepath := PathStr "secondary.parquet";
     MetricQuery.raw_crosswalk_filepath := PathStr "crosswalk.parquet";
     MetricQuery.raw_group_by := group_by;
     MetricQuery.raw_order_by := order_by;
     MetricQuery.raw_include_metrics := include_metrics;
     MetricQuery.raw_filters := Some [];
     MetricQuery.raw_return_query := false;
     MetricQuery.raw_geometry_filepath := geometry_filepath;
     MetricQuery.raw_include_geometry := include_geometry;
     MetricQuery.raw_remove_duplicates := Some true |}.

(** A text is an SQL line comment when it starts with two dashes and holds
    no line break: the parser skips it up to the end of the line. *)
Fixpoint has_newline (s : string) : bool :=
  match s with
  | EmptyString => false
  | String c rest => Ascii.eqb c "010"%char || has_newline rest
  end.

Definition is_sql_line_comment (s : string) : bool :=
  String.prefix "--" s && negb (has_newline s).

(** The filters of [test_multiple_filters]. *)
Definition example_filters : list JoinedFilter.t :=
  [ JoinedFilter.mk JoinedFilterFieldEnum.secondary_location_id
      FilterOperatorEnum.isin (VList [SStr "123456"; SStr "9876543"]);
    JoinedFilter.mk JoinedFilterFieldEnum.reference_time
      FilterOperatorEnum.eq
      (VScalar (SDatetime (mk_datetime 2023 1 1 0 0 0))) ].

(** The laws of the value interface the properties rely on: equality is
    decided by [value_eqb] and [value_leb] is a total preorder. *)
Class ValueLaws (value : Type) `{ValueOps value} : Prop := {
  value_eqb_eq : forall a b : value, value_eqb a b = true <-> a = b;
  value_leb_total :
    forall a b : value, value_leb a b = true \/ value_leb b a = true;
  value_leb_trans :
    forall a b c : value,
      value_leb a b = true -> value_leb b c = true -> value_leb a c = true
}.

(** ** Counts of duplicate rows, as the specification words them *)

(** The rows of the store that are identical, on all seven columns, to
    another row of the store. *)
Definition count_exact_duplicate_rows {value : Type} `{ValueOps value}
  (rows : list (timeseries_row value)) : nat :=
  List.length
    (filter (fun a =>
               existsb (fun b => negb (Nat.eqb (fst a) (fst b))
                                 && same_row (snd a) (snd b))
                 (indexed rows))
       (indexed rows)).

(** The rows of the store beyond the first copy of each distinct row. *)
Definition count_surplus_rows {value : Type} `{ValueOps value}
  (rows : list (timeseries_row value)) : nat :=
  List.length rows - List.length (distinct_by same_row rows).

(** The key columns of a row of a timeseries result. *)
Definition timeseries_row_key {value : Type} (o : timeseries_row value)
  : Z * string * string * string :=
  (ts_value_time o, ts_location_id o, ts_measurement_unit o,
   ts_variable_name o).

(** Three copies of one observation. *)
Definition example_observation : timeseries_row Z :=
  {| ts_value := 10%Z; ts_reference_time := 0%Z; ts_location_id := "gage-A";
     ts_value_time := 3600%Z; ts_configuration := "usgs_gage_data";
     ts_variable_name := "streamflow"; ts_measurement_unit := "m3/s" |}.

Definition example_duplicated_store : parquet_files Z :=
  {| read_parquet := fun _ =>
       [example_observation; example_observation; example_observation];
     read_parquet_crosswalk := fun _ => [] |}.

(** A validated request with the given filters. *)
Definition example_metric_query (filters : list JoinedFilter.t)
  : MetricQuery.t :=
  {| MetricQuery.primary_filepath := PathStr "primary.parquet";
     MetricQuery.secondary_filepath := PathStr "secondary.parquet";
     MetricQuery.crosswalk_filepath := PathStr "crosswalk.parquet";
     MetricQuery.group_by := [JoinedFilterFieldEnum.primary_location_id];
     MetricQuery.order_by := [JoinedFilterFieldEnum.primary_location_id];
     MetricQuery.include_metrics :=
       MetricQuery.MetricList [MetricEnum.primary_count];
     MetricQuery.filters := filters;
     MetricQuery.return_query := true;
     MetricQuery.geometry_filepath := None;
     MetricQuery.include_geometry := false;
     MetricQuery.remove_duplicates := Some true |}.

(** One forecast value, and two observations of the same hour that differ
    in their reference time and value. *)
Definition example_forecast : timeseries_row Z :=
  {| ts_value := 11%Z; ts_reference_time := 0%Z; ts_location_id := "fcst-A";
     ts_value_time := 3600%Z; ts_configuration := "short_range";
     ts_variable_name := "streamflow"; ts_measurement_unit := "m3/s" |}.

Definition example_revised_observation : timeseries_row Z :=
  {| ts_value := 12%Z; ts_reference_time := 100%Z;
     ts_location_id := "gage-A"; ts_value_time := 3600%Z;
     ts_configuration := "usgs_gage_data";
     ts_variable_name := "streamflow"; ts_measurement_unit := "m3/s" |}.

Definition example_files : parquet_files Z :=
  {| read_parquet := fun path =>
       if String.eqb path "primary.parquet"
       then [example_observation; example_revised_observation]
       else if String.eqb path "secondary.parquet"
       then [example_forecast]
       else [];
     read_parquet_crosswalk := fun _ =>
       [ {| cw_primary_location_id := "gage-A";
            cw_secondary_location_id := "fcst-A" |} ] |}.

Definition example_joined_query : JoinedTimeseriesQuery.t :=
  {| JoinedTimeseriesQuery.primary_filepath := PathStr "primary.parquet";
     JoinedTimeseriesQuery.secondary_filepath := PathStr "secondary.parquet";
     JoinedTimeseriesQuery.crosswalk_filepath := PathStr "crosswalk.parquet";
     JoinedTimeseriesQuery.order_by :=
       [JoinedFilterFieldEnum.primary_location_id];
     JoinedTimeseriesQuery.filters := [];
     JoinedTimeseriesQuery.return_query := false;
     JoinedTimeseriesQuery.geometry_filepath := None;
     JoinedTimeseriesQuery.include_geometry := false;
     JoinedTimeseriesQuery.remove_duplicates := Some true |}.

(** A joined store: two forecasts for one observed hour. *)
Definition example_joined_store : list (joined_row Z) :=
  [ {| reference_time := 0%Z; value_time := 3600%Z;
       secondary_location_id := "fcst-A"; secondary_value := 11%Z;
       configuration := "short_range"; measurement_unit := "m3/s";
       variable_name := "streamflow"; primary_value := 12%Z;
       primary_location_id := "gage-A"; lead_time := 3600%Z;
       absolute_difference := 1%Z |};
    {| reference_time := 1800%Z; value_time := 3600%Z;
       secondary_location_id := "fcst-A"; secondary_value := 13%Z;
       configuration := "short_range"; measurement_unit := "m3/s";
       variable_name := "streamflow"; primary_value := 12%Z;
       primary_location_id := "gage-A"; lead_time := 1800%Z;
       absolute_difference := 1%Z |} ].

Definition example_timeseries_query (name : string) : TimeseriesQuery.t :=
  {| TimeseriesQuery.timeseries_name := name;
     TimeseriesQuery.order_by := [TimeseriesFilterFieldEnum.value_time];
     TimeseriesQuery.filters := [] |}.

(** Three forecasts of one hour that differ only in their reference time,
    against one observation. *)
Definition example_three_member_files : parquet_files Z :=
  {| read_parquet := fun path =>
       if String.eqb path "primary.parquet"
       then [example_observation]
       else if String.eqb path "secondary.parquet"
       then [ example_forecast;
              {| ts_value := 11%Z; ts_reference_time := 1200%Z;
                 ts_location_id := "fcst-A"; ts_value_time := 3600%Z;
                 ts_configuration := "short_range";
                 ts_variable_name := "streamflow";
                 ts_measurement_unit := "m3/s" |};
              {| ts_value := 11%Z; ts_reference_time := 2400%Z;
                 ts_location_id := "fcst-A"; ts_value_time := 3600%Z;
                 ts_configuration := "short_range";
                 ts_variable_name := "streamflow";
                 ts_measurement_unit := "m3/s" |} ]
       else [];
     read_parquet_crosswalk := fun _ =>
       [ {| cw_primary_location_id := "gage-A";
            cw_secondary_location_id := "fcst-A" |} ] |}.

(** ** The constructor of [JoinedTimeseriesQuery] *)

Module JoinedTimeseriesQueryModel.

(** The keyword arguments handed to the constructor, defaults applied. *)
Record raw : Type := mk_raw {
  raw_primary_filepath : filepath;
  raw_secondary_filepath : filepath;
  raw_crosswalk_filepath : filepath;
  raw_order_by : list string;
  raw_filters : option (list JoinedFilter.raw);
  raw_return_query : bool;
  raw_geometry_filepath : option filepath;
  raw_include_geometry : bool;
  raw_remove_duplicates : option bool
}.

(** [info.data] when the validator of [include_geometry] runs. *)
Record info_data : Type := mk_data {
  data_order_by : option (list JoinedFilterFieldEnum.t);
  data_filters : option (list JoinedFilter.t);
  data_geometry_filepath : option (option filepath)
}.

(** [info.data["geometry_filepath"]]. *)
Definition data_getitem_geometry_filepath (info : info_data)
  : py (option filepath) :=
  match data_geometry_filepath info with
  | Some gf => ret gf
  | None => raise (KeyError "geometry_filepath")
  end.

Definition include_geometry_must_group_by_primary_location_id (v : bool)
  (info : info_data) : py bool :=
  c <- (if v
        then (gf <- data_getitem_geometry_filepath info ;;
              ret (negb (filepath_truthy gf)))
        else ret false) ;;
  if (c : bool)
  then raise (ValueError MetricQuery.msg_geometry_filepath)
  else ret v.

Definition filter_must_be_list (v : option (list JoinedFilter.t))
  : list JoinedFilter.t :=
  match v with
  | None => []
  | Some l => l
  end.

Definition validate_filters (r : option (list JoinedFilter.raw))
  : py (option (list JoinedFilter.t)) :=
  match r with
  | None => ret (Some (filter_must_be_list None))
  | Some rs =>
      fs <- MetricQuery.validate_filter_items rs ;;
      ret (match fs with
           | Some l => Some (filter_must_be_list (Some l))
           | None => None
           end)
  end.

Definition model_validate (r : raw) : py JoinedTimeseriesQuery.t :=
  let ob := parse_list JoinedFilterFieldEnum.of_value (raw_order_by r) in
  fl <- validate_filters (raw_filters r) ;;
  let info := {| data_order_by := ob;
                 data_filters := fl;
                 data_geometry_filepath := Some (raw_geometry_filepath r) |} in
  match run_field_validator
          (include_geometry_must_group_by_primary_location_id
             (raw_include_geometry r) info) with
  | Propagate e => raise e
  | outcome =>
      match ob, fl, outcome_value outcome with
      | Some ob', Some fl', Some ig' =>
          ret {| JoinedTimeseriesQuery.primary_filepath :=
                   raw_primary_filepath r;
                 JoinedTimeseriesQuery.secondary_filepath :=
                   raw_secondary_filepath r;
                 JoinedTimeseriesQuery.crosswalk_filepath :=
                   raw_crosswalk_filepath r;
                 JoinedTimeseriesQuery.order_by := ob';
                 JoinedTimeseriesQuery.filters := fl';
                 JoinedTimeseriesQuery.return_query := raw_return_query r;
                 JoinedTimeseriesQuery.geometry_filepath :=
                   raw_geometry_filepath r;
                 JoinedTimeseriesQuery.include_geometry := ig';
                 JoinedTimeseriesQuery.remove_duplicates :=
                   raw_remove_duplicates r |}
      | _, _, _ =>
          raise (ValidationError
                   (field_errors "order_by" "Input should be a member of JoinedFilterFieldEnum" ob
                    ++ field_errors "filters" "Input should be a valid JoinedFilter" fl
                    ++ outcome_errors "include_geometry" outcome))
      end
  end.

End JoinedTimeseriesQueryModel.

(** A request for joined timeseries as a caller writes it. *)
Definition example_joined_request (order_by : list string)
  (filters : list JoinedFilter.raw) (geometry_filepath : option filepath)
  (include_geometry : bool) : JoinedTimeseriesQueryModel.raw :=
  {| JoinedTimeseriesQueryModel.raw_primary_filepath :=
       PathStr "primary.parquet";
     JoinedTimeseriesQueryModel.raw_secondary_filepath :=
       PathStr "secondary.parquet";
     JoinedTimeseriesQueryModel.raw_crosswalk_filepath :=
       PathStr "crosswalk.parquet";
     JoinedTimeseriesQueryModel.raw_order_by := order_by;
     JoinedTimeseriesQueryModel.raw_filters := Some filters;
     JoinedTimeseriesQueryModel.raw_return_query := false;
     JoinedTimeseriesQueryModel.raw_geometry_filepath := geometry_filepath;
     JoinedTimeseriesQueryModel.raw_include_geometry := include_geometry;
     JoinedTimeseriesQueryModel.raw_remove_duplicates := Some true |}.

(** The rows of the groups of the representatives [R] over the relation
    [l], group after group. *)
Definition groups_rows {A : Type} (same : A -> A -> bool) (R l : list A)
  : list A :=
  List.concat (map (fun r => filter (same r) l) R).

(** ** The helpers the metrics template calls *)

(** The name of a helper in [teehr.queries.utils]. *)
Definition helper_name (h : tqu.helper) : string :=
  match h with
  | tqu._nse_cte => "_nse_cte"
  | tqu._annual_metrics_cte => "_annual_metrics_cte"
  | tqu._spearman_ranks_cte => "_spearman_ranks_cte"
  | tqu._select_primary_count => "_select_primary_count"
  | tqu._select_secondary_count => "_select_secondary_count"
  | tqu._select_primary_minimum => "_select_primary_minimum"
  | tqu._select_secondary_minimum => "_select_secondary_minimum"
  | tqu._select_primary_maximum => "_select_primary_maximum"
  | tqu._select_secondary_maximum => "_select_secondary_maximum"
  | tqu._select_primary_average => "_select_primary_average"
  | tqu._select_secondary_average => "_select_secondary_average"
  | tqu._select_primary_sum => "_select_primary_sum"
  | tqu._select_secondary_sum => "_select_secondary_sum"
  | tqu._select_primary_variance => "_select_primary_variance"
  | tqu._select_secondary_variance => "_select_secondary_variance"
  | tqu._select_max_value_delta => "_select_max_value_delta"
  | tqu._select_mean_error => "_select_mean_error"
  | tqu._select_nash_sutcliffe_efficiency =>
      "_select_nash_sutcliffe_efficiency"
  | tqu._select_nash_sutcliffe_efficiency_normalized =>
      "_select_nash_sutcliffe_efficiency_normalized"
  | tqu._select_kling_gupta_efficiency => "_select_kling_gupta_efficiency"
  | tqu._select_kling_gupta_efficiency_mod1 =>
      "_select_kling_gupta_efficiency_mod1"
  | tqu._select_kling_gupta_efficiency_mod2 =>
      "_select_kling_gupta_efficiency_mod2"
  | tqu._select_mean_absolute_error => "_select_mean_absolute_error"
  | tqu._select_mean_squared_error => "_select_mean_squared_error"
  | tqu._select_root_mean_squared_error => "_select_root_mean_squared_error"
  | tqu._select_primary_max_value_time => "_select_primary_max_value_time"
  | tqu._select_secondary_max_value_time =>
      "_select_secondary_max_value_time"
  | tqu._select_max_value_timedelta => "_select_max_value_timedelta"
  | tqu._select_relative_bias => "_select_relative_bias"
  | tqu._select_multiplicative_bias => "_select_multiplicative_bias"
  | tqu._select_mean_absolute_relative_error =>
      "_select_mean_absolute_relative_error"
  | tqu._select_pearson_correlation => "_select_pearson_correlation"
  | tqu._select_r_squared => "_select_r_squared"
  | tqu._select_spearman_correlation => "_select_spearman_correlation"
  | tqu._join_nse_cte => "_join_nse_cte"
  | tqu._join_spearman_ranks_cte => "_join_spearman_ranks_cte"
  | tqu.metrics_select_clause => "metrics_select_clause"
  | tqu.geometry_select_clause => "geometry_select_clause"
  | tqu.metric_geometry_join_clause_db => "metric_geometry_join_clause_db"
  | tqu._join_annual_metrics_cte => "_join_annual_metrics_cte"
  end.

(** The helpers a template calls, in the order of the calls. *)
Fixpoint template_calls (ls : list template_line) : list tqu.helper :=
  match ls with
  | [] => []
  | I _ (Call h) :: rest => h :: template_calls rest
  | _ :: rest => template_calls rest
  end.

(** The lines of a template between the line [first] and the line [last],
    both left out. *)
Fixpoint lines_after (first : string) (ls : list template_line)
  : list template_line :=
  match ls with
  | [] => []
  | L text :: rest =>
      if String.eqb text first then rest else lines_after first rest
  | _ :: rest => lines_after first rest
  end.

Fixpoint lines_before (last : string) (ls : list template_line)
  : list template_line :=
  match ls with
  | [] => []
  | L text :: rest =>
      if String.eqb text last then [] else L text :: lines_before last rest
  | l :: rest => l :: lines_before last rest
  end.

(** The select list of the [metrics] stage: the lines between
    [, metrics AS (] and its [FROM]. *)
Definition metrics_stage_select : list template_line :=
  lines_before "            FROM"
    (lines_after "        , metrics AS (" metrics_query_template).

(** ** [fetch_and_format_nwm_points]: chunks of reference files *)

(** The exceptions of the chunking step and of the processing of a
    chunk. *)
Inductive chunk_exn : Type :=
| ZeroDivisionError
| ArraySplitValueError   (* number sections must be larger than 0. *)
| FileNotFoundError
| IndexError.

(** [num_partitions], for [size] reference files:
    [1 if stepsize > size else int(size / stepsize)].  The quotient of
    the floating-point division is exact below 2^53 files; [int] truncates
    toward zero. *)
Definition num_partitions (size stepsize : Z) : chunk_exn + Z :=
  if Z.gtb stepsize size
  then inr 1%Z
  else if Z.eqb stepsize 0
       then inl ZeroDivisionError
       else inr (Z.quot size stepsize).

(** [numpy.array_split]: the first [n mod k] sections hold one element more
    than the others. *)
Definition section_sizes (n k : nat) : list nat :=
  repeat (S (n / k)) (n mod k) ++ repeat (n / k) (k - n mod k).

Fixpoint split_sizes {A : Type} (sizes : list nat) (l : list A)
  : list (list A) :=
  match sizes with
  | [] => []
  | s :: rest => firstn s l :: split_sizes rest (skipn s l)
  end.

Definition array_split {A : Type} (l : list A) (sections : Z)
  : chunk_exn + list (list A) :=
  if Z.leb sections 0
  then inl ArraySplitValueError
  else inr (split_sizes (section_sizes (List.length l) (Z.to_nat sections)) l).

(** The chunks [dfs] of the branch [process_by_z_hour = False]. *)
Definition chunk_by_stepsize {A : Type} (df_refs : list A) (stepsize : Z)
  : chunk_exn + list (list A) :=
  match num_partitions (Z.of_nat (List.length df_refs)) stepsize with
  | inl e => inl e
  | inr k => array_split df_refs k
  end.

(** ** [teehr/models/loading/nwm22_grid.py]: the grid configuration model *)

(** What [model_validate] is given: strings and dictionaries with string
    keys, as the request assembled in the script holds them. *)
#[warnings="-register-all"] Inductive pyobj : Type :=
| PStr (s : string)
| PDict (items : list (string * pyobj)).

Definition pydict : Type := list (string * pyobj).

Fixpoint dict_get (k : string) (d : pydict) : option pyobj :=
  match d with
  | [] => None
  | (k', v) :: rest => if String.eqb k' k then Some v else dict_get k rest
  end.

Fixpoint dict_set (k : string) (v : pyobj) (d : pydict) : pydict :=
  match d with
  | [] => [(k, v)]
  | (k', v') :: rest =>
      if String.eqb k' k then (k', v) :: rest else (k', v') :: dict_set k v rest
  end.

(** A dict display [{k1: v1, ..., kn: vn}]: the entries are stored from left
    to right; a key given again keeps its place and takes the later value. *)
Definition dict_display (items : list (string * pyobj)) : pydict :=
  fold_left (fun d kv => dict_set (fst kv) (snd kv) d) items [].

(** Validation of a model: every field is validated, the errors of all
    fields are collected, and the model is built when no field failed. *)
Definition validation (A : Type) : Type :=
  (list (string * string) * option A)%type.

Definition valid {A : Type} (a : A) : validation A := ([], Some a).

Definition invalid {A : Type} (loc msg : string) : validation A :=
  ([(loc, msg)], None).

Definition vap {A B : Type} (f : validation (A -> B)) (x : validation A)
  : validation B :=
  (fst f ++ fst x,
   match snd f, snd x with
   | Some g, Some a => Some (g a)
   | _, _ => None
   end).

Notation "f <*> x" := (vap f x) (at level 50, left associativity).

Definition run_validation {A : Type} (v : validation A) : py A :=
  match v with
  | (_, Some a) => ret a
  | (errors, None) => raise (ValidationError errors)
  end.

(** The location of an error of a nested model. *)
Definition relocate (field : string) (e : string * string)
  : string * string :=
  ((field ++ "." ++ fst e)%string, snd e).

(** A required field whose type is a string enumeration.  As for
    [field_errors], the text for a value outside the enumeration is
    shortened to the name of the enumeration. *)
Definition required_enum {E : Type} (of_value : string -> option E)
  (enum : string) (d : pydict) (field : string) : validation E :=
  match dict_get field d with
  | None => invalid field "Field required"
  | Some (PStr s) =>
      match of_value s with
      | Some m => valid m
      | None => invalid field ("Input should be a member of " ++ enum)%string
      end
  | Some (PDict _) =>
      invalid field ("Input should be a member of " ++ enum)%string
  end.

(** A field [Optional[E] = None] for a string enumeration [E]. *)
Definition optional_enum {E : Type} (of_value : string -> option E)
  (enum : string) (d : pydict) (field : string) : validation (option E) :=
  match dict_get field d with
  | None => valid None
  | Some (PStr s) =>
      match of_value s with
      | Some m => valid (Some m)
      | None => invalid field ("Input should be a member of " ++ enum)%string
      end
  | Some (PDict _) =>
      invalid field ("Input should be a member of " ++ enum)%string
  end.

(** A field [Optional[M] = None] for a model [M]. *)
Definition optional_model {M : Type} (validate : pydict -> validation M)
  (model : string) (d : pydict) (field : string) : validation (option M) :=
  match dict_get field d with
  | None => valid None
  | Some (PDict inner) =>
      (map (relocate field) (fst (validate inner)),
       option_map Some (snd (validate inner)))
  | Some (PStr _) =>
      invalid field
        ("Input should be a valid dictionary or instance of " ++ model)%string
  end.

(** The exceptions of the script: those of validation, and the
    [AttributeError] of reading an attribute [attr] an object of type [obj]
    does not have. *)
Inductive main_exn : Type :=
| Raised (e : exn)
| AttributeError (obj attr : string).

(** *** The enumerations of variables, output types and configurations *)

Module LandAssimVariablesEnum.

Inductive t : Type :=
| ACCET
| ACSNOM
| EDIR
| FSNO
| ISNOW
| QRAIN
| QSNOW
| SNEQV
| SNLIQ
| SNOWH
| SNOWT_AVG
| SOILICE
| SOILSAT_TOP
| SOIL_M
| SOIL_T.

Definition name (m : t) : string :=
  match m with
  | ACCET => "ACCET"
  | ACSNOM => "ACSNOM"
  | EDIR => "EDIR"
  | FSNO => "FSNO"
  | ISNOW => "ISNOW"
  | QRAIN => "QRAIN"
  | QSNOW => "QSNOW"
  | SNEQV => "SNEQV"
  | SNLIQ => "SNLIQ"
  | SNOWH => "SNOWH"
  | SNOWT_AVG => "SNOWT_AVG"
  | SOILICE => "SOILICE"
  | SOILSAT_TOP => "SOILSAT_TOP"
  | SOIL_M => "SOIL_M"
  | SOIL_T => "SOIL_T"
  end.

Definition value (m : t) : string :=
  match m with
  | ACCET => "ACCET"
  | ACSNOM => "ACSNOM"
  | EDIR => "EDIR"
  | FSNO => "FSNO"
  | ISNOW => "ISNOW"
  | QRAIN => "QRAIN"
  | QSNOW => "QSNOW"
  | SNEQV => "SNEQV"
  | SNLIQ => "SNLIQ"
  | SNOWH => "SNOWH"
  | SNOWT_AVG => "SNOWT_AVG"
  | SOILICE => "SOILICE"
  | SOILSAT_TOP => "SOILSAT_TOP"
  | SOIL_M => "SOIL_M"
  | SOIL_T => "SOIL_T"
  end.

Definition members : list t :=
  [ ACCET; ACSNOM; EDIR; FSNO; ISNOW; QRAIN; QSNOW; SNEQV; SNLIQ; SNOWH;
    SNOWT_AVG; SOILICE; SOILSAT_TOP; SOIL_M; SOIL_T ].

Definition of_value (s : string) : option t :=
  find (fun m => String.eqb (value m) s) members.

End LandAssimVariablesEnum.

Module LandShortVariablesEnum.

Inductive t : Type :=
| ACCET
| SNOWT_AVG
| SOILSAT_TOP
| FSNO
| SNOWH
| SNEQV.

Definition name (m : t) : string :=
  match m with
  | ACCET => "ACCET"
  | SNOWT_AVG => "SNOWT_AVG"
  | SOILSAT_TOP => "SOILSAT_TOP"
  | FSNO => "FSNO"
  | SNOWH => "SNOWH"
  | SNEQV => "SNEQV"
  end.

Definition value (m : t) : string :=
  match m with
  | ACCET => "ACCET"
  | SNOWT_AVG => "SNOWT_AVG"
  | SOILSAT_TOP => "SOILSAT_TOP"
  | FSNO => "FSNO"
  | SNOWH => "SNOWH"
  | SNEQV => "SNEQV"
  end.

Definition members : list t :=
  [ ACCET; SNOWT_AVG; SOILSAT_TOP; FSNO; SNOWH; SNEQV ].

Definition of_value (s : string) : option t :=
  find (fun m => String.eqb (value m) s) members.

End LandShortVariablesEnum.

Module LandMediumVariablesEnum.

Inductive t : Type :=
| FSA
| FIRA
| GRDFLX
| HFX
| LH
| UGDRNOFF
| ACCECAN
| ACCEDIR
| ACCETRAN
| TRAD
| SNLIQ
| SOIL_T
| SOIL_M
| SNOWH
| SNEQV
| ISNOW
| FSNO
| ACSNOM
| ACCET
| CANWAT
| SOILICE
| SOILSAT_TOP
| SNOWT_AVG.

Definition name (m : t) : string :=
  match m with
  | FSA => "FSA"
  | FIRA => "FIRA"
  | GRDFLX => "GRDFLX"
  | HFX => "HFX"
  | LH => "LH"
  | UGDRNOFF => "UGDRNOFF"
  | ACCECAN => "ACCECAN"
  | ACCEDIR => "ACCEDIR"
  | ACCETRAN => "ACCETRAN"
  | TRAD => "TRAD"
  | SNLIQ => "SNLIQ"
  | SOIL_T => "SOIL_T"
  | SOIL_M => "SOIL_M"
  | SNOWH => "SNOWH"
  | SNEQV => "SNEQV"
  | ISNOW => "ISNOW"
  | FSNO => "FSNO"
  | ACSNOM => "ACSNOM"
  | ACCET => "ACCET"
  | CANWAT => "CANWAT"
  | SOILICE => "SOILICE"
  | SOILSAT_TOP => "SOILSAT_TOP"
  | SNOWT_AVG => "SNOWT_AVG"
  end.

Definition value (m : t) : string :=
  match m with
  | FSA => "FSA"
  | FIRA => "FIRA"
  | GRDFLX => "GRDFLX"
  | HFX => "HFX"
  | LH => "LH"
  | UGDRNOFF => "UGDRNOFF"
  | ACCECAN => "ACCECAN"
  | ACCEDIR => "ACCEDIR"
  | ACCETRAN => "ACCETRAN"
  | TRAD => "TRAD"
  | SNLIQ => "SNLIQ"
  | SOIL_T => "SOIL_T"
  | SOIL_M => "SOIL_M"
  | SNOWH => "SNOWH"
  | SNEQV => "SNEQV"
  | ISNOW => "ISNOW"
  | FSNO => "FSNO"
  | ACSNOM => "ACSNOM"
  | ACCET => "ACCET"
  | CANWAT => "CANWAT"
  | SOILICE => "SOILICE"
  | SOILSAT_TOP => "SOILSAT_TOP"
  | SNOWT_AVG => "SNOWT_AVG"
  end.

Definition members : list t :=
  [ FSA; FIRA; GRDFLX; HFX; LH; UGDRNOFF; ACCECAN; ACCEDIR; ACCETRAN; TRAD;
    SNLIQ; SOIL_T; SOIL_M; SNOWH; SNEQV; ISNOW; FSNO; ACSNOM; ACCET; CANWAT;
    SOILICE; SOILSAT_TOP; SNOWT_AVG ].

Definition of_value (s : string) : option t :=
  find (fun m => String.eqb (value m) s) members.

End LandMediumVariablesEnum.

Module LandLongVariablesEnum.

Inductive t : Type :=
| UGDRNOFF
| SFCRNOFF
| SNEQV
| ACSNOM
| ACCET
| CANWAT
| SOILSAT_TOP
| SOILSAT.

Definition name (m : t) : string :=
  match m with
  | UGDRNOFF => "UGDRNOFF"
  | SFCRNOFF => "SFCRNOFF"
  | SNEQV => "SNEQV"
  | ACSNOM => "ACSNOM"
  | ACCET => "ACCET"
  | CANWAT => "CANWAT"
  | SOILSAT_TOP => "SOILSAT_TOP"
  | SOILSAT => "SOILSAT"
  end.

Definition value (m : t) : string :=
  match m with
  | UGDRNOFF => "UGDRNOFF"
  | SFCRNOFF => "SFCRNOFF"
  | SNEQV => "SNEQV"
  | ACSNOM => "ACSNOM"
  | ACCET => "ACCET"
  | CANWAT => "CANWAT"
  | SOILSAT_TOP => "SOILSAT_TOP"
  | SOILSAT => "SOILSAT"
  end.

Definition members : list t :=
  [ UGDRNOFF; SFCRNOFF; SNEQV; ACSNOM; ACCET; CANWAT; SOILSAT_TOP; SOILSAT ].

Definition of_value (s : string) : option t :=
  find (fun m => String.eqb (value m) s) members.

End LandLongVariablesEnum.

Module ForcingVariablesEnum.

Inductive t : Type :=
| U2D
| V2D
| T2D
| Q2D
| LWDOWN
| SWDOWN
| RAINRATE
| PSFC.

Definition name (m : t) : string :=
  match m with
  | U2D => "U2D"
  | V2D => "V2D"
  | T2D => "T2D"
  | Q2D => "Q2D"
  | LWDOWN => "LWDOWN"
  | SWDOWN => "SWDOWN"
  | RAINRATE => "RAINRATE"
  | PSFC => "PSFC"
  end.

Definition value (m : t) : string :=
  match m with
  | U2D => "U2D"
  | V2D => "V2D"
  | T2D => "T2D"
  | Q2D => "Q2D"
  | LWDOWN => "LWDOWN"
  | SWDOWN => "SWDOWN"
  | RAINRATE => "RAINRATE"
  | PSFC => "PSFC"
  end.

Definition members : list t :=
  [ U2D; V2D; T2D; Q2D; LWDOWN; SWDOWN; RAINRATE; PSFC ].

Definition of_value (s : string) : option t :=
  find (fun m => String.eqb (value m) s) members.

End ForcingVariablesEnum.

Module ShortAndAnalysisOutputEnum.

Inductive t : Type :=
| land.

Definition name (m : t) : string :=
  match m with
  | land => "land"
  end.

Definition value (m : t) : string :=
  match m with
  | land => "land"
  end.

Definition members : list t :=
  [ land ].

Definition of_value (s : string) : option t :=
  find (fun m => String.eqb (value m) s) members.

End ShortAndAnalysisOutputEnum.

Module MediumOutputEnum.

Inductive t : Type :=
| land_1
| land_2
| land_3
| land_4
| land_5
| land_6
| land_7.

Definition name (m : t) : string :=
  match m with
  | land_1 => "land_1"
  | land_2 => "land_2"
  | land_3 => "land_3"
  | land_4 => "land_4"
  | land_5 => "land_5"
  | land_6 => "land_6"
  | land_7 => "land_7"
  end.

Definition value (m : t) : string :=
  match m with
  | land_1 => "land_1"
  | land_2 => "land_2"
  | land_3 => "land_3"
  | land_4 => "land_4"
  | land_5 => "land_5"
  | land_6 => "land_6"
  | land_7 => "land_7"
  end.

Definition members : list t :=
  [ land_1; land_2; land_3; land_4; land_5; land_6; land_7 ].

Definition of_value (s : string) : option t :=
  find (fun m => String.eqb (value m) s) members.

End MediumOutputEnum.

Module LongOutputEnum.

Inductive t : Type :=
| land_1
| land_2
| land_3
| land_4.

Definition name (m : t) : string :=
  match m with
  | land_1 => "land_1"
  | land_2 => "land_2"
  | land_3 => "land_3"
  | land_4 => "land_4"
  end.

Definition value (m : t) : string :=
  match m with
  | land_1 => "land_1"
  | land_2 => "land_2"
  | land_3 => "land_3"
  | land_4 => "land_4"
  end.

Definition members : list t :=
  [ land_1; land_2; land_3; land_4 ].

Definition of_value (s : string) : option t :=
  find (fun m => String.eqb (value m) s) members.

End LongOutputEnum.

Module ForcingOutputEnum.

Inductive t : Type :=
| forcing.

Definition name (m : t) : string :=
  match m with
  | forcing => "forcing"
  end.

Definition value (m : t) : string :=
  match m with
  | forcing => "forcing"
  end.

Definition members : list t :=
  [ forcing ].

Definition of_value (s : string) : option t :=
  find (fun m => String.eqb (value m) s) members.

End ForcingOutputEnum.

(** *** The models of the output types *)

Module Analysis.

Record t : Type := mk {
  output_type : ShortAndAnalysisOutputEnum.t;
  land : option LandAssimVariablesEnum.t
}.

Definition validate (d : pydict) : validation t :=
  valid mk
  <*> required_enum ShortAndAnalysisOutputEnum.of_value "ShortAndAnalysisOutputEnum"
        d "output_type"
  <*> optional_enum LandAssimVariablesEnum.of_value "LandAssimVariablesEnum"
        d "land".

Definition model_validate (d : pydict) : py t := run_validation (validate d).

(** [getattr(obj, attr).name] for an object [obj] of this model. *)
Definition getattr_name (obj : t) (attr : string) : main_exn + string :=
  if String.eqb attr "output_type"
  then inr (ShortAndAnalysisOutputEnum.name (output_type obj))
  else if String.eqb attr "land"
  then match land obj with
       | Some m => inr (LandAssimVariablesEnum.name m)
       | None => inl (AttributeError "NoneType" "name")
       end
  else inl (AttributeError "Analysis" attr).

End Analysis.

Module ShortRange.

Record t : Type := mk {
  output_type : ShortAndAnalysisOutputEnum.t;
  land : option LandShortVariablesEnum.t
}.

Definition validate (d : pydict) : validation t :=
  valid mk
  <*> required_enum ShortAndAnalysisOutputEnum.of_value "ShortAndAnalysisOutputEnum"
        d "output_type"
  <*> optional_enum LandShortVariablesEnum.of_value "LandShortVariablesEnum"
        d "land".

Definition model_validate (d : pydict) : py t := run_validation (validate d).

(** [getattr(obj, attr).name] for an object [obj] of this model. *)
Definition getattr_name (obj : t) (attr : string) : main_exn + string :=
  if String.eqb attr "output_type"
  then inr (ShortAndAnalysisOutputEnum.name (output_type obj))
  else if String.eqb attr "land"
  then match land obj with
       | Some m => inr (LandShortVariablesEnum.name m)
       | None => inl (AttributeError "NoneType" "name")
       end
  else inl (AttributeError "ShortRange" attr).

End ShortRange.

Module MediumRange.

Record t : Type := mk {
  output_type : MediumOutputEnum.t;
  land_1 : option LandMediumVariablesEnum.t;
  land_2 : option LandMediumVariablesEnum.t;
  land_3 : option LandMediumVariablesEnum.t;
  land_4 : option LandMediumVariablesEnum.t;
  land_5 : option LandMediumVariablesEnum.t;
  land_6 : option LandMediumVariablesEnum.t;
  land_7 : option LandMediumVariablesEnum.t
}.

Definition validate (d : pydict) : validation t :=
  valid mk
  <*> required_enum MediumOutputEnum.of_value "MediumOutputEnum"
        d "output_type"
  <*> optional_enum LandMediumVariablesEnum.of_value "LandMediumVariablesEnum"
        d "land_1"
  <*> optional_enum LandMediumVariablesEnum.of_value "LandMediumVariablesEnum"
        d "land_2"
  <*> optional_enum LandMediumVariablesEnum.of_value "LandMediumVariablesEnum"
        d "land_3"
  <*> optional_enum LandMediumVariablesEnum.of_value "LandMediumVariablesEnum"
        d "land_4"
  <*> optional_enum LandMediumVariablesEnum.of_value "LandMediumVariablesEnum"
        d "land_5"
  <*> optional_enum LandMediumVariablesEnum.of_value "LandMediumVariablesEnum"
        d "land_6"
  <*> optional_enum LandMediumVariablesEnum.of_value "LandMediumVariablesEnum"
        d "land_7".

Definition model_validate (d : pydict) : py t := run_validation (validate d).

(** [getattr(obj, attr).name] for an object [obj] of this model. *)
Definition getattr_name (obj : t) (attr : string) : main_exn + string :=
  if String.eqb attr "output_type"
  then inr (MediumOutputEnum.name (output_type obj))
  else if String.eqb attr "land_1"
  then match land_1 obj with
       | Some m => inr (LandMediumVariablesEnum.name m)
       | None => inl (AttributeError "NoneType" "name")
       end
  else if String.eqb attr "land_2"
  then match land_2 obj with
       | Some m => inr (LandMediumVariablesEnum.name m)
       | None => inl (AttributeError "NoneType" "name")
       end
  else if String.eqb attr "land_3"
  then match land_3 obj with
       | Some m => inr (LandMediumVariablesEnum.name m)
       | None => inl (AttributeError "NoneType" "name")
       end
  else if String.eqb attr "land_4"
  then match land_4 obj with
       | Some m => inr (LandMediumVariablesEnum.name m)
       | None => inl (AttributeError "NoneType" "name")
       end
  else if String.eqb attr "land_5"
  then match land_5 obj with
       | Some m => inr (LandMediumVariablesEnum.name m)
       | None => inl (AttributeError "NoneType" "name")
       end
  else if String.eqb attr "land_6"
  then match land_6 obj with
       | Some m => inr (LandMediumVariablesEnum.name m)
       | None => inl (AttributeError "NoneType" "name")
       end
  else if String.eqb attr "land_7"
  then match land_7 obj with
       | Some m => inr (LandMediumVariablesEnum.name m)
       | None => inl (AttributeError "NoneType" "name")
       end
  else inl (AttributeError "MediumRange" attr).

End MediumRange.

Module LongRange.

Record t : Type := mk {
  output_type : LongOutputEnum.t;
  land_1 : option LandLongVariablesEnum.t;
  land_2 : option LandLongVariablesEnum.t;
  land_3 : option LandLongVariablesEnum.t;
  land_4 : option LandLongVariablesEnum.t
}.

Definition validate (d : pydict) : validation t :=
  valid mk
  <*> required_enum LongOutputEnum.of_value "LongOutputEnum" d "output_type"
  <*> optional_enum LandLongVariablesEnum.of_value "LandLongVariablesEnum"
        d "land_1"
  <*> optional_enum LandLongVariablesEnum.of_value "LandLongVariablesEnum"
        d "land_2"
  <*> optional_enum LandLongVariablesEnum.of_value "LandLongVariablesEnum"
        d "land_3"
  <*> optional_enum LandLongVariablesEnum.of_value "LandLongVariablesEnum"
        d "land_4".

Definition model_validate (d : pydict) : py t := run_validation (validate d).

(** [getattr(obj, attr).name] for an object [obj] of this model. *)
Definition getattr_name (obj : t) (attr : string) : main_exn + string :=
  if String.eqb attr "output_type"
  then inr (LongOutputEnum.name (output_type obj))
  else if String.eqb attr "land_1"
  then match land_1 obj with
       | Some m => inr (LandLongVariablesEnum.name m)
       | None => inl (AttributeError "NoneType" "name")
       end
  else if String.eqb attr "land_2"
  then match land_2 obj with
       | Some m => inr (LandLongVariablesEnum.name m)
       | None => inl (AttributeError "NoneType" "name")
       end
  else if String.eqb attr "land_3"
  then match land_3 obj with
       | Some m => inr (LandLongVariablesEnum.name m)
       | None => inl (AttributeError "NoneType" "name")
       end
  else if String.eqb attr "land_4"
  then match land_4 obj with
       | Some m => inr (LandLongVariablesEnum.name m)
       | None => inl (AttributeError "NoneType" "name")
       end
  else inl (AttributeError "LongRange" attr).

End LongRange.

Module Forcing.

Record t : Type := mk {
  output_type : ForcingOutputEnum.t;
  forcing : option ForcingVariablesEnum.t
}.

Definition validate (d : pydict) : validation t :=
  valid mk
  <*> required_enum ForcingOutputEnum.of_value "ForcingOutputEnum"
        d "output_type"
  <*> optional_enum ForcingVariablesEnum.of_value "ForcingVariablesEnum"
        d "forcing".

Definition model_validate (d : pydict) : py t := run_validation (validate d).

(** [getattr(obj, attr).name] for an object [obj] of this model. *)
Definition getattr_name (obj : t) (attr : string) : main_exn + string :=
  if String.eqb attr "output_type"
  then inr (ForcingOutputEnum.name (output_type obj))
  else if String.eqb attr "forcing"
  then match forcing obj with
       | Some m => inr (ForcingVariablesEnum.name m)
       | None => inl (AttributeError "NoneType" "name")
       end
  else inl (AttributeError "Forcing" attr).

End Forcing.

Module ConfigurationsEnum.

Inductive t : Type :=
| analysis_assim
| analysis_assim_no_da
| analysis_assim_extend
| analysis_assim_extend_no_da
| analysis_assim_long
| analysis_assim_long_no_da
| analysis_assim_hawaii
| analysis_assim_hawaii_no_da
| analysis_assim_puertorico
| analysis_assim_puertorico_no_da
| short_range
| short_range_hawaii
| short_range_puertorico
| short_range_hawaii_no_da
| short_range_puertorico_no_da
| medium_range_mem1
| medium_range_mem2
| medium_range_mem3
| medium_range_mem4
| medium_range_mem5
| medium_range_mem6
| medium_range_mem7
| long_range_mem1
| long_range_mem2
| long_range_mem3
| long_range_mem4
| forcing_medium_range
| forcing_short_range
| forcing_short_range_hawaii
| forcing_short_range_puertorico
| forcing_analysis_assim
| forcing_analysis_assim_extend
| forcing_analysis_assim_hawaii
| forcing_analysis_assim_puertorico.

Definition name (m : t) : string :=
  match m with
  | analysis_assim => "analysis_assim"
  | analysis_assim_no_da => "analysis_assim_no_da"
  | analysis_assim_extend => "analysis_assim_extend"
  | analysis_assim_extend_no_da => "analysis_assim_extend_no_da"
  | analysis_assim_long => "analysis_assim_long"
  | analysis_assim_long_no_da => "analysis_assim_long_no_da"
  | analysis_assim_hawaii => "analysis_assim_hawaii"
  | analysis_assim_hawaii_no_da => "analysis_assim_hawaii_no_da"
  | analysis_assim_puertorico => "analysis_assim_puertorico"
  | analysis_assim_puertorico_no_da => "analysis_assim_puertorico_no_da"
  | short_range => "short_range"
  | short_range_hawaii => "short_range_hawaii"
  | short_range_puertorico => "short_range_puertorico"
  | short_range_hawaii_no_da => "short_range_hawaii_no_da"
  | short_range_puertorico_no_da => "short_range_puertorico_no_da"
  | medium_range_mem1 => "medium_range_mem1"
  | medium_range_mem2 => "medium_range_mem2"
  | medium_range_mem3 => "medium_range_mem3"
  | medium_range_mem4 => "medium_range_mem4"
  | medium_range_mem5 => "medium_range_mem5"
  | medium_range_mem6 => "medium_range_mem6"
  | medium_range_mem7 => "medium_range_mem7"
  | long_range_mem1 => "long_range_mem1"
  | long_range_mem2 => "long_range_mem2"
  | long_range_mem3 => "long_range_mem3"
  | long_range_mem4 => "long_range_mem4"
  | forcing_medium_range => "forcing_medium_range"
  | forcing_short_range => "forcing_short_range"
  | forcing_short_range_hawaii => "forcing_short_range_hawaii"
  | forcing_short_range_puertorico => "forcing_short_range_puertorico"
  | forcing_analysis_assim => "forcing_analysis_assim"
  | forcing_analysis_assim_extend => "forcing_analysis_assim_extend"
  | forcing_analysis_assim_hawaii => "forcing_analysis_assim_hawaii"
  | forcing_analysis_assim_puertorico => "forcing_analysis_assim_puertorico"
  end.

Definition value (m : t) : string :=
  match m with
  | analysis_assim => "analysis_assim"
  | analysis_assim_no_da => "analysis_assim_no_da"
  | analysis_assim_extend => "analysis_assim_extend"
  | analysis_assim_extend_no_da => "analysis_assim_extend_no_da"
  | analysis_assim_long => "analysis_assim_long"
  | analysis_assim_long_no_da => "analysis_assim_long_no_da"
  | analysis_assim_hawaii => "analysis_assim_hawaii"
  | analysis_assim_hawaii_no_da => "analysis_assim_hawaii_no_da"
  | analysis_assim_puertorico => "analysis_assim_puertorico"
  | analysis_assim_puertorico_no_da => "analysis_assim_puertorico_no_da"
  | short_range => "short_range"
  | short_range_hawaii => "short_range_hawaii"
  | short_range_puertorico => "short_range_puertorico"
  | short_range_hawaii_no_da => "short_range_hawaii_no_da"
  | short_range_puertorico_no_da => "short_range_puertorico_no_da"
  | medium_range_mem1 => "medium_range_mem1"
  | medium_range_mem2 => "medium_range_mem2"
  | medium_range_mem3 => "medium_range_mem3"
  | medium_range_mem4 => "medium_range_mem4"
  | medium_range_mem5 => "medium_range_mem5"
  | medium_range_mem6 => "medium_range_mem6"
  | medium_range_mem7 => "medium_range_mem7"
  | long_range_mem1 => "long_range_mem1"
  | long_range_mem2 => "long_range_mem2"
  | long_range_mem3 => "long_range_mem3"
  | long_range_mem4 => "long_range_mem4"
  | forcing_medium_range => "forcing_medium_range"
  | forcing_short_range => "forcing_short_range"
  | forcing_short_range_hawaii => "forcing_short_range_hawaii"
  | forcing_short_range_puertorico => "forcing_short_range_puertorico"
  | forcing_analysis_assim => "forcing_analysis_assim"
  | forcing_analysis_assim_extend => "forcing_analysis_assim_extend"
  | forcing_analysis_assim_hawaii => "forcing_analysis_assim_hawaii"
  | forcing_analysis_assim_puertorico => "forcing_analysis_assim_puertorico"
  end.

Definition members : list t :=
  [ analysis_assim; analysis_assim_no_da; analysis_assim_extend;
    analysis_assim_extend_no_da; analysis_assim_long;
    analysis_assim_long_no_da; analysis_assim_hawaii;
    analysis_assim_hawaii_no_da; analysis_assim_puertorico;
    analysis_assim_puertorico_no_da; short_range; short_range_hawaii;
    short_range_puertorico; short_range_hawaii_no_da;
    short_range_puertorico_no_da; medium_range_mem1; medium_range_mem2;
    medium_range_mem3; medium_range_mem4; medium_range_mem5;
    medium_range_mem6; medium_range_mem7; long_range_mem1; long_range_mem2;
    long_range_mem3; long_range_mem4; forcing_medium_range;
    forcing_short_range; forcing_short_range_hawaii;
    forcing_short_range_puertorico; forcing_analysis_assim;
    forcing_analysis_assim_extend; forcing_analysis_assim_hawaii;
    forcing_analysis_assim_puertorico ].

Definition of_value (s : string) : option t :=
  find (fun m => String.eqb (value m) s) members.

End ConfigurationsEnum.

(** *** The configuration model *)

(** The value of an attribute of a [GridConfigurationModel]. *)
Inductive grid_attr : Type :=
| AttrConfiguration (c : ConfigurationsEnum.t)
| AttrAnalysis (obj : option Analysis.t)
| AttrShortRange (obj : option ShortRange.t)
| AttrMediumRange (obj : option MediumRange.t)
| AttrLongRange (obj : option LongRange.t)
| AttrForcing (obj : option Forcing.t).

Module GridConfigurationModel.

Record t : Type := mk {
  configuration : ConfigurationsEnum.t;
  analysis_assim : option Analysis.t;
  analysis_assim_no_da : option Analysis.t;
  analysis_assim_extend : option Analysis.t;
  analysis_assim_extend_no_da : option Analysis.t;
  analysis_assim_long : option Analysis.t;
  analysis_assim_long_no_da : option Analysis.t;
  analysis_assim_hawaii : option Analysis.t;
  analysis_assim_hawaii_no_da : option Analysis.t;
  analysis_assim_puertorico : option Analysis.t;
  analysis_assim_puertorico_no_da : option Analysis.t;
  short_range : option ShortRange.t;
  short_range_hawaii : option ShortRange.t;
  short_range_puertorico : option ShortRange.t;
  short_range_hawaii_no_da : option ShortRange.t;
  short_range_puertorico_no_da : option ShortRange.t;
  medium_range_mem1 : option MediumRange.t;
  medium_range_mem2 : option MediumRange.t;
  medium_range_mem3 : option MediumRange.t;
  medium_range_mem4 : option MediumRange.t;
  medium_range_mem5 : option MediumRange.t;
  medium_range_mem6 : option MediumRange.t;
  medium_range_mem7 : option MediumRange.t;
  medium_range_no_da : option MediumRange.t;
  long_range_mem1 : option LongRange.t;
  long_range_mem2 : option LongRange.t;
  long_range_mem3 : option LongRange.t;
  long_range_mem4 : option LongRange.t;
  forcing_medium_range : option Forcing.t;
  forcing_short_range : option Forcing.t;
  forcing_short_range_hawaii : option Forcing.t;
  forcing_short_range_puertorico : option Forcing.t;
  forcing_analysis_assim : option Forcing.t;
  forcing_analysis_assim_extend : option Forcing.t;
  forcing_analysis_assim_hawaii : option Forcing.t;
  forcing_analysis_assim_puertorico : option Forcing.t
}.

Definition validate (d : pydict) : validation t :=
  valid mk
  <*> required_enum ConfigurationsEnum.of_value "ConfigurationsEnum"
        d "configuration"
  <*> optional_model Analysis.validate "Analysis" d "analysis_assim"
  <*> optional_model Analysis.validate "Analysis" d "analysis_assim_no_da"
  <*> optional_model Analysis.validate "Analysis" d "analysis_assim_extend"
  <*> optional_model Analysis.validate "Analysis"
        d "analysis_assim_extend_no_da"
  <*> optional_model Analysis.validate "Analysis" d "analysis_assim_long"
  <*> optional_model Analysis.validate "Analysis"
        d "analysis_assim_long_no_da"
  <*> optional_model Analysis.validate "Analysis" d "analysis_assim_hawaii"
  <*> optional_model Analysis.validate "Analysis"
        d "analysis_assim_hawaii_no_da"
  <*> optional_model Analysis.validate "Analysis"
        d "analysis_assim_puertorico"
  <*> optional_model Analysis.validate "Analysis"
        d "analysis_assim_puertorico_no_da"
  <*> optional_model ShortRange.validate "ShortRange" d "short_range"
  <*> optional_model ShortRange.validate "ShortRange" d "short_range_hawaii"
  <*> optional_model ShortRange.validate "ShortRange"
        d "short_range_puertorico"
  <*> optional_model ShortRange.validate "ShortRange"
        d "short_range_hawaii_no_da"
  <*> optional_model ShortRange.validate "ShortRange"
        d "short_range_puertorico_no_da"
  <*> optional_model MediumRange.validate "MediumRange" d "medium_range_mem1"
  <*> optional_model MediumRange.validate "MediumRange" d "medium_range_mem2"
  <*> optional_model MediumRange.validate "MediumRange" d "medium_range_mem3"
  <*> optional_model MediumRange.validate "MediumRange" d "medium_range_mem4"
  <*> optional_model MediumRange.validate "MediumRange" d "medium_range_mem5"
  <*> optional_model MediumRange.validate "MediumRange" d "medium_range_mem6"
  <*> optional_model MediumRange.validate "MediumRange" d "medium_range_mem7"
  <*> optional_model MediumRange.validate "MediumRange" d "medium_range_no_da"
  <*> optional_model LongRange.validate "LongRange" d "long_range_mem1"
  <*> optional_model LongRange.validate "LongRange" d "long_range_mem2"
  <*> optional_model LongRange.validate "LongRange" d "long_range_mem3"
  <*> optional_model LongRange.validate "LongRange" d "long_range_mem4"
  <*> optional_model Forcing.validate "Forcing" d "forcing_medium_range"
  <*> optional_model Forcing.validate "Forcing" d "forcing_short_range"
  <*> optional_model Forcing.validate "Forcing" d "forcing_short_range_hawaii"
  <*> optional_model Forcing.validate "Forcing"
        d "forcing_short_range_puertorico"
  <*> optional_model Forcing.validate "Forcing" d "forcing_analysis_assim"
  <*> optional_model Forcing.validate "Forcing"
        d "forcing_analysis_assim_extend"
  <*> optional_model Forcing.validate "Forcing"
        d "forcing_analysis_assim_hawaii"
  <*> optional_model Forcing.validate "Forcing"
        d "forcing_analysis_assim_puertorico".

Definition model_validate (d : pydict) : py t := run_validation (validate d).

End GridConfigurationModel.

(** [getattr(cm, name)]; [None] stands for the [AttributeError] of a name
    that is no field of the model. *)
Definition grid_getattr (cm : GridConfigurationModel.t) (name : string)
  : option grid_attr :=
  if String.eqb name "configuration"
  then Some (AttrConfiguration (GridConfigurationModel.configuration cm))
  else if String.eqb name "analysis_assim"
  then Some (AttrAnalysis (GridConfigurationModel.analysis_assim cm))
  else if String.eqb name "analysis_assim_no_da"
  then Some (AttrAnalysis (GridConfigurationModel.analysis_assim_no_da cm))
  else if String.eqb name "analysis_assim_extend"
  then Some (AttrAnalysis (GridConfigurationModel.analysis_assim_extend cm))
  else if String.eqb name "analysis_assim_extend_no_da"
  then Some (AttrAnalysis (GridConfigurationModel.analysis_assim_extend_no_da cm))
  else if String.eqb name "analysis_assim_long"
  then Some (AttrAnalysis (GridConfigurationModel.analysis_assim_long cm))
  else if String.eqb name "analysis_assim_long_no_da"
  then Some (AttrAnalysis (GridConfigurationModel.analysis_assim_long_no_da cm))
  else if String.eqb name "analysis_assim_hawaii"
  then Some (AttrAnalysis (GridConfigurationModel.analysis_assim_hawaii cm))
  else if String.eqb name "analysis_assim_hawaii_no_da"
  then Some (AttrAnalysis (GridConfigurationModel.analysis_assim_hawaii_no_da cm))
  else if String.eqb name "analysis_assim_puertorico"
  then Some (AttrAnalysis (GridConfigurationModel.analysis_assim_puertorico cm))
  else if String.eqb name "analysis_assim_puertorico_no_da"
  then Some (AttrAnalysis (GridConfigurationModel.analysis_assim_puertorico_no_da cm))
  else if String.eqb name "short_range"
  then Some (AttrShortRange (GridConfigurationModel.short_range cm))
  else if String.eqb name "short_range_hawaii"
  then Some (AttrShortRange (GridConfigurationModel.short_range_hawaii cm))
  else if String.eqb name "short_range_puertorico"
  then Some (AttrShortRange (GridConfigurationModel.short_range_puertorico cm))
  else if String.eqb name "short_range_hawaii_no_da"
  then Some (AttrShortRange (GridConfigurationModel.short_range_hawaii_no_da cm))
  else if String.eqb name "short_range_puertorico_no_da"
  then Some (AttrShortRange (GridConfigurationModel.short_range_puertorico_no_da cm))
  else if String.eqb name "medium_range_mem1"
  then Some (AttrMediumRange (GridConfigurationModel.medium_range_mem1 cm))
  else if String.eqb name "medium_range_mem2"
  then Some (AttrMediumRange (GridConfigurationModel.medium_range_mem2 cm))
  else if String.eqb name "medium_range_mem3"
  then Some (AttrMediumRange (GridConfigurationModel.medium_range_mem3 cm))
  else if String.eqb name "medium_range_mem4"
  then Some (AttrMediumRange (GridConfigurationModel.medium_range_mem4 cm))
  else if String.eqb name "medium_range_mem5"
  then Some (AttrMediumRange (GridConfigurationModel.medium_range_mem5 cm))
  else if String.eqb name "medium_range_mem6"
  then Some (AttrMediumRange (GridConfigurationModel.medium_range_mem6 cm))
  else if String.eqb name "medium_range_mem7"
  then Some (AttrMediumRange (GridConfigurationModel.medium_range_mem7 cm))
  else if String.eqb name "medium_range_no_da"
  then Some (AttrMediumRange (GridConfigurationModel.medium_range_no_da cm))
  else if String.eqb name "long_range_mem1"
  then Some (AttrLongRange (GridConfigurationModel.long_range_mem1 cm))
  else if String.eqb name "long_range_mem2"
  then Some (AttrLongRange (GridConfigurationModel.long_range_mem2 cm))
  else if String.eqb name "long_range_mem3"
  then Some (AttrLongRange (GridConfigurationModel.long_range_mem3 cm))
  else if String.eqb name "long_range_mem4"
  then Some (AttrLongRange (GridConfigurationModel.long_range_mem4 cm))
  else if String.eqb name "forcing_medium_range"
  then Some (AttrForcing (GridConfigurationModel.forcing_medium_range cm))
  else if String.eqb name "forcing_short_range"
  then Some (AttrForcing (GridConfigurationModel.forcing_short_range cm))
  else if String.eqb name "forcing_short_range_hawaii"
  then Some (AttrForcing (GridConfigurationModel.forcing_short_range_hawaii cm))
  else if String.eqb name "forcing_short_range_puertorico"
  then Some (AttrForcing (GridConfigurationModel.forcing_short_range_puertorico cm))
  else if String.eqb name "forcing_analysis_assim"
  then Some (AttrForcing (GridConfigurationModel.forcing_analysis_assim cm))
  else if String.eqb name "forcing_analysis_assim_extend"
  then Some (AttrForcing (GridConfigurationModel.forcing_analysis_assim_extend cm))
  else if String.eqb name "forcing_analysis_assim_hawaii"
  then Some (AttrForcing (GridConfigurationModel.forcing_analysis_assim_hawaii cm))
  else if String.eqb name "forcing_analysis_assim_puertorico"
  then Some (AttrForcing (GridConfigurationModel.forcing_analysis_assim_puertorico cm))
  else None.

(** [forecast_obj.output_type.name]. *)
Definition output_type_name (forecast_obj : grid_attr) : main_exn + string :=
  match forecast_obj with
  | AttrConfiguration _ =>
      inl (AttributeError "ConfigurationsEnum" "output_type")
  | AttrAnalysis (Some obj) =>
      inr (ShortAndAnalysisOutputEnum.name (Analysis.output_type obj))
  | AttrAnalysis None => inl (AttributeError "NoneType" "output_type")
  | AttrShortRange (Some obj) =>
      inr (ShortAndAnalysisOutputEnum.name (ShortRange.output_type obj))
  | AttrShortRange None => inl (AttributeError "NoneType" "output_type")
  | AttrMediumRange (Some obj) =>
      inr (MediumOutputEnum.name (MediumRange.output_type obj))
  | AttrMediumRange None => inl (AttributeError "NoneType" "output_type")
  | AttrLongRange (Some obj) =>
      inr (LongOutputEnum.name (LongRange.output_type obj))
  | AttrLongRange None => inl (AttributeError "NoneType" "output_type")
  | AttrForcing (Some obj) =>
      inr (ForcingOutputEnum.name (Forcing.output_type obj))
  | AttrForcing None => inl (AttributeError "NoneType" "output_type")
  end.

(** [getattr(forecast_obj, out_type).name]. *)
Definition forecast_getattr_name (forecast_obj : grid_attr) (attr : string)
  : main_exn + string :=
  match forecast_obj with
  | AttrConfiguration _ => inl (AttributeError "ConfigurationsEnum" attr)
  | AttrAnalysis (Some obj) => Analysis.getattr_name obj attr
  | AttrAnalysis None => inl (AttributeError "NoneType" attr)
  | AttrShortRange (Some obj) => ShortRange.getattr_name obj attr
  | AttrShortRange None => inl (AttributeError "NoneType" attr)
  | AttrMediumRange (Some obj) => MediumRange.getattr_name obj attr
  | AttrMediumRange None => inl (AttributeError "NoneType" attr)
  | AttrLongRange (Some obj) => LongRange.getattr_name obj attr
  | AttrLongRange None => inl (AttributeError "NoneType" attr)
  | AttrForcing (Some obj) => Forcing.getattr_name obj attr
  | AttrForcing None => inl (AttributeError "NoneType" attr)
  end.

(** The request the script assembles from a configuration, an output type
    and a variable name. *)
Definition grid_vars (configuration output_type variable_name : string)
  : pydict :=
  dict_display
    [ ("configuration", PStr configuration);
      (configuration,
       PDict (dict_display [ ("output_type", PStr output_type);
                             (output_type, PStr variable_name) ])) ].

(** The script under [if __name__ == "__main__"], for any three inputs: it
    validates the request and reads the configuration, the output type and
    the variable back from the model; the result holds [config],
    [out_type] and [var_name]. *)
Definition grid_main (configuration output_type variable_name : string)
  : main_exn + (string * string * string) :=
  match GridConfigurationModel.model_validate
          (grid_vars configuration output_type variable_name) with
  | inl e => inl (Raised e)
  | inr cm =>
      let config :=
        ConfigurationsEnum.name (GridConfigurationModel.configuration cm) in
      match grid_getattr cm config with
      | None => inl (AttributeError "GridConfigurationModel" config)
      | Some forecast_obj =>
          match output_type_name forecast_obj with
          | inl e => inl e
          | inr out_type =>
              match forecast_getattr_name forecast_obj out_type with
              | inl e => inl e
              | inr var_name => inr (config, out_type, var_name)
              end
          end
      end
  end.

(** The model of the field of [GridConfigurationModel] that has the name
    of a member of [ConfigurationsEnum], read off the annotations of the
    fields. *)
Inductive forecast_model : Type :=
| ModelAnalysis
| ModelShortRange
| ModelMediumRange
| ModelLongRange
| ModelForcing.

Definition field_model (c : ConfigurationsEnum.t) : forecast_model :=
  match c with
  | ConfigurationsEnum.analysis_assim
  | ConfigurationsEnum.analysis_assim_no_da
  | ConfigurationsEnum.analysis_assim_extend
  | ConfigurationsEnum.analysis_assim_extend_no_da
  | ConfigurationsEnum.analysis_assim_long
  | ConfigurationsEnum.analysis_assim_long_no_da
  | ConfigurationsEnum.analysis_assim_hawaii
  | ConfigurationsEnum.analysis_assim_hawaii_no_da
  | ConfigurationsEnum.analysis_assim_puertorico
  | ConfigurationsEnum.analysis_assim_puertorico_no_da => ModelAnalysis
  | ConfigurationsEnum.short_range
  | ConfigurationsEnum.short_range_hawaii
  | ConfigurationsEnum.short_range_puertorico
  | ConfigurationsEnum.short_range_hawaii_no_da
  | ConfigurationsEnum.short_range_puertorico_no_da => ModelShortRange
  | ConfigurationsEnum.medium_range_mem1
  | ConfigurationsEnum.medium_range_mem2
  | ConfigurationsEnum.medium_range_mem3
  | ConfigurationsEnum.medium_range_mem4
  | ConfigurationsEnum.medium_range_mem5
  | ConfigurationsEnum.medium_range_mem6
  | ConfigurationsEnum.medium_range_mem7 => ModelMediumRange
  | ConfigurationsEnum.long_range_mem1
  | ConfigurationsEnum.long_range_mem2
  | ConfigurationsEnum.long_range_mem3
  | ConfigurationsEnum.long_range_mem4 => ModelLongRange
  | ConfigurationsEnum.forcing_medium_range
  | ConfigurationsEnum.forcing_short_range
  | ConfigurationsEnum.forcing_short_range_hawaii
  | ConfigurationsEnum.forcing_short_range_puertorico
  | ConfigurationsEnum.forcing_analysis_assim
  | ConfigurationsEnum.forcing_analysis_assim_extend
  | ConfigurationsEnum.forcing_analysis_assim_hawaii
  | ConfigurationsEnum.forcing_analysis_assim_puertorico => ModelForcing
  end.

Definition is_some {A : Type} (o : option A) : bool :=
  match o with Some _ => true | None => false end.

(** The output types of a model are the values of the enumeration of its
    field [output_type]; its variables are the values of the enumeration
    its other fields share. *)
Definition is_output_type (m : forecast_model) (s : string) : bool :=
  match m with
  | ModelAnalysis => is_some (ShortAndAnalysisOutputEnum.of_value s)
  | ModelShortRange => is_some (ShortAndAnalysisOutputEnum.of_value s)
  | ModelMediumRange => is_some (MediumOutputEnum.of_value s)
  | ModelLongRange => is_some (LongOutputEnum.of_value s)
  | ModelForcing => is_some (ForcingOutputEnum.of_value s)
  end.

Definition is_variable (m : forecast_model) (s : string) : bool :=
  match m with
  | ModelAnalysis => is_some (LandAssimVariablesEnum.of_value s)
  | ModelShortRange => is_some (LandShortVariablesEnum.of_value s)
  | ModelMediumRange => is_some (LandMediumVariablesEnum.of_value s)
  | ModelLongRange => is_some (LandLongVariablesEnum.of_value s)
  | ModelForcing => is_some (ForcingVariablesEnum.of_value s)
  end.

(** The requests the field annotations admit. *)
Definition grid_accepted (configuration output_type variable_name : string)
  : bool :=
  match ConfigurationsEnum.of_value configuration with
  | Some c =>
      is_output_type (field_model c) output_type
      && is_variable (field_model c) variable_name
  | None => false
  end.


(** ** [process_chunk_of_files] and the loop over the chunks *)

(** A row of [df_refs]: the day and the z-hour of a reference file and its
    path. *)
Record ref_row : Type := {
  ref_day : string;
  ref_z_hour : string;
  ref_filepath : string
}.

Definition same_day_z_hour (a b : ref_row) : bool :=
  String.eqb (ref_day a) (ref_day b)
  && String.eqb (ref_z_hour a) (ref_z_hour b).

Definition day_z_hour_leb (a b : ref_row) : bool :=
  if String.eqb (ref_day a) (ref_day b)
  then String.leb (ref_z_hour a) (ref_z_hour b)
  else String.leb (ref_day a) (ref_day b).

(** [[df for _, df in df_refs.groupby(["day", "z_hour"])]]: one frame for
    every pair of day and z-hour, in ascending order of the pairs, each with
    its rows in the order of [df_refs]. *)
Definition groupby_day_z_hour (df_refs : list ref_row)
  : list (list ref_row) :=
  map snd
    (sort_by (fun g h => day_z_hour_leb (fst g) (fst h))
       (group_by same_day_z_hour df_refs)).

(** [s.split(sep)] for a separator of one character. *)
Fixpoint split_on (sep : ascii) (s : string) : list string :=
  match s with
  | EmptyString => [EmptyString]
  | String c rest =>
      if Ascii.eqb c sep
      then EmptyString :: split_on sep rest
      else match split_on sep rest with
           | [] => [String c EmptyString]
           | part :: parts => String c part :: parts
           end
  end.

(** [l[i]] and [l[-1]]. *)
Definition getitem {A : Type} (l : list A) (i : nat) : chunk_exn + A :=
  match nth_error l i with
  | Some a => inr a
  | None => inl IndexError
  end.

Definition last_item {A : Type} (l : list A) : chunk_exn + A :=
  match rev l with
  | a :: _ => inr a
  | [] => inl IndexError
  end.

(** [s[1:3]] and [s[1:]]. *)
Definition slice_1_3 (s : string) : string := substring 1 2 s.

Definition slice_1 (s : string) : string := substring 1 (String.length s) s.

(** The stamp of a reference file in the name of the output file:
    [f"{json[1]}T{json[3][1:3]}F{json[6][1:]}"] for
    [json = path.split("/")[-1].split(".")]. *)
Definition forecast_stamp (path : string) : chunk_exn + string :=
  match last_item (split_on "/"%char path) with
  | inl e => inl e
  | inr name =>
      let json := split_on "."%char name in
      match getitem json 1 with
      | inl e => inl e
      | inr day =>
          match getitem json 3 with
          | inl e => inl e
          | inr z_hour =>
              match getitem json 6 with
              | inl e => inl e
              | inr forecast_hour =>
                  inr (day ++ "T" ++ slice_1_3 z_hour
                           ++ "F" ++ slice_1 forecast_hour)%string
              end
          end
      end
  end.

(** The name of the output file of a chunk. *)
Definition chunk_filename (df : list ref_row) (process_by_z_hour : bool)
  : chunk_exn + string :=
  if process_by_z_hour
  then match getitem df 0 with
       | inl e => inl e
       | inr row =>
           inr (ref_day row ++ "T" ++ slice_1_3 (ref_z_hour row)
                        ++ ".parquet")%string
       end
  else
    let filepath_list := sort_by String.leb (map ref_filepath df) in
    match getitem filepath_list 0 with
    | inl e => inl e
    | inr first =>
        match forecast_stamp first with
        | inl e => inl e
        | inr start =>
            match last_item filepath_list with
            | inl e => inl e
            | inr last =>
                match forecast_stamp last with
                | inl e => inl e
                | inr stop => inr (start ++ "_" ++ stop ++ ".parquet")%string
                end
            end
        end
    end.

Section ProcessChunks.

(** The rows of the tables are kept abstract. *)
Context {table_row : Type}.

(** [file_chunk_loop] for one row of the chunk, with the other arguments
    fixed: the table of the file, or [None] when [get_dataset] finds no
    file.  Its body reads the file through [teehr.loading.nwm.utils] and
    xarray and is a parameter here. *)
Variable file_chunk_loop : ref_row -> option (list table_row).

(** The truth value of an item of [output]: [None] is false and so is a
    table without rows (the length of a table is its number of rows). *)
Definition table_truthy (tbl : option (list table_row)) : bool :=
  match tbl with
  | Some (_ :: _) => true
  | _ => false
  end.

(** [pa.concat_tables([tbl for tbl in output if tbl is not None])]. *)
Fixpoint concat_tables (output : list (option (list table_row)))
  : list table_row :=
  match output with
  | [] => []
  | Some tbl :: rest => tbl ++ concat_tables rest
  | None :: rest => concat_tables rest
  end.

(** [process_chunk_of_files]: the arguments of the call of
    [write_parquet_file], the name of the file and the table. *)
Definition process_chunk_of_files (df : list ref_row)
  (process_by_z_hour : bool) : chunk_exn + (string * list table_row) :=
  let output := map file_chunk_loop df in
  if negb (existsb table_truthy output)
  then inl FileNotFoundError
  else
    let output_table := concat_tables output in
    match chunk_filename df process_by_z_hour with
    | inl e => inl e
    | inr filename => inr (filename, output_table)
    end.

(** [for df in dfs: process_chunk_of_files(df, ...)]: the files written,
    in order, and the exception that stopped the loop, if any. *)
Fixpoint process_chunks (dfs : list (list ref_row))
  (process_by_z_hour : bool)
  : list (string * list table_row) * option chunk_exn :=
  match dfs with
  | [] => ([], None)
  | df :: rest =>
      match process_chunk_of_files df process_by_z_hour with
      | inl e => ([], Some e)
      | inr written =>
          (written :: fst (process_chunks rest process_by_z_hour),
           snd (process_chunks rest process_by_z_hour))
      end
  end.

(** [fetch_and_format_nwm_points] from [df_refs] on. *)
Definition fetch_and_format_nwm_points (df_refs : list ref_row)
  (process_by_z_hour : bool) (stepsize : Z)
  : list (string * list table_row) * option chunk_exn :=
  match (if process_by_z_hour
         then inr (groupby_day_z_hour df_refs)
         else chunk_by_stepsize df_refs stepsize) with
  | inl e => ([], Some e)
  | inr dfs => process_chunks dfs process_by_z_hour
  end.

End ProcessChunks.

(** A run over three reference files of two forecasts, the second of which
    is missing. *)
Definition example_refs : list ref_row :=
  [ {| ref_day := "20230102"; ref_z_hour := "t00z";
       ref_filepath :=
         "refs/nwm.20230102.nwm.t00z.short_range.channel_rt.f001.conus.nc.json" |};
    {| ref_day := "20230101"; ref_z_hour := "t06z";
       ref_filepath :=
         "refs/nwm.20230101.nwm.t06z.short_range.channel_rt.f002.conus.nc.json" |};
    {| ref_day := "20230101"; ref_z_hour := "t06z";
       ref_filepath :=
         "refs/nwm.20230101.nwm.t06z.short_range.channel_rt.f001.conus.nc.json" |} ].

Definition example_file_chunk_loop (row : ref_row) : option (list Z) :=
  if String.eqb (ref_day row) "20230102"
  then Some [7%Z; 8%Z]
  else if String.eqb (ref_filepath row)
            "refs/nwm.20230101.nwm.t06z.short_range.channel_rt.f002.conus.nc.json"
       then None
       else Some [5%Z].

(** Three forecasts for one value time, stored out of the order of their
    reference times, with forecasts of two variables. *)
Definition example_unordered_files : parquet_files Z :=
  {| read_parquet := fun path =>
       if String.eqb path "primary.parquet"
       then [ example_observation;
              {| ts_value := 3%Z; ts_reference_time := 0%Z;
                 ts_location_id := "gage-A"; ts_value_time := 3600%Z;
                 ts_configuration := "usgs_gage_data";
                 ts_variable_name := "stage";
                 ts_measurement_unit := "m" |} ]
       else if String.eqb path "secondary.parquet"
       then [ {| ts_value := 14%Z; ts_reference_time := 2400%Z;
                 ts_location_id := "fcst-A"; ts_value_time := 3600%Z;
                 ts_configuration := "short_range";
                 ts_variable_name := "streamflow";
                 ts_measurement_unit := "m3/s" |};
              {| ts_value := 4%Z; ts_reference_time := 1200%Z;
                 ts_location_id := "fcst-A"; ts_value_time := 3600%Z;
                 ts_configuration := "short_range";
                 ts_variable_name := "stage";
                 ts_measurement_unit := "m" |};
              example_forecast;
              {| ts_value := 9%Z; ts_reference_time := 1200%Z;
                 ts_location_id := "fcst-A"; ts_value_time := 3600%Z;
                 ts_configuration := "short_range";
                 ts_variable_name := "streamflow";
                 ts_measurement_unit := "m3/s" |} ]
       else [];
     read_parquet_crosswalk := fun _ =>
       [ {| cw_primary_location_id := "gage-A";
            cw_secondary_location_id := "fcst-A" |} ] |}.

(** A request that orders by reference time, then by variable name. *)
Definition example_ordered_query : JoinedTimeseriesQuery.t :=
  {| JoinedTimeseriesQuery.primary_filepath := PathStr "primary.parquet";
     JoinedTimeseriesQuery.secondary_filepath := PathStr "secondary.parquet";
     JoinedTimeseriesQuery.crosswalk_filepath := PathStr "crosswalk.parquet";
     JoinedTimeseriesQuery.order_by :=
       [ JoinedFilterFieldEnum.reference_time;
         JoinedFilterFieldEnum.variable_name ];
     JoinedTimeseriesQuery.filters := [];
     JoinedTimeseriesQuery.return_query := false;
     JoinedTimeseriesQuery.geometry_filepath := None;
     JoinedTimeseriesQuery.include_geometry := false;
     JoinedTimeseriesQuery.remove_duplicates := Some true |}.

(* ================================================================== *)
(** * Part II. Properties                                              *)
(* ================================================================== *)

(** ** Enumerations *)

Lemma FilterOperatorEnum_of_value_value (o : FilterOperatorEnum.t) :
  FilterOperatorEnum.of_value (FilterOperatorEnum.value o) = Some o.
Proof. destruct o; reflexivity. Qed.

Lemma JoinedFilterFieldEnum_of_value_value (f : JoinedFilterFieldEnum.t) :
  JoinedFilterFieldEnum.of_value (JoinedFilterFieldEnum.value f) = Some f.
Proof. destruct f; reflexivity. Qed.

Lemma TimeseriesFilterFieldEnum_of_value_value
  (f : TimeseriesFilterFieldEnum.t) :
  TimeseriesFilterFieldEnum.of_value (TimeseriesFilterFieldEnum.to_value f)
  = Some f.
Proof. destruct f; reflexivity. Qed.

Lemma MetricEnum_of_value_value (m : MetricEnum.t) :
  MetricEnum.of_value (MetricEnum.value m) = Some m.
Proof. destruct m; reflexivity. Qed.

Lemma MetricEnum_members_complete (m : MetricEnum.t) :
  In m MetricEnum.members.
Proof. destruct m; simpl; tauto. Qed.

Lemma JoinedFilterFieldEnum_eqb_eq (a b : JoinedFilterFieldEnum.t) :
  JoinedFilterFieldEnum.eqb a b = true <-> a = b.
Proof.
  split.
  - destruct a, b; intro E; solve [reflexivity | discriminate E].
  - intros ->. destruct b; reflexivity.
Qed.

Lemma JoinedFilterFieldEnum_mem_In (x : JoinedFilterFieldEnum.t)
  (xs : list JoinedFilterFieldEnum.t) :
  JoinedFilterFieldEnum.mem x xs = true <-> In x xs.
Proof.
  unfold JoinedFilterFieldEnum.mem. rewrite existsb_exists. split.
  - intros [y [Hy E]]. apply JoinedFilterFieldEnum_eqb_eq in E. now subst.
  - intro Hx. exists x. split; [assumption|].
    now apply JoinedFilterFieldEnum_eqb_eq.
Qed.

Lemma JoinedFilterFieldEnum_mem_not_In (x : JoinedFilterFieldEnum.t)
  (xs : list JoinedFilterFieldEnum.t) :
  JoinedFilterFieldEnum.mem x xs = false <-> ~ In x xs.
Proof.
  rewrite <- JoinedFilterFieldEnum_mem_In.
  destruct (JoinedFilterFieldEnum.mem x xs); split; intro; try congruence.
  all: try (exfalso; auto; fail).
Qed.

(** [parse_list] fails exactly when some name is not the value of a
    member. *)
Lemma parse_list_None {E : Type} (of_value : string -> option E)
  (names : list string) :
  parse_list of_value names = None <->
  exists n, In n names /\ of_value n = None.
Proof.
  induction names as [|n rest IH]; simpl.
  - split; [discriminate | intros [? [[] _]]].
  - destruct (of_value n) eqn:En.
    + destruct (parse_list of_value rest) eqn:Er.
      * split; [discriminate|].
        intros [x [[->|Hx] Hn]]; [congruence|].
        destruct IH as [_ IH]. discriminate IH. now exists x.
      * split; [|reflexivity]. intros _.
        destruct IH as [IH _]. destruct (IH Logic.eq_refl) as [x [Hx Hn]].
        exists x. tauto.
    + split; [|reflexivity]. intros _. exists n. tauto.
Qed.

(** ** Filters: operator [in] and iterable values (C2) *)

(** C2. For every column and operator of the vocabulary: a [JoinedFilter]
    and a [TimeseriesFilter] are constructed when the operator is [in] and
    the value is a list, and when the operator is not [in] and the value is
    a scalar; construction raises a [ValidationError] on field [value] when
    the operator is [in] and the value is a scalar, and when the operator is
    not [in] and the value is a list. *)
Theorem filter_in_operator_iff_iterable :
  forall (op : FilterOperatorEnum.t) (jc : JoinedFilterFieldEnum.t)
         (tc : TimeseriesFilterFieldEnum.t)
         (items : list scalar) (s : scalar),
    let jraw v := JoinedFilter.mk_raw (JoinedFilterFieldEnum.value jc)
                    (FilterOperatorEnum.value op) v in
    let traw v := TimeseriesFilter.mk_raw
                    (TimeseriesFilterFieldEnum.to_value tc)
                    (FilterOperatorEnum.value op) v in
    (op = FilterOperatorEnum.isin ->
       JoinedFilter.model_validate (jraw (VList items))
       = inr (JoinedFilter.mk jc op (VList items))
       /\ TimeseriesFilter.model_validate (traw (VList items))
          = inr (TimeseriesFilter.mk tc op (VList items))
       /\ JoinedFilter.model_validate (jraw (VScalar s))
          = inl (ValidationError
                   [("value",
                     "'in' operator can only be used with iterable value")])
       /\ TimeseriesFilter.model_validate (traw (VScalar s))
          = inl (ValidationError
                   [("value",
                     "'in' operator can only be used with iterable value")]))
    /\ (op <> FilterOperatorEnum.isin ->
       JoinedFilter.model_validate (jraw (VScalar s))
       = inr (JoinedFilter.mk jc op (VScalar s))
       /\ TimeseriesFilter.model_validate (traw (VScalar s))
          = inr (TimeseriesFilter.mk tc op (VScalar s))
       /\ JoinedFilter.model_validate (jraw (VList items))
          = inl (ValidationError
                   [("value",
                     "iterable value must be used with 'in' operator")])
       /\ TimeseriesFilter.model_validate (traw (VList items))
          = inl (ValidationError
                   [("value",
                     "iterable value must be used with 'in' operator")])).
Proof.
  intros op jc tc items s jraw traw. subst jraw traw.
  unfold JoinedFilter.model_validate, TimeseriesFilter.model_validate.
  cbn [JoinedFilter.raw_column JoinedFilter.raw_operator
       JoinedFilter.raw_value TimeseriesFilter.raw_column
       TimeseriesFilter.raw_operator TimeseriesFilter.raw_value].
  rewrite JoinedFilterFieldEnum_of_value_value,
          TimeseriesFilterFieldEnum_of_value_value,
          FilterOperatorEnum_of_value_value.
  split.
  - intros ->. repeat split; try reflexivity; destruct s; reflexivity.
  - intro Hop. destruct op; try (exfalso; apply Hop; reflexivity);
      repeat split; try reflexivity; destruct s; reflexivity.
Qed.

Lemma filter_in_operator_iff_iterable_witness :
  JoinedFilter.model_validate
    (JoinedFilter.mk_raw "secondary_location_id" "in"
       (VList [SStr "123456"; SStr "9876543"]))
  = inr (JoinedFilter.mk JoinedFilterFieldEnum.secondary_location_id
           FilterOperatorEnum.isin (VList [SStr "123456"; SStr "9876543"]))
  /\ JoinedFilter.model_validate
       (JoinedFilter.mk_raw "primary_location_id" "="
          (VList [SStr "123456"; SStr "9876543"]))
     = inl (ValidationError
              [("value", "iterable value must be used with 'in' operator")]).
Proof.
  split.
  - apply (proj1 (filter_in_operator_iff_iterable FilterOperatorEnum.isin
                    JoinedFilterFieldEnum.secondary_location_id
                    TimeseriesFilterFieldEnum.location_id
                    [SStr "123456"; SStr "9876543"] (SInt 0))).
    reflexivity.
  - apply (proj2 (filter_in_operator_iff_iterable FilterOperatorEnum.eq
                    JoinedFilterFieldEnum.primary_location_id
                    TimeseriesFilterFieldEnum.location_id
                    [SStr "123456"; SStr "9876543"] (SInt 0))).
    discriminate.
Defined.

(** ** [MetricQuery]: geometry invariants (C3) *)

(** The validator of [include_geometry], when [group_by] and
    [geometry_filepath] passed their own validation. *)
Lemma include_geometry_validator_cases (v : bool)
  (gb : list JoinedFilterFieldEnum.t)
  (ob : option (list JoinedFilterFieldEnum.t))
  (im : option MetricQuery.include_metrics_t)
  (fl : option (list JoinedFilter.t)) (gf : option filepath) :
  MetricQuery.include_geometry_must_group_by_primary_location_id v
    (MetricQuery.mk_data (Some gb) ob im fl (Some gf))
  = if v && negb (JoinedFilterFieldEnum.mem
                    JoinedFilterFieldEnum.primary_location_id gb)
    then raise (ValueError MetricQuery.msg_group_by_primary_location_id)
    else if v && negb (filepath_truthy gf)
    then raise (ValueError MetricQuery.msg_geometry_filepath)
    else if JoinedFilterFieldEnum.mem JoinedFilterFieldEnum.geometry gb
            && negb v
    then raise (ValueError MetricQuery.msg_geometry_in_group_by)
    else ret v.
Proof.
  unfold MetricQuery.include_geometry_must_group_by_primary_location_id,
    MetricQuery.data_getitem_group_by,
    MetricQuery.data_getitem_geometry_filepath.
  cbn [MetricQuery.data_group_by MetricQuery.data_geometry_filepath].
  unfold bind, ret, raise.
  destruct v,
    (JoinedFilterFieldEnum.mem JoinedFilterFieldEnum.primary_location_id gb),
    (filepath_truthy gf),
    (JoinedFilterFieldEnum.mem JoinedFilterFieldEnum.geometry gb);
    reflexivity.
Qed.

(** When the validator of [include_geometry] raises a [ValueError], the
    constructor raises a [ValidationError] that reports the field. *)
Lemma MetricQuery_model_validate_include_geometry_invalid
  (r : MetricQuery.raw) (fl : option (list JoinedFilter.t)) (msg : string) :
  MetricQuery.validate_filters (MetricQuery.raw_filters r) = inr fl ->
  MetricQuery.include_geometry_must_group_by_primary_location_id
    (MetricQuery.raw_include_geometry r)
    (MetricQuery.mk_data
       (parse_list JoinedFilterFieldEnum.of_value (MetricQuery.raw_group_by r))
       (parse_list JoinedFilterFieldEnum.of_value (MetricQuery.raw_order_by r))
       (MetricQuery.validate_include_metrics (MetricQuery.raw_include_metrics r))
       fl (Some (MetricQuery.raw_geometry_filepath r)))
  = raise (ValueError msg) ->
  exists errs,
    MetricQuery.model_validate r = inl (ValidationError errs)
    /\ In ("include_geometry", msg) errs.
Proof.
  intros Hfl Hv. unfold MetricQuery.model_validate.
  rewrite Hfl. cbn [bind]. rewrite Hv.
  cbn [run_field_validator raise outcome_value outcome_errors].
  exists (field_errors "group_by"
            "Input should be a member of JoinedFilterFieldEnum"
            (parse_list JoinedFilterFieldEnum.of_value
               (MetricQuery.raw_group_by r))
          ++ field_errors "order_by"
               "Input should be a member of JoinedFilterFieldEnum"
               (parse_list JoinedFilterFieldEnum.of_value
                  (MetricQuery.raw_order_by r))
          ++ field_errors "include_metrics"
               "Input should be a member of MetricEnum"
               (MetricQuery.validate_include_metrics
                  (MetricQuery.raw_include_metrics r))
          ++ field_errors "filters" "Input should be a valid JoinedFilter" fl
          ++ [("include_geometry", msg)]).
  split.
  - destruct (parse_list JoinedFilterFieldEnum.of_value
                (MetricQuery.raw_group_by r));
      destruct (parse_list JoinedFilterFieldEnum.of_value
                  (MetricQuery.raw_order_by r));
      destruct (MetricQuery.validate_include_metrics
                  (MetricQuery.raw_include_metrics r));
      destruct fl; reflexivity.
  - rewrite !in_app_iff. right. right. right. right. left. reflexivity.
Qed.

(** Reports the error [msg] of the validator as the error of the
    constructor. *)
Ltac exists_errs_msg r fl msg :=
  let H := fresh "H" in
  assert (H : exists errs,
             MetricQuery.model_validate r = inl (ValidationError errs)
             /\ In ("include_geometry", msg) errs);
  [ apply (MetricQuery_model_validate_include_geometry_invalid r fl);
    trivial
  | destruct H as [errs H]; exists errs, msg; exact H ].

(** C3. For every request whose [group_by] names are in the vocabulary:
    construction raises a [ValidationError] on [include_geometry] when
    [include_geometry] is true and [primary_location_id] is not in
    [group_by], when [include_geometry] is true and no geometry file path is
    given, and when [geometry] is in [group_by] and [include_geometry] is
    false; and with [include_geometry] true, [primary_location_id] in
    [group_by] and a geometry file path present the validator returns. *)
Theorem MetricQuery_include_geometry_invariants :
  forall (r : MetricQuery.raw) (gb : list JoinedFilterFieldEnum.t)
         (fl : option (list JoinedFilter.t)),
    parse_list JoinedFilterFieldEnum.of_value (MetricQuery.raw_group_by r)
    = Some gb ->
    MetricQuery.validate_filters (MetricQuery.raw_filters r) = inr fl ->
    (MetricQuery.raw_include_geometry r = true ->
     ~ In JoinedFilterFieldEnum.primary_location_id gb ->
     exists errs,
       MetricQuery.model_validate r = inl (ValidationError errs)
       /\ In ("include_geometry",
              MetricQuery.msg_group_by_primary_location_id) errs)
    /\ (MetricQuery.raw_include_geometry r = true ->
        filepath_truthy (MetricQuery.raw_geometry_filepath r) = false ->
        exists errs msg,
          MetricQuery.model_validate r = inl (ValidationError errs)
          /\ In ("include_geometry", msg) errs)
    /\ (In JoinedFilterFieldEnum.geometry gb ->
        MetricQuery.raw_include_geometry r = false ->
        exists errs,
          MetricQuery.model_validate r = inl (ValidationError errs)
          /\ In ("include_geometry", MetricQuery.msg_geometry_in_group_by)
               errs)
    /\ (MetricQuery.raw_include_geometry r = true ->
        In JoinedFilterFieldEnum.primary_location_id gb ->
        filepath_truthy (MetricQuery.raw_geometry_filepath r) = true ->
        forall ob im fl',
          MetricQuery.include_geometry_must_group_by_primary_location_id
            (MetricQuery.raw_include_geometry r)
            (MetricQuery.mk_data (Some gb) ob im fl'
               (Some (MetricQuery.raw_geometry_filepath r)))
          = ret true).
Proof.
  intros r gb fl Hgb Hfl.
  repeat split.
  - intros Hv Hnot.
    apply (MetricQuery_model_validate_include_geometry_invalid r fl); trivial.
    rewrite Hgb, include_geometry_validator_cases, Hv.
    apply JoinedFilterFieldEnum_mem_not_In in Hnot. now rewrite Hnot.
  - intros Hv Hgf.
    destruct (JoinedFilterFieldEnum.mem
                JoinedFilterFieldEnum.primary_location_id gb) eqn:Hm.
    + exists_errs_msg r fl MetricQuery.msg_geometry_filepath.
      rewrite Hgb, include_geometry_validator_cases, Hv, Hm, Hgf.
      reflexivity.
    + exists_errs_msg r fl MetricQuery.msg_group_by_primary_location_id.
      rewrite Hgb, include_geometry_validator_cases, Hv, Hm.
      reflexivity.
  - intros Hin Hv.
    apply (MetricQuery_model_validate_include_geometry_invalid r fl); trivial.
    rewrite Hgb, include_geometry_validator_cases, Hv.
    apply JoinedFilterFieldEnum_mem_In in Hin. now rewrite Hin.
  - intros Hv Hin Hgf ob im fl'.
    rewrite include_geometry_validator_cases, Hv, Hgf.
    apply JoinedFilterFieldEnum_mem_In in Hin. rewrite Hin.
    destruct (JoinedFilterFieldEnum.mem JoinedFilterFieldEnum.geometry gb);
      reflexivity.
Qed.

Lemma MetricQuery_include_geometry_invariants_witness :
  (exists errs,
     MetricQuery.model_validate
       (example_metric_request ["lead_time"] ["lead_time"]
          (MetricQuery.RawMetricStr "all")
          (Some (PathStr "gages.parquet")) true)
     = inl (ValidationError errs)
     /\ In ("include_geometry", MetricQuery.msg_group_by_primary_location_id)
          errs)
  /\ MetricQuery.include_geometry_must_group_by_primary_location_id true
       (MetricQuery.mk_data
          (Some [JoinedFilterFieldEnum.lead_time;
                 JoinedFilterFieldEnum.primary_location_id])
          None None None (Some (Some (PathStr "gages.parquet"))))
     = ret true.
Proof.
  split.
  - apply (proj1 (MetricQuery_include_geometry_invariants
                    (example_metric_request ["lead_time"] ["lead_time"]
                       (MetricQuery.RawMetricStr "all")
                       (Some (PathStr "gages.parquet")) true)
                    [JoinedFilterFieldEnum.lead_time] (Some [])
                    Logic.eq_refl Logic.eq_refl)).
    + reflexivity.
    + simpl. intros [H|[]]. discriminate H.
  - apply (proj2 (proj2 (proj2
             (MetricQuery_include_geometry_invariants
                (example_metric_request ["lead_time"; "primary_location_id"]
                   ["lead_time"] (MetricQuery.RawMetricStr "all")
                   (Some (PathStr "gages.parquet")) true)
                [JoinedFilterFieldEnum.lead_time;
                 JoinedFilterFieldEnum.primary_location_id] (Some [])
                Logic.eq_refl Logic.eq_refl)))).
    + reflexivity.
    + simpl. tauto.
    + reflexivity.
Defined.

(** ** [MetricQuery]: the metrics of a request (C4) *)

Lemma MetricEnum_members_NoDup : NoDup MetricEnum.members.
Proof.
  unfold MetricEnum.members.
  repeat (constructor; [simpl; intuition discriminate|]).
  constructor.
Qed.

(** A request whose constructor meets an invalid field raises. *)
Lemma MetricQuery_model_validate_raises (r : MetricQuery.raw) :
  parse_list JoinedFilterFieldEnum.of_value (MetricQuery.raw_group_by r) = None
  \/ parse_list JoinedFilterFieldEnum.of_value (MetricQuery.raw_order_by r)
     = None
  \/ MetricQuery.validate_include_metrics (MetricQuery.raw_include_metrics r)
     = None ->
  exists e, MetricQuery.model_validate r = inl e.
Proof.
  intro Hbad. unfold MetricQuery.model_validate.
  destruct (MetricQuery.validate_filters (MetricQuery.raw_filters r))
    as [e|fl]; cbn [bind]; [now exists e|].
  match goal with
  | |- context [run_field_validator ?v] => destruct (run_field_validator v)
  end; cbn [outcome_value]; try (eexists; reflexivity).
  all: destruct Hbad as [Hb|[Hb|Hb]]; rewrite Hb;
    repeat match goal with
           | |- context [match ?x with Some _ => _ | None => _ end] =>
               destruct x
           end; eexists; reflexivity.
Qed.

(** C4. [include_metrics = "all"] is accepted and expands to every member
    of [MetricEnum], each once; a request whose [include_metrics] is a list
    holding a name that is not the value of a member is not constructed:
    the constructor raises, and the exception is a [ValidationError] that
    reports [include_metrics] whenever the fields validated before it do not
    themselves stop the constructor. *)
Theorem MetricQuery_include_metrics_all_and_unknown :
  (MetricQuery.validate_include_metrics (MetricQuery.RawMetricStr "all")
   = Some (MetricQuery.MetricStr "all")
   /\ exists ms,
        tqu.expand_include_metrics (MetricQuery.MetricStr "all") = Some ms
        /\ (forall m : MetricEnum.t, In m ms)
        /\ NoDup ms
        /\ List.length ms = 32%nat)
  /\ forall (r : MetricQuery.raw) (names : list string) (bad : string),
       MetricQuery.raw_include_metrics r = MetricQuery.RawMetricList names ->
       In bad names ->
       MetricEnum.of_value bad = None ->
       (exists e, MetricQuery.model_validate r = inl e)
       /\ (forall gb fl,
             parse_list JoinedFilterFieldEnum.of_value
               (MetricQuery.raw_group_by r) = Some gb ->
             MetricQuery.validate_filters (MetricQuery.raw_filters r)
             = inr fl ->
             exists errs,
               MetricQuery.model_validate r = inl (ValidationError errs)
               /\ In ("include_metrics",
                      "Input should be a member of MetricEnum") errs).
Proof.
  split.
  - split; [reflexivity|]. exists MetricEnum.members.
    split; [reflexivity|]. split; [|split].
    + intro m. apply MetricEnum_members_complete.
    + apply MetricEnum_members_NoDup.
    + reflexivity.
  - intros r names bad Hraw Hin Hbad.
    assert (Him : MetricQuery.validate_include_metrics
                    (MetricQuery.raw_include_metrics r) = None).
    { rewrite Hraw. unfold MetricQuery.validate_include_metrics.
      assert (Hp : parse_list MetricEnum.of_value names = None)
        by (apply parse_list_None; now exists bad).
      now rewrite Hp. }
    split.
    + apply MetricQuery_model_validate_raises. tauto.
    + intros gb fl Hgb Hfl. unfold MetricQuery.model_validate.
      rewrite Hfl, Hgb, Him. cbn [bind].
      rewrite include_geometry_validator_cases.
      repeat match goal with
             | |- context [if ?b then _ else _] => destruct b
             end;
        cbn [run_field_validator raise ret outcome_value];
        destruct (parse_list JoinedFilterFieldEnum.of_value
                    (MetricQuery.raw_order_by r));
        (eexists; split; [reflexivity|]);
        cbn [field_errors outcome_errors app]; simpl; tauto.
Qed.

Lemma MetricQuery_include_metrics_all_and_unknown_witness :
  exists errs,
    MetricQuery.model_validate
      (example_metric_request ["primary_location_id"] ["primary_location_id"]
         (MetricQuery.RawMetricList ["mean_error"; "median_error"])
         None false)
    = inl (ValidationError errs)
    /\ In ("include_metrics", "Input should be a member of MetricEnum") errs.
Proof.
  apply (proj2 (proj2 MetricQuery_include_metrics_all_and_unknown
                  (example_metric_request ["primary_location_id"]
                     ["primary_location_id"]
                     (MetricQuery.RawMetricList
                        ["mean_error"; "median_error"])
                     None false)
                  ["mean_error"; "median_error"] "median_error"
                  Logic.eq_refl (or_intror (or_introl Logic.eq_refl))
                  Logic.eq_refl)
          [JoinedFilterFieldEnum.primary_location_id] (Some [])
          Logic.eq_refl Logic.eq_refl).
Defined.

(** ** [MetricQuery]: names outside the vocabulary (C6) *)

(** A request with a name outside [JoinedFilterFieldEnum] in [group_by] or
    [order_by] is not constructed. *)
Lemma MetricQuery_unknown_field_not_constructed (r : MetricQuery.raw)
  (name : string) :
  In name (MetricQuery.raw_group_by r) \/ In name (MetricQuery.raw_order_by r) ->
  JoinedFilterFieldEnum.of_value name = None ->
  exists e, MetricQuery.model_validate r = inl e.
Proof.
  intros [Hin|Hin] Hname; apply MetricQuery_model_validate_raises;
    [left | right; left]; apply parse_list_None; now exists name.
Qed.

(** With a well-formed [group_by], an unknown name in [order_by] is
    reported as a [ValidationError] on [order_by]. *)
Lemma MetricQuery_unknown_order_by_ValidationError (r : MetricQuery.raw)
  (name : string) (gb : list JoinedFilterFieldEnum.t)
  (fl : option (list JoinedFilter.t)) :
  parse_list JoinedFilterFieldEnum.of_value (MetricQuery.raw_group_by r)
  = Some gb ->
  MetricQuery.validate_filters (MetricQuery.raw_filters r) = inr fl ->
  In name (MetricQuery.raw_order_by r) ->
  JoinedFilterFieldEnum.of_value name = None ->
  exists errs,
    MetricQuery.model_validate r = inl (ValidationError errs)
    /\ In ("order_by", "Input should be a member of JoinedFilterFieldEnum")
         errs.
Proof.
  intros Hgb Hfl Hin Hname.
  assert (Hob : parse_list JoinedFilterFieldEnum.of_value
                  (MetricQuery.raw_order_by r) = None)
    by (apply parse_list_None; now exists name).
  unfold MetricQuery.model_validate.
  rewrite Hfl, Hgb, Hob. cbn [bind].
  rewrite include_geometry_validator_cases.
  repeat match goal with
         | |- context [if ?b then _ else _] => destruct b
         end;
    cbn [run_field_validator raise ret outcome_value];
    (eexists; split; [reflexivity|]);
    cbn [field_errors outcome_errors app]; simpl; tauto.
Qed.

(** With an unknown name in [group_by], the validator of
    [include_geometry] looks [group_by] up in the validated data, where it
    is absent: the constructor leaves with [KeyError], whatever the other
    fields are, unless the validation of [filters] has left before. *)
Lemma MetricQuery_unknown_group_by_KeyError (r : MetricQuery.raw)
  (name : string) (fl : option (list JoinedFilter.t)) :
  MetricQuery.validate_filters (MetricQuery.raw_filters r) = inr fl ->
  In name (MetricQuery.raw_group_by r) ->
  JoinedFilterFieldEnum.of_value name = None ->
  MetricQuery.model_validate r = inl (KeyError "group_by").
Proof.
  intros Hfl Hin Hname.
  assert (Hgb : parse_list JoinedFilterFieldEnum.of_value
                  (MetricQuery.raw_group_by r) = None)
    by (apply parse_list_None; now exists name).
  unfold MetricQuery.model_validate.
  rewrite Hfl, Hgb. cbn [bind].
  unfold MetricQuery.include_geometry_must_group_by_primary_location_id,
    MetricQuery.data_getitem_group_by.
  cbn [MetricQuery.data_group_by MetricQuery.data_geometry_filepath].
  destruct (MetricQuery.raw_include_geometry r); reflexivity.
Qed.

(** C6. A request with a name outside [JoinedFilterFieldEnum] in
    [group_by] or [order_by] is never constructed, so no query text is built
    from it.  The exception that leaves the constructor is a
    [ValidationError] on [order_by] for an unknown name in [order_by] (with
    [group_by] well-formed), but [KeyError('group_by')], raised from the
    validator of [include_geometry], for an unknown name in [group_by]: not
    a validation error that names the unknown field. *)
Theorem MetricQuery_unknown_field_fails_before_compile :
  forall (r : MetricQuery.raw) (name : string),
    JoinedFilterFieldEnum.of_value name = None ->
    (In name (MetricQuery.raw_group_by r)
     \/ In name (MetricQuery.raw_order_by r) ->
     exists e, MetricQuery.model_validate r = inl e)
    /\ (forall fl,
          MetricQuery.validate_filters (MetricQuery.raw_filters r) = inr fl ->
          In name (MetricQuery.raw_group_by r) ->
          MetricQuery.model_validate r = inl (KeyError "group_by"))
    /\ (forall gb fl,
          parse_list JoinedFilterFieldEnum.of_value
            (MetricQuery.raw_group_by r) = Some gb ->
          MetricQuery.validate_filters (MetricQuery.raw_filters r) = inr fl ->
          In name (MetricQuery.raw_order_by r) ->
          exists errs,
            MetricQuery.model_validate r = inl (ValidationError errs)
            /\ In ("order_by",
                   "Input should be a member of JoinedFilterFieldEnum") errs).
Proof.
  intros r name Hname. split; [|split].
  - intro Hin. now apply (MetricQuery_unknown_field_not_constructed r name).
  - intros fl Hfl Hin.
    now apply (MetricQuery_unknown_group_by_KeyError r name fl).
  - intros gb fl Hgb Hfl Hin.
    now apply (MetricQuery_unknown_order_by_ValidationError r name gb fl).
Qed.

Lemma MetricQuery_unknown_field_fails_before_compile_witness :
  MetricQuery.model_validate
    (example_metric_request ["bogus"] ["primary_location_id"]
       (MetricQuery.RawMetricStr "all") None false)
  = inl (KeyError "group_by").
Proof.
  apply (proj1 (proj2 (MetricQuery_unknown_field_fails_before_compile
                         (example_metric_request ["bogus"]
                            ["primary_location_id"]
                            (MetricQuery.RawMetricStr "all") None false)
                         "bogus" Logic.eq_refl))
           (Some []) Logic.eq_refl).
  now left.
Defined.

(** ** The filter clause (C5) *)

(** The text [tests/test_metric_filter_formatting.py] expects, for two
    filters and for none. *)
Example test_multiple_filters :
  tqu.filters_to_sql example_filters
  = "WHERE secondary_location_id in ('123456','9876543') AND reference_time = '2023-01-01 00:00:00'".
Proof. reflexivity. Qed.

Example test_no_filters : tqu.filters_to_sql [] = "--no where clause".
Proof. reflexivity. Qed.

Lemma select_where_In {F R : Type} (holds : F -> R -> bool)
  (fs : list F) (rows : list R) (r : R) :
  In r (select_where holds (tqu.filters_to_where fs) rows) <->
  In r rows /\ forall f, In f fs -> holds f r = true.
Proof.
  unfold select_where. rewrite filter_In.
  destruct fs as [|f fs]; cbn [tqu.filters_to_where eval_where].
  - split; [intros [Hr _]; split; [assumption | intros ? []] | tauto].
  - rewrite forallb_forall. tauto.
Qed.

Lemma filter_true_id {A : Type} (l : list A) : filter (fun _ => true) l = l.
Proof. induction l as [|a l IH]; simpl; congruence. Qed.

(** C5. The filter clause of a request is [WHERE] followed by the
    conditions of its filters, in list order, joined by [AND], and a row
    passes the stage exactly when every condition holds on it; for an empty
    filter list the clause is an SQL line comment (no [WHERE]) and the stage
    returns the whole relation. *)
Theorem filters_conjoined_and_empty_is_unrestricted :
  forall (value : Type) (holds : JoinedFilter.t -> joined_row value -> bool)
         (mq : MetricQuery.t) (store : list (joined_row value)),
    (MetricQuery.filters mq <> [] ->
     tqu.filters_to_sql (MetricQuery.filters mq)
     = ("WHERE " ++ String.concat " AND "
                      (map tqu.format_filter_item (MetricQuery.filters mq)))%string)
    /\ metrics_joined holds mq store
       = filter (fun r => forallb (fun f => holds f r) (MetricQuery.filters mq))
           store
    /\ (forall r, In r (metrics_joined holds mq store) <->
                  In r store
                  /\ forall f, In f (MetricQuery.filters mq) ->
                               holds f r = true)
    /\ (MetricQuery.filters mq = [] ->
        tqu.filters_to_sql (MetricQuery.filters mq) = "--no where clause"
        /\ is_sql_line_comment (tqu.filters_to_sql (MetricQuery.filters mq))
           = true
        /\ metrics_joined holds mq store = store).
Proof.
  intros value holds mq store. unfold metrics_joined.
  split; [|split; [|split]].
  - destruct (MetricQuery.filters mq); [congruence | reflexivity].
  - unfold select_where.
    destruct (MetricQuery.filters mq); cbn [tqu.filters_to_where eval_where];
      reflexivity.
  - intro r. apply select_where_In.
  - intro Hnil. rewrite Hnil. split; [reflexivity|]. split; [reflexivity|].
    unfold select_where. cbn [tqu.filters_to_where eval_where].
    apply filter_true_id.
Qed.

(** ** [create_get_metrics_query] and the helpers it calls *)

(** The builder itself only reads the request: what it does to the shared
    state is what the helpers of [tqu] it calls do.  Their bodies are in
    [teehr/queries/utils.py]; the lemmas of this section hold for helpers
    that only read. *)

Section MetricsQueryPure.

Variable call_tqu : tqu.helper -> ref -> st string.
Variable tqu_text : tqu.helper -> MetricQuery.t -> string.

(** The helpers only read: each returns a text that depends on the value of
    the request alone and leaves the shared state as it found it. *)
Hypothesis call_tqu_reads :
  forall (h : tqu.helper) (mq : ref) (w : world),
    call_tqu h mq w = (tqu_text h (objects w mq), w).

Lemma eval_line_reads (mq : ref) (l : template_line) (w : world) :
  eval_line call_tqu mq l w = (line_text tqu_text (objects w mq) l, w).
Proof.
  destruct l as [text | indent e]; [reflexivity|].
  destruct e; unfold eval_line, eval_interpolation, st_bind, st_ret, getattr;
    try reflexivity.
  rewrite call_tqu_reads. reflexivity.
Qed.

Lemma eval_lines_read (mq : ref) (ls : list template_line) (w : world) :
  st_mapM (eval_line call_tqu mq) ls w
  = (map (line_text tqu_text (objects w mq)) ls, w).
Proof.
  induction ls as [|l ls IH]; [reflexivity|].
  cbn [st_mapM map]. unfold st_bind at 1. rewrite eval_line_reads.
  unfold st_bind at 1. rewrite IH. reflexivity.
Qed.

(** With helpers that only read, the builder returns the state it was given
    and the text [metrics_query_text] gives for the value of the request. *)
Lemma create_get_metrics_query_reads (mq : ref) (w : world) :
  create_get_metrics_query call_tqu mq w
  = (metrics_query_text tqu_text (objects w mq), w).
Proof.
  unfold create_get_metrics_query, st_bind. rewrite eval_lines_read.
  reflexivity.
Qed.

End MetricsQueryPure.

(** ** Lists: sorting, distinct values, groups *)

Section SortBy.

Context {A : Type} (leb : A -> A -> bool).

Lemma insert_by_perm (x : A) (l : list A) :
  Permutation (insert_by leb x l) (x :: l).
Proof.
  induction l as [|y l IH]; cbn [insert_by]; [reflexivity|].
  destruct (leb x y); [reflexivity|].
  rewrite IH. apply perm_swap.
Qed.

Lemma sort_by_perm (l : list A) : Permutation (sort_by leb l) l.
Proof.
  induction l as [|x l IH]; cbn [sort_by]; [reflexivity|].
  rewrite insert_by_perm. now constructor.
Qed.

Lemma sort_by_In (l : list A) (x : A) : In x (sort_by leb l) <-> In x l.
Proof.
  split; apply Permutation_in;
    [apply sort_by_perm | symmetry; apply sort_by_perm].
Qed.

Hypothesis leb_total : forall a b, leb a b = true \/ leb b a = true.

Lemma insert_by_sorted (x : A) (l : list A) :
  Sorted (fun a b => leb a b = true) l ->
  Sorted (fun a b => leb a b = true) (insert_by leb x l).
Proof.
  induction l as [|y l IH]; intro Hs; cbn [insert_by].
  - repeat constructor.
  - destruct (leb x y) eqn:Hxy.
    + constructor; [assumption | constructor; assumption].
    + inversion Hs as [|? ? Hs' Hhd]; subst.
      constructor; [apply IH; assumption|].
      assert (Hyx : leb y x = true)
        by (destruct (leb_total x y); congruence).
      destruct l as [|z l]; cbn [insert_by].
      * constructor; assumption.
      * destruct (leb x z); constructor; [assumption|].
        inversion Hhd; assumption.
Qed.

Lemma sort_by_sorted (l : list A) :
  Sorted (fun a b => leb a b = true) (sort_by leb l).
Proof.
  induction l as [|x l IH]; cbn [sort_by]; [constructor|].
  now apply insert_by_sorted.
Qed.

Hypothesis leb_trans :
  forall a b c, leb a b = true -> leb b c = true -> leb a c = true.

Lemma sort_by_strongly_sorted (l : list A) :
  StronglySorted (fun a b => leb a b = true) (sort_by leb l).
Proof.
  apply Sorted_StronglySorted; [|apply sort_by_sorted].
  intros a b c. apply leb_trans.
Qed.

End SortBy.

Section DistinctBy.

Context {A K : Type} (key : A -> K) (same : A -> A -> bool).

Hypothesis same_key : forall a b, same a b = true <-> key a = key b.

Lemma distinct_by_incl (l : list A) (x : A) :
  In x (distinct_by same l) -> In x l.
Proof.
  induction l as [|y l IH]; cbn [distinct_by]; [tauto|].
  intros [->|Hx]; [now left|].
  apply filter_In in Hx. right. tauto.
Qed.

Lemma distinct_by_keys (l : list A) (k : K) :
  In k (map key (distinct_by same l)) <-> In k (map key l).
Proof.
  induction l as [|y l IH]; cbn [distinct_by map]; [tauto|].
  split.
  - intros [Hk|Hk]; [now left|].
    right. apply IH. apply in_map_iff in Hk as [x [Hx Hin]].
    apply filter_In in Hin. apply in_map_iff. exists x. tauto.
  - intros [Hk|Hk]; [now left|].
    apply IH in Hk. apply in_map_iff in Hk as [x [Hx Hin]].
    destruct (same y x) eqn:Hs.
    + left. apply same_key in Hs. congruence.
    + right. apply in_map_iff. exists x. split; [assumption|].
      apply filter_In. now rewrite Hs.
Qed.

Lemma NoDup_map_filter (f : A -> bool) (l : list A) :
  NoDup (map key l) -> NoDup (map key (filter f l)).
Proof.
  induction l as [|y l IH]; cbn [map filter]; intro Hnd; [constructor|].
  inversion Hnd as [|? ? Hnot Hnd']; subst.
  destruct (f y); cbn [map]; [|now apply IH].
  constructor; [|now apply IH].
  intro Hin. apply Hnot. apply in_map_iff in Hin as [x [Hx Hin]].
  apply filter_In in Hin. apply in_map_iff. exists x. tauto.
Qed.

Lemma distinct_by_keys_NoDup (l : list A) :
  NoDup (map key (distinct_by same l)).
Proof.
  induction l as [|y l IH]; cbn [distinct_by map]; constructor.
  - intro Hin. apply in_map_iff in Hin as [x [Hx Hin]].
    apply filter_In in Hin as [_ Hs].
    assert (same y x = true) by (apply same_key; congruence).
    destruct (same y x); discriminate.
  - now apply NoDup_map_filter.
Qed.

End DistinctBy.

(** [DISTINCT] with an equality test that decides equality. *)
Lemma distinct_by_In {A : Type} (eqb : A -> A -> bool)
  (eqb_eq : forall a b, eqb a b = true <-> a = b) (l : list A) (x : A) :
  In x (distinct_by eqb l) <-> In x l.
Proof.
  pose proof (distinct_by_keys (fun a => a) eqb eqb_eq l x) as H.
  now rewrite !map_id in H.
Qed.

Lemma distinct_by_NoDup {A : Type} (eqb : A -> A -> bool)
  (eqb_eq : forall a b, eqb a b = true <-> a = b) (l : list A) :
  NoDup (distinct_by eqb l).
Proof.
  pose proof (distinct_by_keys_NoDup (fun a => a) eqb eqb_eq l) as H.
  now rewrite map_id in H.
Qed.

(** A duplicate-free list whose elements all equal [a] and that holds [a]
    is the singleton of [a]. *)
Lemma NoDup_all_equal_singleton {A : Type} (l : list A) (a : A) :
  NoDup l -> In a l -> (forall x, In x l -> x = a) -> l = [a].
Proof.
  intros Hnd Hin Hall. destruct l as [|x l]; [destruct Hin|].
  assert (x = a) by (apply Hall; now left). subst x.
  destruct l as [|y l]; [reflexivity|].
  assert (y = a) by (apply Hall; right; now left). subst y.
  inversion Hnd as [|? ? Hnot _]. exfalso. apply Hnot. now left.
Qed.

Lemma filter_map_comm {A B : Type} (f : A -> B) (p : B -> bool) (l : list A) :
  filter p (map f l) = map f (filter (fun a => p (f a)) l).
Proof.
  induction l as [|a l IH]; cbn [map filter]; [reflexivity|].
  destruct (p (f a)); cbn [map]; congruence.
Qed.

Lemma filter_perm {A : Type} (p : A -> bool) (l l' : list A) :
  Permutation l l' -> Permutation (filter p l) (filter p l').
Proof.
  induction 1 as [| x l l' _ IH | x y l | l l' l'' _ IH1 _ IH2];
    cbn [filter].
  - constructor.
  - destruct (p x); [now constructor | assumption].
  - destruct (p x), (p y); try reflexivity. apply perm_swap.
  - now transitivity (filter p l').
Qed.

Lemma indexed_snd {A : Type} (l : list A) : map snd (indexed l) = l.
Proof.
  unfold indexed. generalize 0%nat.
  induction l as [|a l IH]; intro n; cbn; [reflexivity|].
  now rewrite IH.
Qed.

Lemma indexed_fst {A : Type} (l : list A) :
  map fst (indexed l) = seq 0 (List.length l).
Proof.
  unfold indexed. generalize 0%nat.
  induction l as [|a l IH]; intro n; cbn; [reflexivity|].
  now rewrite IH.
Qed.

Lemma indexed_NoDup_fst {A : Type} (l : list A) :
  NoDup (map fst (indexed l)).
Proof. rewrite indexed_fst. apply seq_NoDup. Qed.

Lemma NoDup_map_inv' {A B : Type} (f : A -> B) (l : list A) :
  NoDup (map f l) -> NoDup l.
Proof.
  induction l as [|a l IH]; cbn [map]; intro H; [constructor|].
  inversion H as [|? ? Hnot Hnd]; subst.
  constructor; [|now apply IH].
  intro Hin. apply Hnot. now apply in_map.
Qed.

Lemma NoDup_map_fst_inj {A B : Type} (l : list (A * B)) (a b : A * B) :
  NoDup (map fst l) -> In a l -> In b l -> fst a = fst b -> a = b.
Proof.
  induction l as [|x l IH]; cbn [map]; intros Hnd Ha Hb Hab; [destruct Ha|].
  inversion Hnd as [|? ? Hnot Hnd']; subst.
  destruct Ha as [->|Ha], Hb as [->|Hb].
  - reflexivity.
  - exfalso. apply Hnot. rewrite Hab. now apply in_map.
  - exfalso. apply Hnot. rewrite <- Hab. now apply in_map.
  - now apply IH.
Qed.

Lemma all_some_map_Some {A B : Type} (f : A -> option B) (l : list A) :
  (forall a, In a l -> f a <> None) ->
  exists bs, all_some (map f l) = Some bs.
Proof.
  induction l as [|a l IH]; intro Hall; cbn [map all_some].
  - now exists [].
  - destruct (f a) as [b|] eqn:Ha.
    + destruct IH as [bs Hbs]; [intros; apply Hall; now right|].
      rewrite Hbs. now exists (b :: bs).
    + exfalso. apply (Hall a); [now left | assumption].
Qed.

(** [ORDER BY] over resolvable names returns a rearrangement of its
    input. *)
Lemma sql_order_by_perm {value F R : Type} `{ValueOps value}
  (resolve : F -> option (R -> cell value)) (fields : list F)
  (rows : list R) :
  fields <> [] ->
  (forall f, In f fields -> resolve f <> None) ->
  exists out, sql_order_by resolve fields rows = Some out
              /\ Permutation out rows.
Proof.
  intros Hne Hres. unfold sql_order_by.
  destruct fields as [|f fs]; [congruence|].
  destruct (all_some_map_Some resolve (f :: fs) Hres) as [keys Hkeys].
  rewrite Hkeys. eexists. split; [reflexivity|]. apply sort_by_perm.
Qed.

(** ** The join and deduplication stage (C1) *)

Section Dedup.

Context {value : Type} `{ValueOps value}.

Lemma key_eqb_eq (a b : Z * string * string * string * string * Z) :
  key_eqb a b = true <-> a = b.
Proof.
  destruct a as [[[[[vt pl] cf] vn] mu] rt].
  destruct b as [[[[[vt' pl'] cf'] vn'] mu'] rt'].
  unfold key_eqb.
  rewrite !andb_true_iff, !Z.eqb_eq, !String.eqb_eq. split.
  - intros [[[[[-> ->] ->] ->] ->] ->]. reflexivity.
  - intro E. inversion E. tauto.
Qed.

Lemma same_partition_key (a b : initial_joined_row value) :
  same_partition a b = true <-> partition_key a = partition_key b.
Proof. apply key_eqb_eq. Qed.

Lemma joined_key_project (r : initial_joined_row value) :
  joined_key (project_joined r) = partition_key r.
Proof. reflexivity. Qed.

Lemma sorts_before_spec (a b : nat * initial_joined_row value) :
  sorts_before a b = true <->
  (ij_primary_reference_time (snd b) < ij_primary_reference_time (snd a))%Z
  \/ (ij_primary_reference_time (snd a) = ij_primary_reference_time (snd b)
      /\ (fst a < fst b)%nat).
Proof.
  unfold sorts_before.
  rewrite orb_true_iff, andb_true_iff, Z.ltb_lt, Z.eqb_eq, Nat.ltb_lt.
  tauto.
Qed.

Lemma sorts_before_false (a b : nat * initial_joined_row value) :
  sorts_before a b = false <->
  (ij_primary_reference_time (snd a) < ij_primary_reference_time (snd b))%Z
  \/ (ij_primary_reference_time (snd a) = ij_primary_reference_time (snd b)
      /\ (fst b <= fst a)%nat).
Proof.
  rewrite <- not_true_iff_false, sorts_before_spec. lia.
Qed.

(** A non-empty list of tagged rows has a row that no other row sorts
    before. *)
Lemma exists_sorted_first (T : list (nat * initial_joined_row value)) :
  T <> [] ->
  exists a0, In a0 T /\ forall b, In b T -> sorts_before b a0 = false.
Proof.
  induction T as [|x T IH]; [congruence|]. intros _.
  destruct T as [|y T].
  - exists x. split; [now left|]. intros b [<-|[]].
    apply sorts_before_false. lia.
  - destruct IH as [m [Hm Hmin]]; [discriminate|].
    destruct (sorts_before x m) eqn:Hxm.
    + exists x. split; [now left|]. intros b [<-|Hb].
      * apply sorts_before_false. lia.
      * specialize (Hmin b Hb).
        apply sorts_before_spec in Hxm. apply sorts_before_false in Hmin.
        apply sorts_before_false. lia.
    + exists m. split; [now right|]. intros b [<-|Hb]; [assumption|].
      now apply Hmin.
Qed.

Lemma filter_length_0 {A : Type} (f : A -> bool) (l : list A) :
  Nat.eqb (List.length (filter f l)) 0 = true <->
  forall x, In x l -> f x = false.
Proof.
  rewrite Nat.eqb_eq. induction l as [|a l IH]; cbn [filter].
  - split; [intros _ ? [] | reflexivity].
  - destruct (f a) eqn:Ha; cbn [List.length].
    + split; [discriminate|]. intro Hall.
      specialize (Hall a (or_introl Logic.eq_refl)). congruence.
    + rewrite IH. split.
      * intros Hall x [<-|Hx]; [assumption | now apply Hall].
      * intros Hall x Hx. apply Hall. now right.
Qed.

Lemma filter_filter_andb {A : Type} (p q : A -> bool) (l : list A) :
  filter p (filter q l) = filter (fun x => p x && q x) l.
Proof.
  induction l as [|a l IH]; cbn [filter]; [reflexivity|].
  destruct (q a); cbn [filter]; rewrite ?andb_true_r, ?andb_false_r.
  - destruct (p a); congruence.
  - assumption.
Qed.

(** The rows of the [joined] stage are the rows no row of their partition
    sorts before. *)
Lemma joined_unfold (rows : list (initial_joined_row value)) :
  joined rows
  = map (fun a => project_joined (snd a))
      (filter (fun a =>
                 Nat.eqb
                   (List.length
                      (filter (fun b => same_partition (snd b) (snd a)
                                        && sorts_before b a)
                         (indexed rows))) 0)
         (indexed rows)).
Proof.
  unfold joined, row_number_over.
  rewrite filter_map_comm, map_map. reflexivity.
Qed.

(** Among tagged rows with distinct tags, the rows of partition [k] that
    come first in their partition are exactly one row, and no row of the
    partition has a later primary reference time. *)
Lemma first_of_partition (T : list (nat * initial_joined_row value))
  (k : Z * string * string * string * string * Z) :
  NoDup (map fst T) ->
  (exists a, In a T /\ partition_key (snd a) = k) ->
  exists a0,
    In a0 T /\ partition_key (snd a0) = k
    /\ (forall b, In b T -> partition_key (snd b) = k ->
          (ij_primary_reference_time (snd b)
           <= ij_primary_reference_time (snd a0))%Z)
    /\ filter (fun a =>
                 key_eqb (partition_key (snd a)) k
                 && Nat.eqb
                      (List.length
                         (filter (fun b => same_partition (snd b) (snd a)
                                           && sorts_before b a) T)) 0)
         T = [a0].
Proof.
  intros Hnd [a [Ha Hak]].
  set (inK := fun a : nat * initial_joined_row value =>
                key_eqb (partition_key (snd a)) k).
  assert (HinK : forall b, In b (filter inK T) <->
                           In b T /\ partition_key (snd b) = k).
  { intro b. rewrite filter_In. unfold inK. now rewrite key_eqb_eq. }
  destruct (exists_sorted_first (filter inK T)) as [a0 [Ha0 Hmin]].
  { intro Hnil. assert (Hin : In a (filter inK T)) by (apply HinK; tauto).
    rewrite Hnil in Hin. destruct Hin. }
  apply HinK in Ha0 as [Ha0 Ha0k].
  assert (Hfirst : forall b, In b T ->
            same_partition (snd b) (snd a0) && sorts_before b a0 = false).
  { intros b Hb. destruct (same_partition (snd b) (snd a0)) eqn:Hs;
      [|reflexivity].
    apply same_partition_key in Hs. cbn [andb]. apply Hmin. apply HinK.
    split; [assumption | congruence]. }
  exists a0. split; [assumption|]. split; [assumption|]. split.
  - intros b Hb Hbk.
    assert (Hsb : sorts_before b a0 = false) by (apply Hmin, HinK; tauto).
    apply sorts_before_false in Hsb. lia.
  - apply NoDup_all_equal_singleton.
    + apply NoDup_filter. now apply NoDup_map_inv' with (f := fst).
    + apply filter_In. split; [assumption|].
      apply andb_true_iff. split; [now apply key_eqb_eq|].
      now apply filter_length_0.
    + intros x Hx. apply filter_In in Hx as [Hx Hq].
      apply andb_true_iff in Hq as [Hxk Hxfirst].
      apply key_eqb_eq in Hxk.
      assert (H1 : sorts_before x a0 = false) by (apply Hmin, HinK; tauto).
      assert (H2 : sorts_before a0 x = false).
      { pose proof (proj1 (filter_length_0 _ _) Hxfirst a0 Ha0) as Hq.
        assert (Hs : same_partition (snd a0) (snd x) = true)
          by (apply same_partition_key; congruence).
        cbn beta in Hq. rewrite Hs in Hq. exact Hq. }
      apply sorts_before_false in H1, H2.
      apply (NoDup_map_fst_inj T); trivial. lia.
Qed.

End Dedup.

(** C1. For every build with [remove_duplicates = true] whose [order_by]
    the engine accepts (it is not empty and names columns of the stage), the
    statement inserts rows, each the projection of a row of the join, and
    for every key [(value_time,
    primary_location_id, configuration, variable_name, measurement_unit,
    reference_time)] present in the join the inserted rows with that key are
    exactly one row: the projection of a joined row of that key whose
    primary reference time is maximal in the partition. *)
Theorem join_and_save_keeps_latest_primary_reference_time :
  forall (value : Type) (ops : ValueOps value)
         (files : parquet_files value) (jtq : JoinedTimeseriesQuery.t),
    JoinedTimeseriesQuery.remove_duplicates jtq = Some true ->
    JoinedTimeseriesQuery.order_by jtq <> [] ->
    ~ In JoinedFilterFieldEnum.geometry (JoinedTimeseriesQuery.order_by jtq) ->
    exists inserted,
      join_and_save_timeseries files jtq = Some inserted
      /\ (forall o, In o inserted ->
            exists r, In r (initial_joined files jtq) /\ o = project_joined r)
      /\ forall k,
           (exists r, In r (initial_joined files jtq) /\ partition_key r = k) ->
           exists r,
             In r (initial_joined files jtq)
             /\ partition_key r = k
             /\ (forall r', In r' (initial_joined files jtq) ->
                            partition_key r' = k ->
                            (ij_primary_reference_time r'
                             <= ij_primary_reference_time r)%Z)
             /\ filter (fun o => key_eqb (joined_key o) k) inserted
                = [project_joined r].
Proof.
  intros value ops files jtq _ Hne Hgeo.
  unfold join_and_save_timeseries.
  destruct (sql_order_by_perm (value := value) resolve_joined_field
              (JoinedTimeseriesQuery.order_by jtq)
              (joined (initial_joined files jtq)) Hne)
    as [inserted [Hins Hperm]].
  { intros f Hf. unfold resolve_joined_field.
    destruct f; cbn; try discriminate. contradiction. }
  exists inserted. split; [assumption|].
  set (rows := initial_joined files jtq) in *.
  assert (Hrows : forall a, In a (indexed rows) -> In (snd a) rows).
  { intros a Ha. apply (in_map snd) in Ha. now rewrite indexed_snd in Ha. }
  split.
  { intros o Ho. apply (Permutation_in _ Hperm) in Ho.
    rewrite joined_unfold in Ho. apply in_map_iff in Ho as [a [Ha Hin]].
    apply filter_In in Hin as [Hin _]. exists (snd a).
    split; [now apply Hrows | congruence]. }
  intros k [r [Hr Hrk]].
  destruct (first_of_partition (indexed rows) k) as [a0 [Ha0 [Hk [Hmax Hfil]]]].
  { apply indexed_NoDup_fst. }
  { rewrite <- (indexed_snd rows) in Hr.
    apply in_map_iff in Hr as [a [Ha Hin]]. exists a. split; congruence. }
  exists (snd a0).
  split; [now apply Hrows|]. split; [assumption|]. split.
  - intros r' Hr' Hk'. rewrite <- (indexed_snd rows) in Hr'.
    apply in_map_iff in Hr' as [a [Ha Hin]]. subst r'. now apply Hmax.
  - apply Permutation_length_1_inv. symmetry.
    rewrite (filter_perm _ _ _ Hperm).
    rewrite joined_unfold, filter_map_comm, filter_filter_andb.
    cbn beta. 
    erewrite filter_ext; [rewrite Hfil; reflexivity|].
    intro a. cbn beta. now rewrite joined_key_project.
Qed.

(** ** Order of cells *)

Lemma ascii_compare_Lt (a b : ascii) :
  Ascii.compare a b = Lt <-> (N_of_ascii a < N_of_ascii b)%N.
Proof. unfold Ascii.compare. apply N.compare_lt_iff. Qed.

Lemma ascii_compare_Gt (a b : ascii) :
  Ascii.compare a b = Gt <-> (N_of_ascii b < N_of_ascii a)%N.
Proof. unfold Ascii.compare. apply N.compare_gt_iff. Qed.

Lemma ascii_compare_Eq (a b : ascii) :
  Ascii.compare a b = Eq <-> N_of_ascii a = N_of_ascii b.
Proof. unfold Ascii.compare. apply N.compare_eq_iff. Qed.

Lemma string_compare_not_Gt_trans (a b c : string) :
  String.compare a b <> Gt -> String.compare b c <> Gt ->
  String.compare a c <> Gt.
Proof.
  revert b c. induction a as [|x a IH]; intros [|y b] [|z c]; cbn;
    try congruence.
  destruct (Ascii.compare x y) eqn:Hxy; try congruence;
    destruct (Ascii.compare y z) eqn:Hyz; try congruence;
    destruct (Ascii.compare x z) eqn:Hxz; try congruence;
    rewrite ?ascii_compare_Lt, ?ascii_compare_Gt, ?ascii_compare_Eq in *;
    try lia.
  apply IH.
Qed.

Lemma string_leb_trans (a b c : string) :
  String.leb a b = true -> String.leb b c = true -> String.leb a c = true.
Proof.
  unfold String.leb. intros Hab Hbc.
  pose proof (string_compare_not_Gt_trans a b c) as Ht.
  destruct (String.compare a b), (String.compare b c),
    (String.compare a c); try reflexivity; try discriminate;
    exfalso; apply Ht; congruence.
Qed.

Section CellOrder.

Context {value : Type} `{ValueLaws value}.

Lemma cell_eqb_eq (a b : cell value) : cell_eqb a b = true <-> a = b.
Proof.
  destruct a, b; cbn [cell_eqb];
    rewrite ?String.eqb_eq, ?Z.eqb_eq, ?value_eqb_eq;
    split; intro E; try discriminate; try congruence.
Qed.

Lemma cell_leb_total (a b : cell value) :
  cell_leb a b = true \/ cell_leb b a = true.
Proof.
  destruct a, b; cbn [cell_leb cell_rank Nat.leb]; auto.
  - apply String.leb_total.
  - rewrite !Z.leb_le. lia.
  - rewrite !Z.leb_le. lia.
  - apply value_leb_total.
Qed.

Lemma cell_leb_trans (a b c : cell value) :
  cell_leb a b = true -> cell_leb b c = true -> cell_leb a c = true.
Proof.
  destruct a, b, c; cbn [cell_leb cell_rank Nat.leb];
    try discriminate; try reflexivity.
  - apply string_leb_trans.
  - rewrite !Z.leb_le. lia.
  - rewrite !Z.leb_le. lia.
  - apply value_leb_trans.
Qed.

End CellOrder.

(** ** The unique values of a field (C8) *)

(** C8. For every column of the joined store, the rows the unique-value
    query returns are exactly the values the column takes in the store,
    each once, in ascending order. *)
Theorem unique_field_values_distinct_sorted :
  forall (value : Type) (ops : ValueOps value),
    ValueLaws value ->
    forall (fn : joined_timeseries_column)
           (joined_timeseries : list (joined_row value)),
      (forall c,
         In c (unique_field_values fn joined_timeseries) <->
         exists r, In r joined_timeseries /\ column_cell fn r = c)
      /\ NoDup (unique_field_values fn joined_timeseries)
      /\ StronglySorted (fun a b => cell_leb a b = true)
           (unique_field_values fn joined_timeseries).
Proof.
  intros value ops laws fn store. unfold unique_field_values.
  split; [|split].
  - intro c. rewrite sort_by_In, (distinct_by_In _ cell_eqb_eq), in_map_iff.
    split; intros [r Hr]; exists r; tauto.
  - apply (Permutation_NoDup (l := distinct_by cell_eqb
                                     (map (column_cell fn) store))).
    + symmetry. apply sort_by_perm.
    + apply distinct_by_NoDup, cell_eqb_eq.
  - apply sort_by_strongly_sorted.
    + apply cell_leb_total.
    + apply cell_leb_trans.
Qed.

(** ** The count of duplicate rows (C9) *)

Section DuplicateRows.

Context {value : Type} `{ValueLaws value}.

Lemma same_row_eq (a b : timeseries_row value) :
  same_row a b = true <-> a = b.
Proof.
  destruct a, b. unfold same_row. cbn.
  rewrite !andb_true_iff, !Z.eqb_eq, !String.eqb_eq, value_eqb_eq. split.
  - intros [[[[[[-> ->] ->] ->] ->] ->] ->]. reflexivity.
  - intro E. inversion E. tauto.
Qed.

End DuplicateRows.

Lemma filter_nonempty_In {A : Type} (eqb : A -> A -> bool)
  (eqb_eq : forall a b, eqb a b = true <-> a = b) (v : A) (l : list A) :
  (0 < List.length (filter (eqb v) l))%nat <-> In v l.
Proof.
  induction l as [|a l IH]; cbn [filter List.length In]; [lia|].
  destruct (eqb v a) eqn:E; cbn [List.length].
  - apply eqb_eq in E. subst. split; [now left | lia].
  - rewrite IH. split; [now right|]. intros [->|Hin]; [|assumption].
    assert (eqb v v = true) by now apply eqb_eq. congruence.
Qed.

(** The group of [v] has more than one row exactly when [v] stands at two
    positions of the list. *)
Lemma filter_two_occurrences {A : Type} (eqb : A -> A -> bool)
  (eqb_eq : forall a b, eqb a b = true <-> a = b) (v : A) (l : list A) :
  (1 < List.length (filter (eqb v) l))%nat <->
  exists i j, i <> j /\ nth_error l i = Some v /\ nth_error l j = Some v.
Proof.
  induction l as [|a l IH].
  - cbn. split; [lia|]. intros [i [j [_ [Hi _]]]]. destruct i; discriminate.
  - cbn [filter]. destruct (eqb v a) eqn:E; cbn [List.length].
    + apply eqb_eq in E. subst a.
      rewrite <- Nat.succ_lt_mono, (filter_nonempty_In eqb eqb_eq). split.
      * intro Hin. apply In_nth_error in Hin as [j Hj].
        exists 0%nat, (S j). repeat split; [discriminate | assumption].
      * intros [i [j [Hij [Hi Hj]]]].
        destruct i as [|i]; [destruct j as [|j]; [congruence|]|];
          eapply nth_error_In; eassumption.
    + rewrite IH. split.
      * intros [i [j [Hij [Hi Hj]]]]. exists (S i), (S j).
        repeat split; [congruence | assumption | assumption].
      * intros [i [j [Hij [Hi Hj]]]].
        assert (Hva : eqb v a = true -> False) by congruence.
        destruct i as [|i];
          [exfalso; apply Hva, eqb_eq; cbn in Hi; congruence|].
        destruct j as [|j];
          [exfalso; apply Hva, eqb_eq; cbn in Hj; congruence|].
        exists i, j. repeat split; [congruence | assumption | assumption].
Qed.

(** C9, as the specification states it, fails: on a store of three copies
    of one row the report says 1, while three rows are identical to another
    row and two rows are surplus copies. *)
Lemma num_duplicate_rows_counterexample :
  num_duplicate_rows (describe_timeseries example_duplicated_store "obs.parquet")
  = 1%nat
  /\ count_exact_duplicate_rows
       (read_parquet example_duplicated_store "obs.parquet") = 3%nat
  /\ count_surplus_rows
       (read_parquet example_duplicated_store "obs.parquet") = 2%nat
  /\ num_duplicate_rows
       (describe_timeseries example_duplicated_store "obs.parquet")
     <> count_exact_duplicate_rows
          (read_parquet example_duplicated_store "obs.parquet").
Proof. vm_compute. repeat split. discriminate. Qed.

(** C9, amended. The "Number of duplicate rows" of the report is the number
    of distinct rows (on all seven columns) that stand at two or more
    positions of the store. *)
Theorem num_duplicate_rows_counts_duplicated_values :
  forall (value : Type) (ops : ValueOps value),
    ValueLaws value ->
    forall (files : parquet_files value) (timeseries_filepath : string),
    exists dups : list (timeseries_row value),
      NoDup dups
      /\ (forall v,
            In v dups <->
            exists i j,
              i <> j
              /\ nth_error (read_parquet files timeseries_filepath) i = Some v
              /\ nth_error (read_parquet files timeseries_filepath) j = Some v)
      /\ num_duplicate_rows (describe_timeseries files timeseries_filepath)
         = List.length dups.
Proof.
  intros value ops laws files path.
  set (rows := read_parquet files path).
  exists (filter (fun rep => Nat.ltb 1 (List.length (filter (same_row rep) rows)))
            (distinct_by same_row rows)).
  split; [|split].
  - apply NoDup_filter, distinct_by_NoDup, same_row_eq.
  - intro v. rewrite filter_In, Nat.ltb_lt,
      (distinct_by_In _ same_row_eq),
      (filter_two_occurrences same_row same_row_eq).
    split; [tauto|]. intro Hocc. split; [|assumption].
    destruct Hocc as [i [_ [_ [Hi _]]]]. eapply nth_error_In; eassumption.
  - cbn [describe_timeseries num_duplicate_rows]. fold rows.
    unfold group_by. rewrite filter_map_comm, length_map. reflexivity.
Qed.

(** ** The timeseries query (C10) *)

Section GetTimeseries.

Context {value : Type} `{ValueOps value}.

Lemma same_primary_series_key_eq (a b : joined_row value) :
  same_primary_series_key a b = true <->
  primary_series_key a = primary_series_key b.
Proof.
  unfold same_primary_series_key, primary_series_key.
  rewrite !andb_true_iff, !Z.eqb_eq, !String.eqb_eq. split.
  - intros [[[-> ->] ->] ->]. reflexivity.
  - intro E. inversion E. tauto.
Qed.

Lemma primary_series_row_key (g : joined_row value * list (joined_row value)) :
  timeseries_row_key (primary_series_row g) = primary_series_key (fst g).
Proof. reflexivity. Qed.

(** The keys of the rows of the primary branch, before ordering. *)
Lemma primary_rows_keys (sf : list (joined_row value)) :
  map timeseries_row_key
    (map primary_series_row (group_by same_primary_series_key sf))
  = map primary_series_key (distinct_by same_primary_series_key sf).
Proof. unfold group_by. rewrite !map_map. reflexivity. Qed.

(** [ANY_VALUE] over a group yields the value of a row of the store that
    has the key of the group. *)
Lemma any_value_from_group {B : Type} (col : joined_row value -> B)
  (sf : list (joined_row value)) (rep : joined_row value) :
  In rep sf ->
  exists r, In r sf
            /\ primary_series_key r = primary_series_key rep
            /\ any_value col (rep, filter (same_primary_series_key rep) sf)
               = col r.
Proof.
  intro Hrep. unfold any_value. cbn [fst snd].
  destruct (filter (same_primary_series_key rep) sf) as [|r rest] eqn:Hf.
  - exists rep. cbn. tauto.
  - assert (Hin : In r (filter (same_primary_series_key rep) sf))
      by (rewrite Hf; now left).
    apply filter_In in Hin as [Hin Hs].
    apply same_primary_series_key_eq in Hs.
    exists r. cbn. split; [assumption|]. split; congruence.
Qed.

End GetTimeseries.

(** C10. When the engine accepts its [order_by], the query for the primary
    series returns one row for every key [(value_time, primary_location_id,
    measurement_unit, variable_name)] of the filtered store and no other
    row; the reference time and the value of a row are those of rows of the
    store with its key; the configuration of every row is the text
    [primary].  The query for another series returns the filtered rows of
    the store, one for one and with their stored configuration, in some
    order. *)
Theorem get_timeseries_primary_collapses_secondary_does_not :
  forall (value : Type) (ops : ValueOps value)
         (holds : TimeseriesFilter.t -> joined_row value -> bool)
         (tq : TimeseriesQuery.t) (joined_timeseries : list (joined_row value)),
    let sf := select_where holds
                (tqu.filters_to_where (TimeseriesQuery.filters tq))
                joined_timeseries in
    TimeseriesQuery.order_by tq <> [] ->
    (TimeseriesQuery.timeseries_name tq = "primary" ->
     (forall f, In f (TimeseriesQuery.order_by tq) ->
                resolve_primary_order (value := value) f <> None) ->
     exists out,
       get_timeseries holds tq joined_timeseries = Some out
       /\ NoDup (map timeseries_row_key out)
       /\ (forall k, In k (map timeseries_row_key out) <->
                     In k (map primary_series_key sf))
       /\ (forall o, In o out ->
             ts_configuration o = "primary"
             /\ (exists r, In r sf
                           /\ primary_series_key r = timeseries_row_key o
                           /\ ts_reference_time o = reference_time r)
             /\ (exists r, In r sf
                           /\ primary_series_key r = timeseries_row_key o
                           /\ ts_value o = primary_value r)))
    /\ (TimeseriesQuery.timeseries_name tq <> "primary" ->
        (forall f, In f (TimeseriesQuery.order_by tq) ->
                   resolve_secondary_order (value := value) f <> None) ->
        exists out,
          get_timeseries holds tq joined_timeseries = Some out
          /\ Permutation out (map secondary_series_row sf)
          /\ List.length out = List.length sf
          /\ Permutation (map ts_configuration out) (map configuration sf)).
Proof.
  intros value ops holds tq store sf Hne. split.
  - intros Hname Hres. unfold get_timeseries. fold sf.
    rewrite Hname, String.eqb_refl.
    destruct (sql_order_by_perm resolve_primary_order
                (TimeseriesQuery.order_by tq)
                (map primary_series_row
                   (group_by same_primary_series_key sf)) Hne Hres)
      as [out [Hout Hperm]].
    exists out. split; [assumption|].
    assert (Hkeys : Permutation (map timeseries_row_key out)
                      (map primary_series_key
                         (distinct_by same_primary_series_key sf))).
    { rewrite <- primary_rows_keys. now apply Permutation_map. }
    split; [|split].
    + apply (Permutation_NoDup (Permutation_sym Hkeys)).
      apply distinct_by_keys_NoDup, same_primary_series_key_eq.
    + intro k.
      rewrite <- (distinct_by_keys primary_series_key
                    same_primary_series_key same_primary_series_key_eq).
      split; apply Permutation_in;
        [assumption | now apply Permutation_sym].
    + intros o Ho. apply (Permutation_in _ Hperm) in Ho.
      apply in_map_iff in Ho as [g [Hg Hin]]. unfold group_by in Hin.
      apply in_map_iff in Hin as [rep [Hrep Hin]]. subst g o.
      apply distinct_by_incl in Hin.
      split; [reflexivity|]. split.
      * destruct (any_value_from_group reference_time sf rep Hin)
          as [r [Hr [Hk Hv]]].
        exists r. rewrite primary_series_row_key. cbn [fst].
        split; [assumption|]. split; [assumption|]. exact Hv.
      * destruct (any_value_from_group primary_value sf rep Hin)
          as [r [Hr [Hk Hv]]].
        exists r. rewrite primary_series_row_key. cbn [fst].
        split; [assumption|]. split; [assumption|]. exact Hv.
  - intros Hname Hres. unfold get_timeseries. fold sf.
    apply String.eqb_neq in Hname. rewrite Hname.
    destruct (sql_order_by_perm resolve_secondary_order
                (TimeseriesQuery.order_by tq) sf Hne Hres)
      as [out [Hout Hperm]].
    rewrite Hout. cbn [option_map].
    exists (map secondary_series_row out). split; [reflexivity|].
    split; [now apply Permutation_map|]. split.
    + rewrite length_map. now apply Permutation_length.
    + rewrite map_map. cbn [secondary_series_row ts_configuration].
      now apply Permutation_map.
Qed.

(** ** The properties at the example inputs *)

#[export] Instance Z_ValueLaws : ValueLaws Z.
Proof.
  constructor; cbn.
  - apply Z.eqb_eq.
  - intros a b. rewrite !Z.leb_le. lia.
  - intros a b c. rewrite !Z.leb_le. lia.
Qed.

Example example_join_and_save :
  join_and_save_timeseries example_files example_joined_query
  = Some [ {| reference_time := 0%Z; value_time := 3600%Z;
              secondary_location_id := "fcst-A"; secondary_value := 11%Z;
              configuration := "short_range"; measurement_unit := "m3/s";
              variable_name := "streamflow"; primary_value := 12%Z;
              primary_location_id := "gage-A"; lead_time := 3600%Z;
              absolute_difference := 1%Z |} ].
Proof. reflexivity. Qed.

(** Forecasts that differ in their own reference time have different keys:
    all of them are inserted. *)
Example example_forecast_members_all_inserted :
  option_map (map reference_time)
    (join_and_save_timeseries example_three_member_files example_joined_query)
  = Some [0%Z; 1200%Z; 2400%Z].
Proof. reflexivity. Qed.

Example example_get_timeseries_primary :
  get_timeseries (fun _ _ => true) (example_timeseries_query "primary")
    example_joined_store
  = Some [ {| ts_value := 12%Z; ts_reference_time := 0%Z;
              ts_location_id := "gage-A"; ts_value_time := 3600%Z;
              ts_configuration := "primary";
              ts_variable_name := "streamflow";
              ts_measurement_unit := "m3/s" |} ].
Proof. reflexivity. Qed.

Example example_unique_lead_times :
  unique_field_values col_lead_time example_joined_store
  = [CInterval 1800%Z; CInterval 3600%Z].
Proof. reflexivity. Qed.

Lemma join_and_save_keeps_latest_primary_reference_time_witness :
  exists inserted,
    join_and_save_timeseries example_files example_joined_query
    = Some inserted
    /\ (forall o, In o inserted ->
          exists r, In r (initial_joined example_files example_joined_query)
                    /\ o = project_joined r)
    /\ forall k,
         (exists r, In r (initial_joined example_files example_joined_query)
                    /\ partition_key r = k) ->
         exists r,
           In r (initial_joined example_files example_joined_query)
           /\ partition_key r = k
           /\ (forall r',
                 In r' (initial_joined example_files example_joined_query) ->
                 partition_key r' = k ->
                 (ij_primary_reference_time r'
                  <= ij_primary_reference_time r)%Z)
           /\ filter (fun o => key_eqb (joined_key o) k) inserted
              = [project_joined r].
Proof.
  apply (join_and_save_keeps_latest_primary_reference_time Z Z_ValueOps
           example_files example_joined_query).
  - reflexivity.
  - discriminate.
  - simpl. intros [H|[]]. discriminate H.
Defined.

Lemma filters_conjoined_and_empty_is_unrestricted_witness :
  tqu.filters_to_sql example_filters
  = ("WHERE " ++ String.concat " AND "
                   (map tqu.format_filter_item example_filters))%string
  /\ metrics_joined (fun _ _ => true) (example_metric_query [])
       example_joined_store
     = example_joined_store.
Proof.
  split.
  - apply (proj1 (filters_conjoined_and_empty_is_unrestricted Z
                    (fun _ _ => true) (example_metric_query example_filters)
                    example_joined_store)).
    discriminate.
  - apply (proj2 (proj2 (proj2
             (filters_conjoined_and_empty_is_unrestricted Z
                (fun _ _ => true) (example_metric_query [])
                example_joined_store)))).
    reflexivity.
Defined.

Lemma unique_field_values_distinct_sorted_witness :
  (forall c,
     In c (unique_field_values col_primary_location_id example_joined_store)
     <-> exists r, In r example_joined_store
                   /\ column_cell col_primary_location_id r = c)
  /\ NoDup (unique_field_values col_primary_location_id example_joined_store)
  /\ StronglySorted (fun a b => cell_leb a b = true)
       (unique_field_values col_primary_location_id example_joined_store).
Proof.
  apply (unique_field_values_distinct_sorted Z Z_ValueOps Z_ValueLaws
           col_primary_location_id example_joined_store).
Defined.

Lemma num_duplicate_rows_counts_duplicated_values_witness :
  exists dups : list (timeseries_row Z),
    NoDup dups
    /\ (forall v,
          In v dups <->
          exists i j,
            i <> j
            /\ nth_error (read_parquet example_duplicated_store "obs.parquet") i
               = Some v
            /\ nth_error (read_parquet example_duplicated_store "obs.parquet") j
               = Some v)
    /\ num_duplicate_rows
         (describe_timeseries example_duplicated_store "obs.parquet")
       = List.length dups.
Proof.
  apply (num_duplicate_rows_counts_duplicated_values Z Z_ValueOps Z_ValueLaws
           example_duplicated_store "obs.parquet").
Defined.

Lemma get_timeseries_primary_collapses_secondary_does_not_witness :
  (exists out,
     get_timeseries (fun _ _ => true) (example_timeseries_query "primary")
       example_joined_store = Some out
     /\ NoDup (map timeseries_row_key out)
     /\ (forall k, In k (map timeseries_row_key out) <->
                   In k (map primary_series_key example_joined_store))
     /\ (forall o, In o out ->
           ts_configuration o = "primary"
           /\ (exists r, In r example_joined_store
                         /\ primary_series_key r = timeseries_row_key o
                         /\ ts_reference_time o = reference_time r)
           /\ (exists r, In r example_joined_store
                         /\ primary_series_key r = timeseries_row_key o
                         /\ ts_value o = primary_value r)))
  /\ (exists out,
        get_timeseries (fun _ _ => true)
          (example_timeseries_query "secondary") example_joined_store
        = Some out
        /\ Permutation out (map secondary_series_row example_joined_store)
        /\ List.length out = List.length example_joined_store
        /\ Permutation (map ts_configuration out)
             (map configuration example_joined_store)).
Proof.
  split.
  - apply (proj1 (get_timeseries_primary_collapses_secondary_does_not Z
                    Z_ValueOps (fun _ _ => true)
                    (example_timeseries_query "primary")
                    example_joined_store ltac:(discriminate))).
    + reflexivity.
    + simpl. intros f [<-|[]]. discriminate.
  - apply (proj2 (get_timeseries_primary_collapses_secondary_does_not Z
                    Z_ValueOps (fun _ _ => true)
                    (example_timeseries_query "secondary")
                    example_joined_store ltac:(discriminate))).
    + discriminate.
    + simpl. intros f [<-|[]]. discriminate.
Defined.

(* ================================================================== *)
(** * Part III. Further properties of the models and the builders      *)
(* ================================================================== *)

(** ** Enumerations: values and members *)

(** X1. In each of the four enumerations, a string is parsed to a member
    exactly when it is the value of that member: no string names two
    members and every member is reached by its value. *)
Theorem enum_of_value_iff_value :
  (forall s o, FilterOperatorEnum.of_value s = Some o
               <-> FilterOperatorEnum.value o = s)
  /\ (forall s m, MetricEnum.of_value s = Some m <-> MetricEnum.value m = s)
  /\ (forall s f, JoinedFilterFieldEnum.of_value s = Some f
                  <-> JoinedFilterFieldEnum.value f = s)
  /\ (forall s f, TimeseriesFilterFieldEnum.of_value s = Some f
                  <-> TimeseriesFilterFieldEnum.to_value f = s).
Proof.
  repeat split.
  - intro E. apply find_some in E as [_ E]. now apply String.eqb_eq in E.
  - intros <-. apply FilterOperatorEnum_of_value_value.
  - intro E. apply find_some in E as [_ E]. now apply String.eqb_eq in E.
  - intros <-. apply MetricEnum_of_value_value.
  - intro E. apply find_some in E as [_ E]. now apply String.eqb_eq in E.
  - intros <-. apply JoinedFilterFieldEnum_of_value_value.
  - intro E. apply find_some in E as [_ E]. now apply String.eqb_eq in E.
  - intros <-. apply TimeseriesFilterFieldEnum_of_value_value.
Qed.

(** ** Filters: when a filter is constructed *)

Lemma in_operator_validator_cases (op : FilterOperatorEnum.t)
  (c : option JoinedFilterFieldEnum.t) (v : filter_value) :
  JoinedFilter.in_operator_must_have_iterable v
    (JoinedFilter.mk_data c (Some op))
  = match v, op with
    | VList _, FilterOperatorEnum.isin => ret v
    | VList _, _ =>
        raise (ValueError "iterable value must be used with 'in' operator")
    | VScalar _, FilterOperatorEnum.isin =>
        raise (ValueError "'in' operator can only be used with iterable value")
    | VScalar _, _ => ret v
    end.
Proof. destruct v as [[]|]; destruct op; reflexivity. Qed.

Lemma timeseries_in_operator_validator_cases (op : FilterOperatorEnum.t)
  (c : option TimeseriesFilterFieldEnum.t) (v : filter_value) :
  TimeseriesFilter.in_operator_must_have_iterable v
    (TimeseriesFilter.mk_data c (Some op))
  = match v, op with
    | VList _, FilterOperatorEnum.isin => ret v
    | VList _, _ =>
        raise (ValueError "iterable value must be used with 'in' operator")
    | VScalar _, FilterOperatorEnum.isin =>
        raise (ValueError "'in' operator can only be used with iterable value")
    | VScalar _, _ => ret v
    end.
Proof. destruct v as [[]|]; destruct op; reflexivity. Qed.

(** X2. A [JoinedFilter] (a [TimeseriesFilter]) is constructed exactly when
    its column and its operator are values of their enumerations and the
    operator is [in] if and only if the value is a list; the filter then
    holds the parsed column and operator and the value as given. *)
Theorem filter_constructed_iff :
  (forall (r : JoinedFilter.raw) (f : JoinedFilter.t),
     JoinedFilter.model_validate r = inr f <->
     JoinedFilterFieldEnum.of_value (JoinedFilter.raw_column r)
     = Some (JoinedFilter.column f)
     /\ FilterOperatorEnum.of_value (JoinedFilter.raw_operator r)
        = Some (JoinedFilter.operator f)
     /\ JoinedFilter.value f = JoinedFilter.raw_value r
     /\ (JoinedFilter.operator f = FilterOperatorEnum.isin <->
         exists items, JoinedFilter.raw_value r = VList items))
  /\ (forall (r : TimeseriesFilter.raw) (f : TimeseriesFilter.t),
        TimeseriesFilter.model_validate r = inr f <->
        TimeseriesFilterFieldEnum.of_value (TimeseriesFilter.raw_column r)
        = Some (TimeseriesFilter.column f)
        /\ FilterOperatorEnum.of_value (TimeseriesFilter.raw_operator r)
           = Some (TimeseriesFilter.operator f)
        /\ TimeseriesFilter.value f = TimeseriesFilter.raw_value r
        /\ (TimeseriesFilter.operator f = FilterOperatorEnum.isin <->
            exists items, TimeseriesFilter.raw_value r = VList items)).
Proof.
  split.
  - intros [c o v] [fc fo fv].
    unfold JoinedFilter.model_validate.
    cbn [JoinedFilter.raw_column JoinedFilter.raw_operator
         JoinedFilter.raw_value JoinedFilter.column JoinedFilter.operator
         JoinedFilter.value].
    destruct (FilterOperatorEnum.of_value o) as [op|].
    + rewrite in_operator_validator_cases.
      destruct (JoinedFilterFieldEnum.of_value c) as [jc|];
        destruct v as [s|items]; destruct op;
        cbn [run_field_validator raise ret outcome_value];
        (split;
         [ intro E; try discriminate E; inversion E; subst;
           repeat split; try reflexivity; try discriminate;
           try (intros [? ?]; discriminate); try (intros _; eauto)
         | intros (E1 & E2 & E3 & E4); try discriminate E1;
           inversion E1; inversion E2; subst;
           try reflexivity;
           try (exfalso; destruct E4 as [E4 _];
                destruct (E4 Logic.eq_refl); discriminate);
           try (exfalso; destruct E4 as [_ E4];
                assert (H : exists x, VList items = VList x) by eauto;
                specialize (E4 H); discriminate) ]).
    + unfold JoinedFilter.in_operator_must_have_iterable,
        JoinedFilter.data_getitem_operator.
      cbn [JoinedFilter.data_operator].
      destruct (JoinedFilter.is_iterable_not_str v);
        cbn [bind raise ret run_field_validator];
        (split; [discriminate | intros (_ & E & _); discriminate E]).
  - intros [c o v] [fc fo fv].
    unfold TimeseriesFilter.model_validate.
    cbn [TimeseriesFilter.raw_column TimeseriesFilter.raw_operator
         TimeseriesFilter.raw_value TimeseriesFilter.column
         TimeseriesFilter.operator TimeseriesFilter.value].
    destruct (FilterOperatorEnum.of_value o) as [op|].
    + rewrite timeseries_in_operator_validator_cases.
      destruct (TimeseriesFilterFieldEnum.of_value c) as [jc|];
        destruct v as [s|items]; destruct op;
        cbn [run_field_validator raise ret outcome_value];
        (split;
         [ intro E; try discriminate E; inversion E; subst;
           repeat split; try reflexivity; try discriminate;
           try (intros [? ?]; discriminate); try (intros _; eauto)
         | intros (E1 & E2 & E3 & E4); try discriminate E1;
           inversion E1; inversion E2; subst;
           try reflexivity;
           try (exfalso; destruct E4 as [E4 _];
                destruct (E4 Logic.eq_refl); discriminate);
           try (exfalso; destruct E4 as [_ E4];
                assert (H : exists x, VList items = VList x) by eauto;
                specialize (E4 H); discriminate) ]).
    + unfold TimeseriesFilter.in_operator_must_have_iterable,
        TimeseriesFilter.data_getitem_operator.
      cbn [TimeseriesFilter.data_operator].
      destruct (TimeseriesFilter.is_iterable_not_str v);
        cbn [bind raise ret run_field_validator];
        (split; [discriminate | intros (_ & E & _); discriminate E]).
Qed.

(** ** Filters: an operator outside the enumeration *)

Lemma JoinedFilter_unknown_operator (r : JoinedFilter.raw) :
  FilterOperatorEnum.of_value (JoinedFilter.raw_operator r) = None ->
  JoinedFilter.model_validate r = inl (KeyError "operator").
Proof.
  intro Hop. unfold JoinedFilter.model_validate. rewrite Hop.
  unfold JoinedFilter.in_operator_must_have_iterable,
    JoinedFilter.data_getitem_operator.
  cbn [JoinedFilter.data_operator].
  destruct (JoinedFilter.is_iterable_not_str (JoinedFilter.raw_value r));
    reflexivity.
Qed.

(** The exceptions that leave the constructor of a [JoinedFilter]. *)
Lemma JoinedFilter_exceptions (r : JoinedFilter.raw) (e : exn) :
  JoinedFilter.model_validate r = inl e ->
  e = KeyError "operator" \/ exists errs, e = ValidationError errs.
Proof.
  destruct (FilterOperatorEnum.of_value (JoinedFilter.raw_operator r))
    as [op|] eqn:Hop.
  - unfold JoinedFilter.model_validate. rewrite Hop.
    rewrite in_operator_validator_cases.
    destruct (JoinedFilterFieldEnum.of_value (JoinedFilter.raw_column r));
      destruct (JoinedFilter.raw_value r); destruct op;
      cbn [run_field_validator raise ret outcome_value];
      intro E; inversion E; eauto.
  - rewrite (JoinedFilter_unknown_operator r Hop). intro E. inversion E.
    now left.
Qed.

Lemma validate_filter_items_unknown_operator (rs : list JoinedFilter.raw)
  (rf : JoinedFilter.raw) :
  In rf rs ->
  FilterOperatorEnum.of_value (JoinedFilter.raw_operator rf) = None ->
  MetricQuery.validate_filter_items rs = inl (KeyError "operator").
Proof.
  intros Hin Hop. induction rs as [|r rs IH]; [destruct Hin|].
  cbn [MetricQuery.validate_filter_items].
  destruct Hin as [->|Hin].
  - now rewrite (JoinedFilter_unknown_operator rf Hop).
  - specialize (IH Hin).
    destruct (JoinedFilter.model_validate r) as [e|f] eqn:Hr.
    + destruct (JoinedFilter_exceptions r e Hr) as [->|[errs ->]];
        [reflexivity|]. now rewrite IH.
    + now rewrite IH.
Qed.

(** X3. An operator that is not a member of [FilterOperatorEnum] (["!="]
    for one) does not give a validation error: the validator of [value]
    looks the operator up in the validated data, and the constructor of the
    filter leaves with [KeyError('operator')], whatever the column and the
    value are.  A [MetricQuery] or a [JoinedTimeseriesQuery] holding such a
    filter leaves with the same exception, whatever its other fields are. *)
Theorem unknown_operator_raises_KeyError :
  (forall r : JoinedFilter.raw,
     FilterOperatorEnum.of_value (JoinedFilter.raw_operator r) = None ->
     JoinedFilter.model_validate r = inl (KeyError "operator"))
  /\ (forall r : TimeseriesFilter.raw,
        FilterOperatorEnum.of_value (TimeseriesFilter.raw_operator r) = None ->
        TimeseriesFilter.model_validate r = inl (KeyError "operator"))
  /\ (forall (q : MetricQuery.raw) (rs : list JoinedFilter.raw)
             (rf : JoinedFilter.raw),
        MetricQuery.raw_filters q = Some rs ->
        In rf rs ->
        FilterOperatorEnum.of_value (JoinedFilter.raw_operator rf) = None ->
        MetricQuery.model_validate q = inl (KeyError "operator"))
  /\ (forall (q : JoinedTimeseriesQueryModel.raw)
             (rs : list JoinedFilter.raw) (rf : JoinedFilter.raw),
        JoinedTimeseriesQueryModel.raw_filters q = Some rs ->
        In rf rs ->
        FilterOperatorEnum.of_value (JoinedFilter.raw_operator rf) = None ->
        JoinedTimeseriesQueryModel.model_validate q
        = inl (KeyError "operator")).
Proof.
  split; [exact JoinedFilter_unknown_operator|]. split; [|split].
  - intros r Hop. unfold TimeseriesFilter.model_validate. rewrite Hop.
    unfold TimeseriesFilter.in_operator_must_have_iterable,
      TimeseriesFilter.data_getitem_operator.
    cbn [TimeseriesFilter.data_operator].
    destruct (TimeseriesFilter.is_iterable_not_str
                (TimeseriesFilter.raw_value r)); reflexivity.
  - intros q rs rf Hq Hin Hop. unfold MetricQuery.model_validate.
    rewrite Hq. cbn [MetricQuery.validate_filters].
    now rewrite (validate_filter_items_unknown_operator rs rf Hin Hop).
  - intros q rs rf Hq Hin Hop.
    unfold JoinedTimeseriesQueryModel.model_validate.
    rewrite Hq. cbn [JoinedTimeseriesQueryModel.validate_filters].
    now rewrite (validate_filter_items_unknown_operator rs rf Hin Hop).
Qed.

Lemma unknown_operator_raises_KeyError_witness :
  JoinedFilter.model_validate
    (JoinedFilter.mk_raw "primary_location_id" "!=" (VScalar (SStr "gage-A")))
  = inl (KeyError "operator")
  /\ JoinedTimeseriesQueryModel.model_validate
       (example_joined_request ["primary_location_id"]
          [ JoinedFilter.mk_raw "primary_location_id" "!="
              (VScalar (SStr "gage-A")) ]
          None false)
     = inl (KeyError "operator").
Proof.
  split.
  - apply (proj1 unknown_operator_raises_KeyError). reflexivity.
  - apply (proj2 (proj2 (proj2 unknown_operator_raises_KeyError))
             (example_joined_request ["primary_location_id"]
                [ JoinedFilter.mk_raw "primary_location_id" "!="
                    (VScalar (SStr "gage-A")) ]
                None false)
             [ JoinedFilter.mk_raw "primary_location_id" "!="
                 (VScalar (SStr "gage-A")) ]
             (JoinedFilter.mk_raw "primary_location_id" "!="
                (VScalar (SStr "gage-A")))
             Logic.eq_refl (or_introl Logic.eq_refl) Logic.eq_refl).
Defined.

(** ** Requests: what a constructed request satisfies *)

Lemma MetricQuery_record_eq (q : MetricQuery.t) pf sf cf gb ob im fl rq gf ig rd :
  MetricQuery.primary_filepath q = pf ->
  MetricQuery.secondary_filepath q = sf ->
  MetricQuery.crosswalk_filepath q = cf ->
  MetricQuery.group_by q = gb ->
  MetricQuery.order_by q = ob ->
  MetricQuery.include_metrics q = im ->
  MetricQuery.filters q = fl ->
  MetricQuery.return_query q = rq ->
  MetricQuery.geometry_filepath q = gf ->
  MetricQuery.include_geometry q = ig ->
  MetricQuery.remove_duplicates q = rd ->
  q = MetricQuery.mk pf sf cf gb ob im fl rq gf ig rd.
Proof. destruct q; cbn; intros; subst; reflexivity. Qed.

(** X4. A [MetricQuery] is constructed exactly when the names of [group_by]
    and [order_by] are in the vocabulary, [include_metrics] and the filters
    validate, [include_geometry] comes with [primary_location_id] in
    [group_by] and a geometry file path, and [geometry] in [group_by] comes
    with [include_geometry]; the request then holds the parsed fields, the
    other fields as given, and the empty list for filters given as
    [None]. *)
Theorem MetricQuery_constructed_iff :
  forall (r : MetricQuery.raw) (q : MetricQuery.t),
    MetricQuery.model_validate r = inr q <->
    parse_list JoinedFilterFieldEnum.of_value (MetricQuery.raw_group_by r)
    = Some (MetricQuery.group_by q)
    /\ parse_list JoinedFilterFieldEnum.of_value (MetricQuery.raw_order_by r)
       = Some (MetricQuery.order_by q)
    /\ MetricQuery.validate_include_metrics (MetricQuery.raw_include_metrics r)
       = Some (MetricQuery.include_metrics q)
    /\ MetricQuery.validate_filters (MetricQuery.raw_filters r)
       = inr (Some (MetricQuery.filters q))
    /\ (MetricQuery.raw_filters r = None -> MetricQuery.filters q = [])
    /\ (MetricQuery.include_geometry q = true ->
        In JoinedFilterFieldEnum.primary_location_id (MetricQuery.group_by q)
        /\ filepath_truthy (MetricQuery.geometry_filepath q) = true)
    /\ (In JoinedFilterFieldEnum.geometry (MetricQuery.group_by q) ->
        MetricQuery.include_geometry q = true)
    /\ MetricQuery.primary_filepath q = MetricQuery.raw_primary_filepath r
    /\ MetricQuery.secondary_filepath q = MetricQuery.raw_secondary_filepath r
    /\ MetricQuery.crosswalk_filepath q = MetricQuery.raw_crosswalk_filepath r
    /\ MetricQuery.return_query q = MetricQuery.raw_return_query r
    /\ MetricQuery.geometry_filepath q = MetricQuery.raw_geometry_filepath r
    /\ MetricQuery.include_geometry q = MetricQuery.raw_include_geometry r
    /\ MetricQuery.remove_duplicates q = MetricQuery.raw_remove_duplicates r.
Proof.
  intros r q. unfold MetricQuery.model_validate.
  destruct (MetricQuery.validate_filters (MetricQuery.raw_filters r))
    as [e|fl] eqn:Hfl; cbn [bind].
  { split; [discriminate | intros (_ & _ & _ & E & _); discriminate E]. }
  destruct (parse_list JoinedFilterFieldEnum.of_value
              (MetricQuery.raw_group_by r)) as [gb|] eqn:Hgb.
  2:{ split.
      - unfold MetricQuery.include_geometry_must_group_by_primary_location_id,
          MetricQuery.data_getitem_group_by.
        cbn [MetricQuery.data_group_by].
        destruct (MetricQuery.raw_include_geometry r); discriminate.
      - intros (E & _); discriminate E. }
  rewrite include_geometry_validator_cases.
  assert (Hnone : MetricQuery.raw_filters r = None -> fl = Some []).
  { intro Hn. rewrite Hn in Hfl.
    unfold MetricQuery.validate_filters, ret in Hfl.
    inversion Hfl. reflexivity. }
  pose proof (JoinedFilterFieldEnum_mem_In
                JoinedFilterFieldEnum.primary_location_id gb) as Hplid.
  pose proof (JoinedFilterFieldEnum_mem_In
                JoinedFilterFieldEnum.geometry gb) as Hgeo.
  destruct (MetricQuery.raw_include_geometry r) eqn:Hig;
    destruct (JoinedFilterFieldEnum.mem
                JoinedFilterFieldEnum.primary_location_id gb) eqn:Hm1;
    destruct (filepath_truthy (MetricQuery.raw_geometry_filepath r)) eqn:Hgf;
    destruct (JoinedFilterFieldEnum.mem JoinedFilterFieldEnum.geometry gb)
      eqn:Hm2;
    cbn [andb negb run_field_validator raise ret outcome_value];
    destruct (parse_list JoinedFilterFieldEnum.of_value
                (MetricQuery.raw_order_by r)) as [ob|];
    destruct (MetricQuery.validate_include_metrics
                (MetricQuery.raw_include_metrics r)) as [im|];
    destruct fl as [fl|];
    (split;
     [ intro E; try discriminate E; inversion E; subst; clear E;
       cbn; repeat split; try reflexivity; try tauto; try congruence;
       try (intro Hn; specialize (Hnone Hn); congruence)
     | intros (E1 & E2 & E3 & E4 & E5 & E6 & E7 & E8 & E9 & E10 & E11
               & E12 & E13 & E14);
       try discriminate; try congruence;
       try (inversion E1; inversion E2; inversion E3; inversion E4;
            unfold ret; f_equal; symmetry; apply MetricQuery_record_eq;
            congruence);
       try (exfalso; rewrite E13 in E6; destruct (E6 Logic.eq_refl);
            inversion E1; subst; intuition congruence);
       try (exfalso; inversion E1; subst; rewrite E13 in E7;
            intuition congruence) ]).
Qed.

Lemma JoinedTimeseriesQuery_record_eq (q : JoinedTimeseriesQuery.t)
  pf sf cf ob fl rq gf ig rd :
  JoinedTimeseriesQuery.primary_filepath q = pf ->
  JoinedTimeseriesQuery.secondary_filepath q = sf ->
  JoinedTimeseriesQuery.crosswalk_filepath q = cf ->
  JoinedTimeseriesQuery.order_by q = ob ->
  JoinedTimeseriesQuery.filters q = fl ->
  JoinedTimeseriesQuery.return_query q = rq ->
  JoinedTimeseriesQuery.geometry_filepath q = gf ->
  JoinedTimeseriesQuery.include_geometry q = ig ->
  JoinedTimeseriesQuery.remove_duplicates q = rd ->
  q = JoinedTimeseriesQuery.mk pf sf cf ob fl rq gf ig rd.
Proof. destruct q; cbn; intros; subst; reflexivity. Qed.

(** X5. A [JoinedTimeseriesQuery] is constructed exactly when the names of
    [order_by] are in the vocabulary, the filters validate, and
    [include_geometry] comes with a geometry file path; unlike a
    [MetricQuery] nothing is asked of [primary_location_id].  The request
    then holds the parsed fields and the other fields as given. *)
Theorem JoinedTimeseriesQuery_constructed_iff :
  forall (r : JoinedTimeseriesQueryModel.raw) (q : JoinedTimeseriesQuery.t),
    JoinedTimeseriesQueryModel.model_validate r = inr q <->
    parse_list JoinedFilterFieldEnum.of_value
      (JoinedTimeseriesQueryModel.raw_order_by r)
    = Some (JoinedTimeseriesQuery.order_by q)
    /\ JoinedTimeseriesQueryModel.validate_filters
         (JoinedTimeseriesQueryModel.raw_filters r)
       = inr (Some (JoinedTimeseriesQuery.filters q))
    /\ (JoinedTimeseriesQuery.include_geometry q = true ->
        filepath_truthy (JoinedTimeseriesQuery.geometry_filepath q) = true)
    /\ JoinedTimeseriesQuery.primary_filepath q
       = JoinedTimeseriesQueryModel.raw_primary_filepath r
    /\ JoinedTimeseriesQuery.secondary_filepath q
       = JoinedTimeseriesQueryModel.raw_secondary_filepath r
    /\ JoinedTimeseriesQuery.crosswalk_filepath q
       = JoinedTimeseriesQueryModel.raw_crosswalk_filepath r
    /\ JoinedTimeseriesQuery.return_query q
       = JoinedTimeseriesQueryModel.raw_return_query r
    /\ JoinedTimeseriesQuery.geometry_filepath q
       = JoinedTimeseriesQueryModel.raw_geometry_filepath r
    /\ JoinedTimeseriesQuery.include_geometry q
       = JoinedTimeseriesQueryModel.raw_include_geometry r
    /\ JoinedTimeseriesQuery.remove_duplicates q
       = JoinedTimeseriesQueryModel.raw_remove_duplicates r.
Proof.
  intros r q. unfold JoinedTimeseriesQueryModel.model_validate.
  destruct (JoinedTimeseriesQueryModel.validate_filters
              (JoinedTimeseriesQueryModel.raw_filters r))
    as [e|fl] eqn:Hfl; cbn [bind].
  { split; [discriminate | intros (_ & E & _); discriminate E]. }
  unfold
    JoinedTimeseriesQueryModel.include_geometry_must_group_by_primary_location_id,
    JoinedTimeseriesQueryModel.data_getitem_geometry_filepath.
  cbn [JoinedTimeseriesQueryModel.data_geometry_filepath].
  unfold bind, ret, raise.
  destruct (JoinedTimeseriesQueryModel.raw_include_geometry r) eqn:Hig;
    destruct (filepath_truthy (JoinedTimeseriesQueryModel.raw_geometry_filepath r))
      eqn:Hgf;
    cbn [negb run_field_validator outcome_value];
    destruct (parse_list JoinedFilterFieldEnum.of_value
                (JoinedTimeseriesQueryModel.raw_order_by r)) as [ob|];
    destruct fl as [fl|];
    (split;
     [ intro E; try discriminate E; inversion E; subst; clear E;
       cbn; repeat split; try reflexivity; try tauto; try congruence
     | intros (E1 & E2 & E3 & E4 & E5 & E6 & E7 & E8 & E9 & E10);
       try discriminate; try congruence;
       try (inversion E1; inversion E2; f_equal; symmetry;
            apply JoinedTimeseriesQuery_record_eq; congruence);
       try (exfalso; rewrite E9 in E3; specialize (E3 Logic.eq_refl);
            congruence) ]).
Qed.

(** ** Groups partition a relation *)

Section GroupByPartition.

Context {A K : Type} (key : A -> K) (same : A -> A -> bool).

Hypothesis same_key : forall a b, same a b = true <-> key a = key b.

Lemma same_refl (a : A) : same a a = true.
Proof. now apply same_key. Qed.

Lemma same_sym (a b : A) : same a b = same b a.
Proof.
  destruct (same a b) eqn:Hab, (same b a) eqn:Hba; try reflexivity.
  - apply same_key in Hab. symmetry in Hab. apply same_key in Hab. congruence.
  - apply same_key in Hba. symmetry in Hba. apply same_key in Hba. congruence.
Qed.

Lemma same_class (x r y : A) : same x r = true -> same r y = same x y.
Proof.
  intro Hxr. apply same_key in Hxr.
  destruct (same r y) eqn:Hry, (same x y) eqn:Hxy; try reflexivity.
  - apply same_key in Hry.
    assert (same x y = true) by (apply same_key; congruence). congruence.
  - apply same_key in Hxy.
    assert (same r y = true) by (apply same_key; congruence). congruence.
Qed.

Lemma groups_rows_split (x : A) (R l : list A) :
  Permutation (groups_rows same R l)
    (groups_rows same (filter (same x) R) l
     ++ groups_rows same (filter (fun y => negb (same x y)) R) l).
Proof.
  unfold groups_rows. induction R as [|r R IH]; cbn [filter map List.concat app].
  - constructor.
  - destruct (same x r); cbn [negb map List.concat].
    + rewrite <- app_assoc. now apply Permutation_app_head.
    + rewrite IH, !app_assoc.
      apply Permutation_app_tail, Permutation_app_comm.
Qed.

Lemma filter_same_at_most_one (x : A) (R : list A) :
  NoDup (map key R) ->
  filter (same x) R = []
  \/ exists r0, filter (same x) R = [r0] /\ same x r0 = true.
Proof.
  induction R as [|r R IH]; cbn [map filter]; intro Hnd; [now left|].
  inversion Hnd as [|? ? Hnot Hnd']; subst.
  destruct (same x r) eqn:Hxr; [|now apply IH].
  right. exists r. split; [|assumption]. f_equal.
  destruct (filter (same x) R) as [|y ys] eqn:Hf; [reflexivity|].
  exfalso. apply Hnot.
  assert (Hy : In y (filter (same x) R)) by (rewrite Hf; now left).
  apply filter_In in Hy as [Hy Hxy].
  apply same_key in Hxr, Hxy. rewrite <- Hxr, Hxy. now apply in_map.
Qed.

Lemma filter_nil_iff {B : Type} (f : B -> bool) (l : list B) :
  filter f l = [] <-> forall y, In y l -> f y = false.
Proof.
  induction l as [|a l IH]; cbn [filter].
  - split; [intros _ ? [] | reflexivity].
  - destruct (f a) eqn:Ha.
    + split; [discriminate|]. intro Hall.
      specialize (Hall a (or_introl Logic.eq_refl)). congruence.
    + rewrite IH. split.
      * intros Hall y [<-|Hy]; [assumption | now apply Hall].
      * intros Hall y Hy. apply Hall. now right.
Qed.

Lemma groups_rows_of_class (x : A) (R l : list A) :
  NoDup (map key R) ->
  (forall y, In y l -> same x y = true ->
             exists r, In r R /\ same x r = true) ->
  groups_rows same (filter (same x) R) l = filter (same x) l.
Proof.
  intros Hnd Hcover. unfold groups_rows.
  destruct (filter_same_at_most_one x R Hnd) as [Hnil|[r0 [Hr0 Hx]]].
  - rewrite Hnil. cbn. symmetry. apply filter_nil_iff. intros y Hy.
    destruct (same x y) eqn:Hxy; [|reflexivity].
    destruct (Hcover y Hy Hxy) as [r [Hr Hxr]].
    assert (Hin : In r (filter (same x) R)) by (apply filter_In; tauto).
    rewrite Hnil in Hin. destruct Hin.
  - rewrite Hr0. cbn. rewrite app_nil_r. apply filter_ext.
    intro y. now apply same_class.
Qed.

(** Every row belongs to one group and one only: the groups, put end to
    end, are a rearrangement of the relation. *)
Lemma group_by_partition (l : list A) :
  Permutation l (List.concat (map snd (group_by same l))).
Proof.
  unfold group_by. rewrite map_map. cbn [snd].
  change (Permutation l (groups_rows same (distinct_by same l) l)).
  induction l as [|x rest IH]; [constructor|].
  cbn [distinct_by]. unfold groups_rows. cbn [map List.concat filter].
  rewrite same_refl. cbn [app]. apply perm_skip.
  assert (Hext : map (fun r => if same r x
                               then x :: filter (same r) rest
                               else filter (same r) rest)
                   (filter (fun y => negb (same x y))
                      (distinct_by same rest))
                 = map (fun r => filter (same r) rest)
                     (filter (fun y => negb (same x y))
                        (distinct_by same rest))).
  { apply map_ext_in. intros r Hr. apply filter_In in Hr as [_ Hr].
    rewrite same_sym. destruct (same x r); [discriminate | reflexivity]. }
  rewrite Hext.
  change (Permutation rest
            (filter (same x) rest
             ++ groups_rows same
                  (filter (fun y => negb (same x y)) (distinct_by same rest))
                  rest)).
  rewrite IH at 1.
  rewrite (groups_rows_split x (distinct_by same rest) rest).
  rewrite groups_rows_of_class.
  - reflexivity.
  - now apply distinct_by_keys_NoDup.
  - intros y Hy Hxy. apply same_key in Hxy.
    assert (Hk : In (key y) (map key (distinct_by same rest))).
    { apply (distinct_by_keys key same same_key). now apply in_map. }
    apply in_map_iff in Hk as [r [Hr Hin]]. exists r. split; [assumption|].
    apply same_key. congruence.
Qed.

Lemma group_by_lengths (l : list A) :
  list_sum (map (fun g => List.length (snd g)) (group_by same l))
  = List.length l.
Proof.
  rewrite (Permutation_length (group_by_partition l)), length_concat, map_map.
  reflexivity.
Qed.

End GroupByPartition.

Lemma twice_large_groups_le {B : Type} (gs : list (B * list B)) :
  (2 * List.length (filter having_count_gt_1 gs)
   <= list_sum (map (fun g => List.length (snd g)) gs))%nat.
Proof.
  induction gs as [|g gs IH]; cbn [filter map list_sum List.length]; [lia|].
  unfold list_sum in *. cbn [fold_right].
  destruct (having_count_gt_1 g) eqn:Hg; cbn [List.length].
  - unfold having_count_gt_1 in Hg. apply Nat.ltb_lt in Hg. lia.
  - lia.
Qed.

(** ** The report of [describe_timeseries] *)

Lemma distinct_by_length_le {A : Type} (eqb : A -> A -> bool) (l : list A) :
  (List.length (distinct_by eqb l) <= List.length l)%nat.
Proof.
  induction l as [|a l IH]; cbn [distinct_by List.length]; [lia|].
  pose proof (filter_length_le (fun y => negb (eqb a y)) (distinct_by eqb l)).
  lia.
Qed.

Lemma filter_length_le_impl {A : Type} (f g : A -> bool) (l : list A) :
  (forall x, In x l -> f x = true -> g x = true) ->
  (List.length (filter f l) <= List.length (filter g l))%nat.
Proof.
  induction l as [|a l IH]; intro Himp; cbn [filter]; [lia|].
  assert (IH' : (List.length (filter f l) <= List.length (filter g l))%nat)
    by (apply IH; intros x Hx; apply Himp; now right).
  destruct (f a) eqn:Hf.
  - rewrite (Himp a (or_introl Logic.eq_refl) Hf). cbn [List.length]. lia.
  - destruct (g a); cbn [List.length]; lia.
Qed.

Lemma fold_left_min_spec (l : list Z) (x : Z) :
  (fold_left Z.min l x <= x)%Z
  /\ (forall y, In y l -> (fold_left Z.min l x <= y)%Z)
  /\ (fold_left Z.min l x = x \/ In (fold_left Z.min l x) l).
Proof.
  revert x. induction l as [|a l IH]; intro x; cbn [fold_left In].
  - split; [lia|]. split; [intros ? []|now left].
  - destruct (IH (Z.min x a)) as [H1 [H2 H3]]. split; [lia|]. split.
    + intros y [<-|Hy]; [lia | now apply H2].
    + destruct H3 as [H3|H3]; [|tauto].
      destruct (Z.min_spec x a) as [[_ Hm]|[_ Hm]]; rewrite Hm in H3;
        [left | right; left]; congruence.
Qed.

Lemma fold_left_max_spec (l : list Z) (x : Z) :
  (x <= fold_left Z.max l x)%Z
  /\ (forall y, In y l -> (y <= fold_left Z.max l x)%Z)
  /\ (fold_left Z.max l x = x \/ In (fold_left Z.max l x) l).
Proof.
  revert x. induction l as [|a l IH]; intro x; cbn [fold_left In].
  - split; [lia|]. split; [intros ? []|now left].
  - destruct (IH (Z.max x a)) as [H1 [H2 H3]]. split; [lia|]. split.
    + intros y [<-|Hy]; [lia | now apply H2].
    + destruct H3 as [H3|H3]; [|tauto].
      destruct (Z.max_spec x a) as [[_ Hm]|[_ Hm]]; rewrite Hm in H3;
        [right; left | left]; congruence.
Qed.

Lemma min_Z_spec (l : list Z) (m : Z) :
  min_Z l = Some m -> In m l /\ forall y, In y l -> (m <= y)%Z.
Proof.
  destruct l as [|x l]; cbn [min_Z]; [discriminate|].
  intro E. inversion E; subst; clear E.
  destruct (fold_left_min_spec l x) as [H1 [H2 H3]]. split.
  - destruct H3 as [->|H3]; [now left | now right].
  - intros y [<-|Hy]; [assumption | now apply H2].
Qed.

Lemma max_Z_spec (l : list Z) (m : Z) :
  max_Z l = Some m -> In m l /\ forall y, In y l -> (y <= m)%Z.
Proof.
  destruct l as [|x l]; cbn [max_Z]; [discriminate|].
  intro E. inversion E; subst; clear E.
  destruct (fold_left_max_spec l x) as [H1 [H2 H3]]. split.
  - destruct H3 as [->|H3]; [now left | now right].
  - intros y [<-|Hy]; [assumption | now apply H2].
Qed.

Section Describe.

Context {value : Type} `{ValueOps value}.

Lemma same_value_time_key (a b : timeseries_row value) :
  same_value_time a b = true <->
  (ts_value_time a, ts_location_id a, ts_measurement_unit a,
   ts_configuration a, ts_variable_name a)
  = (ts_value_time b, ts_location_id b, ts_measurement_unit b,
     ts_configuration b, ts_variable_name b).
Proof.
  unfold same_value_time.
  rewrite !andb_true_iff, !Z.eqb_eq, !String.eqb_eq. split.
  - intros [[[[-> ->] ->] ->] ->]. reflexivity.
  - intro E. inversion E. tauto.
Qed.

Lemma same_forecast_key (a b : timeseries_row value) :
  same_forecast a b = true <->
  (ts_location_id a, ts_reference_time a)
  = (ts_location_id b, ts_reference_time b).
Proof.
  unfold same_forecast. rewrite andb_true_iff, Z.eqb_eq, String.eqb_eq.
  split.
  - intros [-> ->]. reflexivity.
  - intro E. inversion E. tauto.
Qed.

(** The number of duplicate rows of the report, over the rows read. *)
Lemma num_duplicate_rows_unfold (files : parquet_files value) (path : string) :
  num_duplicate_rows (describe_timeseries files path)
  = List.length
      (filter (fun rep =>
                 Nat.ltb 1
                   (List.length
                      (filter (same_row rep) (read_parquet files path))))
         (distinct_by same_row (read_parquet files path))).
Proof.
  cbn [describe_timeseries num_duplicate_rows]. unfold group_by.
  rewrite filter_map_comm, length_map. reflexivity.
Qed.

Lemma value_time_steps_length (rows : list (timeseries_row value)) :
  List.length (value_time_steps rows) = (List.length rows - 1)%nat.
Proof.
  unfold value_time_steps.
  rewrite length_map, length_combine.
  assert (Hlen : List.length (sort_by Z.leb (map ts_value_time rows))
                 = List.length rows).
  { rewrite (Permutation_length (sort_by_perm Z.leb _)). apply length_map. }
  destruct (sort_by Z.leb (map ts_value_time rows)) as [|v vs];
    cbn [tl List.length] in *; lia.
Qed.

(** A pair of location and reference time is reported as having missing
    time steps exactly when two of its time steps differ. *)
Lemma none_missing_false
  (g : timeseries_row value * list (timeseries_row value)) :
  none_missing g = Some false <->
  exists s1 s2, In s1 (value_time_steps (snd g))
                /\ In s2 (value_time_steps (snd g)) /\ s1 <> s2.
Proof.
  unfold none_missing.
  destruct (max_Z (value_time_steps (snd g))) as [mx|] eqn:Hmx.
  - destruct (min_Z (value_time_steps (snd g))) as [mn|] eqn:Hmn.
    + apply max_Z_spec in Hmx as [Hmx1 Hmx2].
      apply min_Z_spec in Hmn as [Hmn1 Hmn2]. split.
      * intro E. inversion E as [E']. apply Z.eqb_neq in E'.
        exists mx, mn. tauto.
      * intros [s1 [s2 [H1 [H2 Hne]]]]. f_equal. apply Z.eqb_neq.
        pose proof (Hmx2 s1 H1). pose proof (Hmx2 s2 H2).
        pose proof (Hmn2 s1 H1). pose proof (Hmn2 s2 H2). lia.
    + destruct (value_time_steps (snd g)); [discriminate Hmx|discriminate Hmn].
  - destruct (value_time_steps (snd g)); [|discriminate Hmx].
    split; [discriminate | intros [s1 [s2 [[] _]]]].
Qed.

End Describe.

(** X6. In the report of [describe_timeseries], every duplicated row stands
    for at least two rows of the store, so twice the number of duplicate
    rows is at most the number of rows; the number of locations is at most
    the number of rows; and the number of locations with duplicate value
    times is at most the number of locations. *)
Theorem describe_timeseries_counts_bounded :
  forall (value : Type) (ops : ValueOps value),
    ValueLaws value ->
    forall (files : parquet_files value) (timeseries_filepath : string),
      let report := describe_timeseries files timeseries_filepath in
      (2 * num_duplicate_rows report <= total_num_rows report)%nat
      /\ (num_location_ids report <= total_num_rows report)%nat
      /\ (num_locations_with_duplicate_value_times report
          <= num_location_ids report)%nat.
Proof.
  intros value ops laws files path report. subst report.
  cbn [describe_timeseries num_duplicate_rows total_num_rows
       num_location_ids num_locations_with_duplicate_value_times].
  set (rows := read_parquet files path).
  split; [|split].
  - rewrite <- (group_by_lengths (fun a => a) same_row same_row_eq rows).
    apply twice_large_groups_le.
  - rewrite <- (length_map ts_location_id rows).
    apply distinct_by_length_le.
  - apply NoDup_incl_length.
    + apply distinct_by_NoDup, String.eqb_eq.
    + intros loc Hloc.
      apply (proj1 (distinct_by_In _ String.eqb_eq _ _)) in Hloc.
      apply (proj2 (distinct_by_In _ String.eqb_eq _ _)).
      apply in_map_iff in Hloc as [g [<- Hg]].
      apply filter_In in Hg as [Hg _]. apply filter_In in Hg as [Hg _].
      unfold group_by in Hg. apply in_map_iff in Hg as [rep [<- Hrep]].
      cbn [fst]. apply in_map. eapply distinct_by_incl. exact Hrep.
Qed.

Lemma describe_timeseries_counts_bounded_witness :
  let report := describe_timeseries example_duplicated_store "obs.parquet" in
  (2 * num_duplicate_rows report <= total_num_rows report)%nat
  /\ (num_location_ids report <= total_num_rows report)%nat
  /\ (num_locations_with_duplicate_value_times report
      <= num_location_ids report)%nat.
Proof.
  apply (describe_timeseries_counts_bounded Z Z_ValueOps Z_ValueLaws
           example_duplicated_store "obs.parquet").
Defined.

(** X7. The report says that there is no duplicate row exactly when no two
    rows of the store are identical on all seven columns. *)
Theorem num_duplicate_rows_zero_iff_NoDup :
  forall (value : Type) (ops : ValueOps value),
    ValueLaws value ->
    forall (files : parquet_files value) (timeseries_filepath : string),
      num_duplicate_rows (describe_timeseries files timeseries_filepath)
      = 0%nat
      <-> NoDup (read_parquet files timeseries_filepath).
Proof.
  intros value ops laws files path.
  rewrite num_duplicate_rows_unfold, length_zero_iff_nil, filter_nil_iff.
  set (rows := read_parquet files path). split.
  - intro Hall. apply NoDup_nth_error. intros i j Hi Hij.
    destruct (Nat.eq_dec i j) as [|Hne]; [assumption|]. exfalso.
    destruct (nth_error rows i) as [v|] eqn:Hv;
      [|apply nth_error_None in Hv; lia].
    assert (Hin : In v (distinct_by same_row rows)).
    { apply (proj2 (distinct_by_In _ same_row_eq _ _)).
      eapply nth_error_In; eassumption. }
    specialize (Hall v Hin). apply Nat.ltb_ge in Hall.
    assert (Hocc : (1 < List.length (filter (same_row v) rows))%nat).
    { apply (filter_two_occurrences same_row same_row_eq).
      exists i, j. repeat split; [assumption | assumption | congruence]. }
    lia.
  - intros Hnd rep _. apply Nat.ltb_ge.
    destruct (Nat.le_gt_cases
                (List.length (filter (same_row rep) rows)) 1) as [|Hgt];
      [assumption|]. exfalso.
    apply (filter_two_occurrences same_row same_row_eq) in Hgt
      as [i [j [Hne [Hi Hj]]]].
    apply Hne. apply (proj1 (NoDup_nth_error rows) Hnd).
    + apply nth_error_Some. congruence.
    + congruence.
Qed.

Lemma num_duplicate_rows_zero_iff_NoDup_witness :
  num_duplicate_rows (describe_timeseries example_files "secondary.parquet")
  = 0%nat
  <-> NoDup (read_parquet example_files "secondary.parquet").
Proof.
  apply (num_duplicate_rows_zero_iff_NoDup Z Z_ValueOps Z_ValueLaws
           example_files "secondary.parquet").
Defined.

(** X8. For an empty store the report has no start and no end date and all
    its counts are zero; for any other store it has both, they are value
    times of rows of the store, and the value time of every row lies between
    them. *)
Theorem describe_timeseries_dates :
  forall (value : Type) (ops : ValueOps value)
         (files : parquet_files value) (timeseries_filepath : string),
    let rows := read_parquet files timeseries_filepath in
    let report := describe_timeseries files timeseries_filepath in
    (rows = [] ->
     start_date report = None /\ end_date report = None
     /\ num_location_ids report = 0%nat /\ total_num_rows report = 0%nat
     /\ num_duplicate_rows report = 0%nat
     /\ num_locations_with_duplicate_value_times report = 0%nat
     /\ num_locations_with_missing_timesteps report = 0%nat)
    /\ (rows <> [] ->
        exists s e,
          start_date report = Some s /\ end_date report = Some e
          /\ (exists r, In r rows /\ ts_value_time r = s)
          /\ (exists r, In r rows /\ ts_value_time r = e)
          /\ forall r, In r rows -> (s <= ts_value_time r <= e)%Z).
Proof.
  intros value ops files path rows report. subst report. split.
  - intro Hnil. unfold describe_timeseries. fold rows. rewrite Hnil.
    cbn. repeat split; reflexivity.
  - intro Hne. cbn [describe_timeseries start_date end_date]. fold rows.
    destruct (min_Z (map ts_value_time rows)) as [s|] eqn:Hs.
    2:{ destruct rows; [congruence | discriminate Hs]. }
    destruct (max_Z (map ts_value_time rows)) as [e|] eqn:He.
    2:{ destruct rows; [congruence | discriminate He]. }
    apply min_Z_spec in Hs as [Hs1 Hs2]. apply max_Z_spec in He as [He1 He2].
    exists s, e. split; [reflexivity|]. split; [reflexivity|].
    split; [|split].
    + apply in_map_iff in Hs1 as [r [Hr Hin]]. exists r. tauto.
    + apply in_map_iff in He1 as [r [Hr Hin]]. exists r. tauto.
    + intros r Hr. split; [apply Hs2 | apply He2]; now apply in_map.
Qed.

Lemma describe_timeseries_dates_witness :
  exists s e,
    start_date (describe_timeseries example_files "primary.parquet") = Some s
    /\ end_date (describe_timeseries example_files "primary.parquet") = Some e
    /\ (exists r, In r (read_parquet example_files "primary.parquet")
                  /\ ts_value_time r = s)
    /\ (exists r, In r (read_parquet example_files "primary.parquet")
                  /\ ts_value_time r = e)
    /\ forall r, In r (read_parquet example_files "primary.parquet") ->
                 (s <= ts_value_time r <= e)%Z.
Proof.
  apply (proj2 (describe_timeseries_dates Z Z_ValueOps example_files
                  "primary.parquet")).
  discriminate.
Defined.

(** X9. Rows that are identical on all columns are, in particular, rows of
    one location at one value time: when the report counts a duplicate row,
    it counts a location with duplicate value times as well. *)
Theorem duplicate_rows_imply_duplicate_value_times :
  forall (value : Type) (ops : ValueOps value),
    ValueLaws value ->
    forall (files : parquet_files value) (timeseries_filepath : string),
      let report := describe_timeseries files timeseries_filepath in
      (0 < num_duplicate_rows report)%nat ->
      (0 < num_locations_with_duplicate_value_times report)%nat.
Proof.
  intros value ops laws files path report. subst report.
  rewrite num_duplicate_rows_unfold.
  cbn [describe_timeseries num_locations_with_duplicate_value_times].
  set (rows := read_parquet files path). intro Hpos.
  destruct (filter (fun rep => Nat.ltb 1
                      (List.length (filter (same_row rep) rows)))
              (distinct_by same_row rows)) as [|rep reps] eqn:Hf;
    [cbn in Hpos; lia|].
  assert (Hrep : In rep (filter (fun rep => Nat.ltb 1
                           (List.length (filter (same_row rep) rows)))
                   (distinct_by same_row rows))) by (rewrite Hf; now left).
  apply filter_In in Hrep as [Hrep Hcount]. apply Nat.ltb_lt in Hcount.
  apply distinct_by_incl in Hrep.
  (* the representative of the value-time group of [rep] *)
  set (k := fun a : timeseries_row value =>
              (ts_value_time a, ts_location_id a, ts_measurement_unit a,
               ts_configuration a, ts_variable_name a)).
  assert (Hk : In (k rep) (map k (distinct_by same_value_time rows))).
  { apply (distinct_by_keys k same_value_time same_value_time_key).
    apply (in_map k). exact Hrep. }
  apply in_map_iff in Hk as [r' [Hkey Hr']].
  assert (Hsame : same_value_time r' rep = true)
    by (now apply same_value_time_key).
  assert (Hbig : (1 < List.length (filter (same_value_time r') rows))%nat).
  { eapply Nat.lt_le_trans; [exact Hcount|].
    apply filter_length_le_impl. intros x _ Hx.
    apply same_row_eq in Hx. now subst x. }
  assert (Hin : In (ts_location_id r')
                  (map (fun g : timeseries_row value
                                * list (timeseries_row value) =>
                          ts_location_id (fst g))
                     (filter (fun g => Nat.ltb 1 (List.length (snd g)))
                        (filter having_count_gt_1
                           (group_by same_value_time rows))))).
  { apply in_map_iff.
    exists (r', filter (same_value_time r') rows). split; [reflexivity|].
    apply filter_In. split.
    - apply filter_In. split.
      + unfold group_by. apply in_map_iff. exists r'. tauto.
      + unfold having_count_gt_1. cbn [snd]. now apply Nat.ltb_lt.
    - cbn [snd]. now apply Nat.ltb_lt. }
  apply (proj2 (distinct_by_In _ String.eqb_eq _ _)) in Hin.
  destruct (distinct_by String.eqb _) as [|? ?]; [destruct Hin|].
  cbn [List.length]. lia.
Qed.

Lemma duplicate_rows_imply_duplicate_value_times_witness :
  (0 < num_locations_with_duplicate_value_times
         (describe_timeseries example_duplicated_store "obs.parquet"))%nat.
Proof.
  apply (duplicate_rows_imply_duplicate_value_times Z Z_ValueOps Z_ValueLaws
           example_duplicated_store "obs.parquet").
  vm_compute. lia.
Defined.

(** X10. The report counts no pair of location and reference time as having
    missing time steps exactly when, in every pair, all the steps between
    consecutive value times are equal; in particular a store in which no
    pair has more than two rows is never reported. *)
Theorem missing_timesteps_zero_iff_uniform :
  forall (value : Type) (ops : ValueOps value)
         (files : parquet_files value) (timeseries_filepath : string),
    let rows := read_parquet files timeseries_filepath in
    let report := describe_timeseries files timeseries_filepath in
    (num_locations_with_missing_timesteps report = 0%nat <->
     forall g, In g (group_by same_forecast rows) ->
               forall s1 s2, In s1 (value_time_steps (snd g)) ->
                             In s2 (value_time_steps (snd g)) -> s1 = s2)
    /\ ((forall g, In g (group_by same_forecast rows) ->
                   (List.length (snd g) <= 2)%nat) ->
        num_locations_with_missing_timesteps report = 0%nat).
Proof.
  intros value ops files path rows report. subst report.
  cbn [describe_timeseries num_locations_with_missing_timesteps]. fold rows.
  assert (Hiff :
    List.length
      (filter (fun g => match none_missing g with
                        | Some false => true
                        | _ => false
                        end) (group_by same_forecast rows)) = 0%nat
    <-> forall g, In g (group_by same_forecast rows) ->
                  forall s1 s2, In s1 (value_time_steps (snd g)) ->
                                In s2 (value_time_steps (snd g)) -> s1 = s2).
  { rewrite length_zero_iff_nil, filter_nil_iff. split.
    - intros Hall g Hg s1 s2 H1 H2.
      destruct (Z.eq_dec s1 s2) as [|Hne]; [assumption|]. exfalso.
      assert (Hnm : none_missing g = Some false)
        by (apply none_missing_false; exists s1, s2; tauto).
      specialize (Hall g Hg). rewrite Hnm in Hall. discriminate.
    - intros Hall g Hg.
      destruct (none_missing g) as [[|]|] eqn:Hnm; try reflexivity.
      apply none_missing_false in Hnm as [s1 [s2 [H1 [H2 Hne]]]].
      exfalso. apply Hne. now apply (Hall g Hg). }
  split; [exact Hiff|].
  intro Hsmall. apply Hiff. intros g Hg s1 s2 H1 H2.
  pose proof (value_time_steps_length (snd g)) as Hlen.
  specialize (Hsmall g Hg).
  destruct (value_time_steps (snd g)) as [|a [|b l]];
    cbn [List.length] in Hlen; [destruct H1 | | lia].
  destruct H1 as [<-|[]], H2 as [<-|[]]. reflexivity.
Qed.

Lemma missing_timesteps_zero_iff_uniform_witness :
  num_locations_with_missing_timesteps
    (describe_timeseries example_files "primary.parquet") = 0%nat.
Proof.
  apply (proj2 (missing_timesteps_zero_iff_uniform Z Z_ValueOps example_files
                  "primary.parquet")).
  intros g Hg. vm_compute in Hg.
  repeat (destruct Hg as [<-|Hg]; [vm_compute; lia|]). destruct Hg.
Defined.

(** ** The rows [create_join_and_save_timeseries_query] inserts *)

Lemma sql_order_by_Some_perm {value F R : Type} `{ValueOps value}
  (resolve : F -> option (R -> cell value)) (fields : list F)
  (rows out : list R) :
  sql_order_by resolve fields rows = Some out ->
  exists keys, fields <> []
               /\ all_some (map resolve fields) = Some keys
               /\ out = sort_by (lex_leb keys) rows
               /\ Permutation out rows.
Proof.
  unfold sql_order_by. destruct fields as [|f fs]; [discriminate|].
  destruct (all_some (map resolve (f :: fs))) as [keys|]; [|discriminate].
  intro E. inversion E; subst. exists keys.
  split; [discriminate|]. split; [reflexivity|]. split; [reflexivity|].
  apply sort_by_perm.
Qed.

Lemma NoDup_map_inj {A B : Type} (f : A -> B) (l : list A) (a b : A) :
  NoDup (map f l) -> In a l -> In b l -> f a = f b -> a = b.
Proof.
  induction l as [|x l IH]; cbn [map]; intros Hnd Ha Hb Hab; [destruct Ha|].
  inversion Hnd as [|? ? Hnot Hnd']; subst.
  destruct Ha as [->|Ha], Hb as [->|Hb].
  - reflexivity.
  - exfalso. apply Hnot. rewrite Hab. now apply in_map.
  - exfalso. apply Hnot. rewrite <- Hab. now apply in_map.
  - now apply IH.
Qed.

Section JoinRows.

Context {value : Type} `{ValueOps value}.

(** A row of the join pairs a row of the secondary series with a row of
    the primary series through an entry of the crosswalk. *)
Lemma initial_joined_In (files : parquet_files value)
  (jtq : JoinedTimeseriesQuery.t) (r : initial_joined_row value) :
  In r (initial_joined files jtq) <->
  exists sf cf pf,
    In sf (read_parquet files
             (filepath_str (JoinedTimeseriesQuery.secondary_filepath jtq)))
    /\ In cf (read_parquet_crosswalk files
                (filepath_str (JoinedTimeseriesQuery.crosswalk_filepath jtq)))
    /\ In pf (read_parquet files
                (filepath_str (JoinedTimeseriesQuery.primary_filepath jtq)))
    /\ cw_secondary_location_id cf = ts_location_id sf
    /\ cw_primary_location_id cf = ts_location_id pf
    /\ ts_value_time sf = ts_value_time pf
    /\ ts_measurement_unit sf = ts_measurement_unit pf
    /\ ts_variable_name sf = ts_variable_name pf
    /\ r = {| ij_reference_time := ts_reference_time sf;
              ij_value_time := ts_value_time sf;
              ij_secondary_location_id := ts_location_id sf;
              ij_secondary_value := ts_value sf;
              ij_configuration := ts_configuration sf;
              ij_measurement_unit := ts_measurement_unit sf;
              ij_primary_reference_time := ts_reference_time pf;
              ij_variable_name := ts_variable_name sf;
              ij_primary_value := ts_value pf;
              ij_primary_location_id := ts_location_id pf;
              ij_lead_time := (ts_value_time sf - ts_reference_time sf)%Z;
              ij_absolute_difference :=
                value_abs_diff (ts_value pf) (ts_value sf) |}.
Proof.
  unfold initial_joined. rewrite in_flat_map. split.
  - intros [sf [Hsf Hin]]. apply in_flat_map in Hin as [cf [Hcf Hin]].
    destruct (String.eqb (cw_secondary_location_id cf) (ts_location_id sf))
      eqn:E1; [|destruct Hin].
    apply in_flat_map in Hin as [pf [Hpf Hin]].
    match type of Hin with
    | In _ (if ?c then _ else _) => destruct c eqn:E2; [|destruct Hin]
    end.
    destruct Hin as [<-|[]].
    rewrite !andb_true_iff, Z.eqb_eq, !String.eqb_eq in E2.
    apply String.eqb_eq in E1.
    exists sf, cf, pf. tauto.
  - intros (sf & cf & pf & Hsf & Hcf & Hpf & E1 & E2 & E3 & E4 & E5 & ->).
    exists sf. split; [assumption|]. apply in_flat_map.
    exists cf. split; [assumption|].
    apply String.eqb_eq in E1. rewrite E1. apply in_flat_map.
    exists pf. split; [assumption|].
    assert (Hc : String.eqb (cw_primary_location_id cf) (ts_location_id pf)
                 && Z.eqb (ts_value_time sf) (ts_value_time pf)
                 && String.eqb (ts_measurement_unit sf)
                      (ts_measurement_unit pf)
                 && String.eqb (ts_variable_name sf) (ts_variable_name pf)
                 = true).
    { rewrite !andb_true_iff, Z.eqb_eq, !String.eqb_eq. tauto. }
    rewrite Hc. now left.
Qed.

Lemma joined_In (rows : list (initial_joined_row value))
  (o : joined_row value) :
  In o (joined rows) -> exists r, In r rows /\ o = project_joined r.
Proof.
  rewrite joined_unfold. intro Ho. apply in_map_iff in Ho as [a [Ha Hin]].
  apply filter_In in Hin as [Hin _]. exists (snd a). split; [|congruence].
  apply (in_map snd) in Hin. now rewrite indexed_snd in Hin.
Qed.

(** Without two rows of one key, no row comes before another row of its
    partition and the [joined] stage keeps every row. *)
Lemma joined_of_distinct_keys (rows : list (initial_joined_row value)) :
  NoDup (map partition_key rows) ->
  joined rows = map project_joined rows.
Proof.
  intro Hnd. rewrite joined_unfold.
  assert (Hind : NoDup (map (fun a => partition_key (snd a)) (indexed rows))).
  { rewrite <- (map_map snd partition_key), indexed_snd. exact Hnd. }
  rewrite (filter_ext_in _ (fun _ => true)).
  - rewrite filter_true_id, <- (map_map snd project_joined), indexed_snd.
    reflexivity.
  - intros a Ha. apply filter_length_0. intros b Hb.
    destruct (same_partition (snd b) (snd a)) eqn:Hs; [|reflexivity].
    apply same_partition_key in Hs.
    assert (b = a)
      by (apply (NoDup_map_inj (fun a => partition_key (snd a))
                   (indexed rows)); assumption).
    subst b. cbn [andb]. apply sorts_before_false. lia.
Qed.

End JoinRows.

(** X11. Every row the statement inserts pairs a row of the secondary
    series with a row of the primary series that an entry of the crosswalk
    links and that has the same value time, unit and variable; it carries
    the columns of the secondary row, the value and location of the primary
    row, a lead time equal to the value time minus the reference time, and
    the absolute difference of the two values: a secondary row without a
    crosswalk entry or without such a primary row contributes nothing. *)
Theorem inserted_rows_come_from_matching_pairs :
  forall (value : Type) (ops : ValueOps value)
         (files : parquet_files value) (jtq : JoinedTimeseriesQuery.t)
         (inserted : list (joined_row value)),
    join_and_save_timeseries files jtq = Some inserted ->
    forall o, In o inserted ->
      lead_time o = (value_time o - reference_time o)%Z
      /\ absolute_difference o
         = value_abs_diff (primary_value o) (secondary_value o)
      /\ exists sf cf pf,
           In sf (read_parquet files
                    (filepath_str
                       (JoinedTimeseriesQuery.secondary_filepath jtq)))
           /\ In cf (read_parquet_crosswalk files
                       (filepath_str
                          (JoinedTimeseriesQuery.crosswalk_filepath jtq)))
           /\ In pf (read_parquet files
                       (filepath_str
                          (JoinedTimeseriesQuery.primary_filepath jtq)))
           /\ cw_secondary_location_id cf = ts_location_id sf
           /\ cw_primary_location_id cf = ts_location_id pf
           /\ ts_value_time pf = ts_value_time sf
           /\ ts_measurement_unit pf = ts_measurement_unit sf
           /\ ts_variable_name pf = ts_variable_name sf
           /\ reference_time o = ts_reference_time sf
           /\ value_time o = ts_value_time sf
           /\ secondary_location_id o = ts_location_id sf
           /\ secondary_value o = ts_value sf
           /\ configuration o = ts_configuration sf
           /\ measurement_unit o = ts_measurement_unit sf
           /\ variable_name o = ts_variable_name sf
           /\ primary_value o = ts_value pf
           /\ primary_location_id o = ts_location_id pf.
Proof.
  intros value ops files jtq inserted Hrun o Ho.
  unfold join_and_save_timeseries in Hrun.
  apply sql_order_by_Some_perm in Hrun as [keys [_ [_ [_ Hperm]]]].
  apply (Permutation_in _ Hperm) in Ho.
  apply joined_In in Ho as [r [Hr ->]].
  apply initial_joined_In in Hr
    as (sf & cf & pf & Hsf & Hcf & Hpf & E1 & E2 & E3 & E4 & E5 & ->).
  cbn. split; [reflexivity|]. split; [reflexivity|].
  exists sf, cf, pf. repeat split; try assumption; try reflexivity;
    symmetry; assumption.
Qed.

Lemma inserted_rows_come_from_matching_pairs_witness :
  let o := {| reference_time := 0%Z; value_time := 3600%Z;
              secondary_location_id := "fcst-A"; secondary_value := 11%Z;
              configuration := "short_range"; measurement_unit := "m3/s";
              variable_name := "streamflow"; primary_value := 12%Z;
              primary_location_id := "gage-A"; lead_time := 3600%Z;
              absolute_difference := 1%Z |} in
  join_and_save_timeseries example_files example_joined_query = Some [o]
  /\ lead_time o = (value_time o - reference_time o)%Z
  /\ absolute_difference o
     = value_abs_diff (primary_value o) (secondary_value o).
Proof.
  intro o. split; [reflexivity|].
  destruct (inserted_rows_come_from_matching_pairs Z Z_ValueOps example_files
              example_joined_query [o] Logic.eq_refl o
              (or_introl Logic.eq_refl)) as [H1 [H2 _]].
  split; assumption.
Defined.

(** X12. When no two rows of the join have the same key, deduplication
    drops nothing: the inserted rows are the rows of the join, each once, in
    the order of [order_by]. *)
Theorem distinct_keys_insert_every_joined_row :
  forall (value : Type) (ops : ValueOps value)
         (files : parquet_files value) (jtq : JoinedTimeseriesQuery.t)
         (inserted : list (joined_row value)),
    NoDup (map partition_key (initial_joined files jtq)) ->
    join_and_save_timeseries files jtq = Some inserted ->
    Permutation inserted (map project_joined (initial_joined files jtq))
    /\ List.length inserted = List.length (initial_joined files jtq).
Proof.
  intros value ops files jtq inserted Hnd Hrun.
  unfold join_and_save_timeseries in Hrun.
  apply sql_order_by_Some_perm in Hrun as [keys [_ [_ [_ Hperm]]]].
  rewrite (joined_of_distinct_keys _ Hnd) in Hperm.
  split; [assumption|].
  rewrite (Permutation_length Hperm). apply length_map.
Qed.

Lemma distinct_keys_insert_every_joined_row_witness :
  exists inserted,
    join_and_save_timeseries example_three_member_files example_joined_query
    = Some inserted
    /\ List.length inserted = 3%nat.
Proof.
  eexists. split; [reflexivity|].
  apply (distinct_keys_insert_every_joined_row Z Z_ValueOps
           example_three_member_files example_joined_query).
  - vm_compute. repeat constructor; simpl; intuition discriminate.
  - reflexivity.
Defined.

(** ** The order of the inserted rows *)

Section LexOrder.

Context {value R : Type} `{ValueLaws value}.

Lemma cell_eqb_sym (a b : cell value) : cell_eqb a b = cell_eqb b a.
Proof.
  destruct (cell_eqb a b) eqn:Hab, (cell_eqb b a) eqn:Hba; try reflexivity.
  - apply cell_eqb_eq in Hab. subst b.
    assert (cell_eqb a a = true) by now apply cell_eqb_eq. congruence.
  - apply cell_eqb_eq in Hba. subst b.
    assert (cell_eqb a a = true) by now apply cell_eqb_eq. congruence.
Qed.

Lemma cell_leb_refl (a : cell value) : cell_leb a a = true.
Proof. destruct (cell_leb_total a a); assumption. Qed.

Lemma lex_leb_total (keys : list (R -> cell value)) (a b : R) :
  lex_leb keys a b = true \/ lex_leb keys b a = true.
Proof.
  induction keys as [|k ks IH]; cbn [lex_leb]; [now left|].
  rewrite (cell_eqb_sym (k b) (k a)).
  destruct (cell_eqb (k a) (k b)); [exact IH | apply cell_leb_total].
Qed.

(** Rows in lexicographic order are in order on the first key. *)
Lemma lex_leb_first (k : R -> cell value) (ks : list (R -> cell value))
  (a b : R) :
  lex_leb (k :: ks) a b = true -> cell_leb (k a) (k b) = true.
Proof.
  cbn [lex_leb]. destruct (cell_eqb (k a) (k b)) eqn:E; [|trivial].
  intros _. apply cell_eqb_eq in E. rewrite E. apply cell_leb_refl.
Qed.

End LexOrder.

Lemma Sorted_impl {A : Type} (P Q : A -> A -> Prop) (l : list A) :
  (forall a b, P a b -> Q a b) -> Sorted P l -> Sorted Q l.
Proof.
  intros Himp. induction 1 as [|a l Hs IH Hhd]; constructor; [assumption|].
  destruct Hhd; constructor. now apply Himp.
Qed.

(** X13. The rows the statement inserts are in the order of [order_by]:
    consecutive rows are in lexicographic order of the columns named, and
    the whole list is in ascending order of the first column named. *)
Theorem inserted_rows_are_ordered :
  forall (value : Type) (ops : ValueOps value),
    ValueLaws value ->
    forall (files : parquet_files value) (jtq : JoinedTimeseriesQuery.t)
           (inserted : list (joined_row value)),
      join_and_save_timeseries files jtq = Some inserted ->
      exists f rest c keys,
        JoinedTimeseriesQuery.order_by jtq = f :: rest
        /\ joined_field_column f = Some c
        /\ all_some (map resolve_joined_field
                       (JoinedTimeseriesQuery.order_by jtq))
           = Some (column_cell c :: keys)
        /\ Sorted (fun a b =>
                     lex_leb (column_cell c :: keys) a b = true) inserted
        /\ StronglySorted
             (fun a b => cell_leb (column_cell c a) (column_cell c b) = true)
             inserted.
Proof.
  intros value ops laws files jtq inserted Hrun.
  unfold join_and_save_timeseries in Hrun.
  apply sql_order_by_Some_perm in Hrun as [keys [Hne [Hkeys [-> _]]]].
  destruct (JoinedTimeseriesQuery.order_by jtq) as [|f rest]; [congruence|].
  pose proof Hkeys as Hkeys'.
  cbn [map all_some] in Hkeys'. unfold resolve_joined_field at 1 in Hkeys'.
  destruct (joined_field_column f) as [c|] eqn:Hc; [|discriminate].
  destruct (all_some (map resolve_joined_field rest)) as [ks|];
    [|discriminate].
  inversion Hkeys'; subst keys.
  exists f, rest, c, ks. split; [reflexivity|]. split; [exact Hc|].
  split; [exact Hkeys|].
  assert (Hs : Sorted (fun a b => lex_leb (column_cell c :: ks) a b = true)
                 (sort_by (lex_leb (column_cell c :: ks))
                    (joined (initial_joined files jtq)))).
  { apply sort_by_sorted. intros a b. apply lex_leb_total. }
  split; [exact Hs|].
  apply Sorted_StronglySorted.
  - intros x y z. apply cell_leb_trans.
  - eapply Sorted_impl; [|exact Hs]. intros a b. apply lex_leb_first.
Qed.

Lemma inserted_rows_are_ordered_witness :
  exists inserted,
    join_and_save_timeseries example_unordered_files example_ordered_query
    = Some inserted
    /\ map (fun o => (reference_time o, variable_name o, secondary_value o))
         (map project_joined
            (initial_joined example_unordered_files example_ordered_query))
       = [ (2400%Z, "streamflow", 14%Z); (1200%Z, "stage", 4%Z);
           (0%Z, "streamflow", 11%Z); (1200%Z, "streamflow", 9%Z) ]
    /\ map (fun o => (reference_time o, variable_name o, secondary_value o))
         inserted
       = [ (0%Z, "streamflow", 11%Z); (1200%Z, "stage", 4%Z);
           (1200%Z, "streamflow", 9%Z); (2400%Z, "streamflow", 14%Z) ]
    /\ exists f rest c keys,
         JoinedTimeseriesQuery.order_by example_ordered_query = f :: rest
         /\ joined_field_column f = Some c
         /\ all_some (map resolve_joined_field
                        (JoinedTimeseriesQuery.order_by example_ordered_query))
            = Some (column_cell (value := Z) c :: keys)
         /\ Sorted (fun a b => lex_leb (column_cell c :: keys) a b = true)
              inserted
         /\ StronglySorted
              (fun a b => cell_leb (column_cell c a) (column_cell c b) = true)
              inserted.
Proof.
  eexists. split; [reflexivity|]. split; [reflexivity|].
  split; [reflexivity|].
  apply (inserted_rows_are_ordered Z Z_ValueOps Z_ValueLaws
           example_unordered_files example_ordered_query).
  reflexivity.
Defined.

(** ** The select list of the metrics stage and the metrics *)

(** X14. The select list of the [metrics] stage calls one helper
    [_select_<metric>] for every member of [MetricEnum] except
    [annual_peak_relative_bias], calls nothing else and calls no helper
    twice; [annual_peak_relative_bias] has no select helper anywhere in the
    template and is served by [_annual_metrics_cte] and
    [_join_annual_metrics_cte]. *)
Theorem metrics_stage_selects_every_metric_once :
  (forall m : MetricEnum.t,
     m <> MetricEnum.annual_peak_relative_bias ->
     exists h, In h (template_calls metrics_stage_select)
               /\ helper_name h = ("_select_" ++ MetricEnum.value m)%string)
  /\ (forall h, In h (template_calls metrics_stage_select) ->
                exists m, m <> MetricEnum.annual_peak_relative_bias
                          /\ helper_name h
                             = ("_select_" ++ MetricEnum.value m)%string)
  /\ NoDup (template_calls metrics_stage_select)
  /\ NoDup (template_calls metrics_query_template)
  /\ (forall h, In h (template_calls metrics_query_template) ->
                helper_name h <> "_select_annual_peak_relative_bias")
  /\ In tqu._annual_metrics_cte (template_calls metrics_query_template)
  /\ In tqu._join_annual_metrics_cte (template_calls metrics_query_template).
Proof.
  split; [|split; [|split; [|split; [|split; [|split]]]]].
  - intros m Hm.
    assert (H : existsb
                  (fun h => String.eqb (helper_name h)
                              ("_select_" ++ MetricEnum.value m)%string)
                  (template_calls metrics_stage_select) = true)
      by (destruct m; try (exfalso; apply Hm; reflexivity);
          vm_compute; reflexivity).
    apply existsb_exists in H as [h [Hin Heq]].
    exists h. split; [exact Hin | now apply String.eqb_eq].
  - intros h Hh.
    assert (H : existsb
                  (fun m => String.eqb (helper_name h)
                              ("_select_" ++ MetricEnum.value m)%string
                            && negb (MetricEnum.eqb m
                                       MetricEnum.annual_peak_relative_bias))
                  MetricEnum.members = true)
      by (vm_compute in Hh;
          repeat (destruct Hh as [<-|Hh]; [vm_compute; reflexivity|]);
          destruct Hh).
    apply existsb_exists in H as [m [_ Hm]].
    apply andb_true_iff in Hm as [Heq Hne].
    exists m. split; [|now apply String.eqb_eq].
    intros ->. discriminate Hne.
  - vm_compute. repeat (constructor; [simpl; intuition discriminate|]).
    constructor.
  - vm_compute. repeat (constructor; [simpl; intuition discriminate|]).
    constructor.
  - intros h _. destruct h; discriminate.
  - vm_compute. tauto.
  - vm_compute. tauto.
Qed.

(** ** Chunks of reference files *)

Lemma list_sum_repeat (a m : nat) : list_sum (repeat a m) = (m * a)%nat.
Proof.
  induction m as [|m IH]; [reflexivity|].
  cbn [repeat]. unfold list_sum in *. cbn [fold_right]. rewrite IH. lia.
Qed.

Lemma section_sizes_sum (n k : nat) :
  (0 < k)%nat -> list_sum (section_sizes n k) = n.
Proof.
  intro Hk. unfold section_sizes.
  rewrite list_sum_app, !list_sum_repeat.
  pose proof (Nat.div_mod_eq n k) as Hdm.
  pose proof (Nat.mod_upper_bound n k ltac:(lia)) as Hlt.
  nia.
Qed.

Lemma section_sizes_length (n k : nat) :
  (0 < k)%nat -> List.length (section_sizes n k) = k.
Proof.
  intro Hk. unfold section_sizes. rewrite length_app, !repeat_length.
  pose proof (Nat.mod_upper_bound n k ltac:(lia)). lia.
Qed.

Lemma section_sizes_In (n k s : nat) :
  In s (section_sizes n k) ->
  s = (n / k)%nat \/ (s = S (n / k) /\ (0 < n mod k)%nat).
Proof.
  unfold section_sizes. rewrite in_app_iff. intros [Hs|Hs].
  - right. split; [now apply repeat_spec in Hs|].
    destruct (n mod k)%nat; [destruct Hs | lia].
  - left. now apply repeat_spec in Hs.
Qed.

Lemma split_sizes_spec {A : Type} (sizes : list nat) (l : list A) :
  list_sum sizes = List.length l ->
  List.concat (split_sizes sizes l) = l
  /\ map (@List.length A) (split_sizes sizes l) = sizes.
Proof.
  revert l. induction sizes as [|s sizes IH]; intros l Hsum.
  - cbn in *. symmetry in Hsum. apply length_zero_iff_nil in Hsum.
    now subst.
  - unfold list_sum in Hsum. cbn [fold_right] in Hsum.
    fold (list_sum sizes) in Hsum.
    cbn [split_sizes List.concat map].
    destruct (IH (skipn s l)) as [IH1 IH2].
    { rewrite length_skipn. lia. }
    rewrite IH1, IH2, firstn_skipn, length_firstn. split; [reflexivity|].
    f_equal. lia.
Qed.

(** The bounds on the size of a section when the number of sections is the
    quotient of the number of files by the step. *)
Lemma section_size_bounds (n s : nat) :
  (0 < s <= n)%nat ->
  (s <= n / (n / s))%nat
  /\ (n / (n / s) < 2 * s)%nat
  /\ ((0 < n mod (n / s))%nat -> (S (n / (n / s)) < 2 * s)%nat).
Proof.
  intros [Hs Hn].
  pose proof (Nat.div_mod_eq n s) as E1.
  pose proof (Nat.mod_upper_bound n s ltac:(lia)) as B1.
  assert (Hk : (0 < n / s)%nat) by (apply Nat.div_str_pos; lia).
  pose proof (Nat.div_mod_eq n (n / s)) as E2.
  pose proof (Nat.mod_upper_bound n (n / s) ltac:(lia)) as B2.
  set (k := (n / s)%nat) in *. set (r := (n mod s)%nat) in *.
  set (q := (n / k)%nat) in *. set (m := (n mod k)%nat) in *.
  split; [|split]; [nia | nia | intro Hm; nia].
Qed.

(** X15. For a positive [stepsize] the reference files are split into
    chunks that, put end to end, are the files in their order: every file is
    processed once.  With fewer files than [stepsize] there is one chunk;
    otherwise there are [size / stepsize] chunks (rounded down) and each
    holds at least [stepsize] and fewer than twice [stepsize] files. *)
Theorem chunk_by_stepsize_covers_files :
  forall (A : Type) (df_refs : list A) (stepsize : Z),
    (0 < stepsize)%Z ->
    exists chunks,
      chunk_by_stepsize df_refs stepsize = inr chunks
      /\ List.concat chunks = df_refs
      /\ ((Z.of_nat (List.length df_refs) < stepsize)%Z ->
          chunks = [df_refs])
      /\ ((stepsize <= Z.of_nat (List.length df_refs))%Z ->
          Z.of_nat (List.length chunks)
          = (Z.of_nat (List.length df_refs) / stepsize)%Z
          /\ forall c, In c chunks ->
                       (stepsize <= Z.of_nat (List.length c) < 2 * stepsize)%Z).
Proof.
  intros A l stepsize Hpos. unfold chunk_by_stepsize, num_partitions.
  set (n := List.length l).
  destruct (Z.gtb stepsize (Z.of_nat n)) eqn:Hgt.
  - apply Z.gtb_lt in Hgt. unfold array_split. cbn [Z.leb Z.compare Z.to_nat].
    change (Pos.to_nat 1) with 1%nat.
    assert (Hsz : section_sizes n 1 = [n]).
    { unfold section_sizes. rewrite Nat.mod_1_r, Nat.div_1_r. reflexivity. }
    fold n. rewrite Hsz. cbn [split_sizes].
    assert (Hfirst : firstn n l = l) by (apply firstn_all).
    rewrite Hfirst. exists [l]. split; [reflexivity|].
    split; [cbn; apply app_nil_r|]. split; [reflexivity | lia].
  - rewrite Z.gtb_ltb in Hgt. apply Z.ltb_ge in Hgt.
    assert (Hz : Z.eqb stepsize 0 = false) by (apply Z.eqb_neq; lia).
    rewrite Hz. unfold array_split.
    set (s := Z.to_nat stepsize).
    assert (Hs : (0 < s <= n)%nat) by (unfold s; lia).
    assert (Hquot : Z.quot (Z.of_nat n) stepsize = Z.of_nat (n / s)).
    { rewrite Z.quot_div_nonneg by lia.
      replace stepsize with (Z.of_nat s) by (unfold s; lia).
      now rewrite <- Nat2Z.inj_div. }
    rewrite Hquot.
    assert (Hk : (0 < n / s)%nat) by (apply Nat.div_str_pos; lia).
    assert (Hle : Z.leb (Z.of_nat (n / s)) 0 = false)
      by (apply Z.leb_gt; lia).
    rewrite Hle, Nat2Z.id. fold n.
    destruct (split_sizes_spec (section_sizes n (n / s)) l) as [Hc Hl].
    { now apply section_sizes_sum. }
    eexists. split; [reflexivity|]. split; [exact Hc|].
    split; [lia|]. intros _. split.
    + rewrite <- (length_map (@List.length A)), Hl,
        (section_sizes_length n (n / s) Hk), Nat2Z.inj_div.
      f_equal. unfold s. lia.
    + intros c Hc'.
      assert (Hin : In (List.length c) (section_sizes n (n / s)))
        by (rewrite <- Hl; now apply in_map).
      destruct (section_size_bounds n s Hs) as [B1 [B2 B3]].
      apply section_sizes_In in Hin as [->|[-> Hm]].
      * unfold s in *. lia.
      * specialize (B3 Hm). unfold s in *. lia.
Qed.

Lemma chunk_by_stepsize_covers_files_witness :
  exists chunks,
    chunk_by_stepsize [1; 2; 3; 4; 5; 6; 7]%nat 3
    = inr chunks
    /\ List.concat chunks = [1; 2; 3; 4; 5; 6; 7]%nat.
Proof.
  destruct (chunk_by_stepsize_covers_files nat [1; 2; 3; 4; 5; 6; 7]%nat 3
              ltac:(lia)) as [chunks [H1 [H2 _]]].
  exists chunks. split; assumption.
Defined.

(** X16. A [stepsize] that is not positive never yields chunks: zero stops
    at the division ([ZeroDivisionError]) and a negative value asks
    [array_split] for no section or fewer ([ValueError]), whatever the list
    of files is. *)
Theorem chunk_by_stepsize_rejects_nonpositive :
  forall (A : Type) (df_refs : list A) (stepsize : Z),
    (stepsize = 0%Z -> chunk_by_stepsize df_refs stepsize
                       = inl ZeroDivisionError)
    /\ ((stepsize < 0)%Z -> chunk_by_stepsize df_refs stepsize
                            = inl ArraySplitValueError).
Proof.
  intros A l stepsize. unfold chunk_by_stepsize, num_partitions. split.
  - intros ->.
    assert (Hgt : Z.gtb 0 (Z.of_nat (List.length l)) = false).
    { rewrite Z.gtb_ltb. apply Z.ltb_ge. lia. }
    rewrite Hgt. reflexivity.
  - intro Hneg.
    assert (Hgt : Z.gtb stepsize (Z.of_nat (List.length l)) = false).
    { rewrite Z.gtb_ltb. apply Z.ltb_ge. lia. }
    assert (Hz : Z.eqb stepsize 0 = false) by (apply Z.eqb_neq; lia).
    rewrite Hgt, Hz. unfold array_split.
    assert (Hq : (Z.quot (Z.of_nat (List.length l)) stepsize <= 0)%Z).
    { rewrite <- (Z.opp_involutive stepsize), Z.quot_opp_r by lia.
      pose proof (Z.quot_pos (Z.of_nat (List.length l)) (- stepsize)).
      lia. }
    apply Z.leb_le in Hq. rewrite Hq. reflexivity.
Qed.

Lemma chunk_by_stepsize_rejects_nonpositive_witness :
  chunk_by_stepsize [1; 2; 3]%nat 0 = inl ZeroDivisionError
  /\ chunk_by_stepsize [1; 2; 3]%nat (-2) = inl ArraySplitValueError.
Proof.
  split.
  - apply (proj1 (chunk_by_stepsize_rejects_nonpositive nat [1; 2; 3]%nat 0)).
    reflexivity.
  - apply (proj2 (chunk_by_stepsize_rejects_nonpositive nat [1; 2; 3]%nat
                    (-2))).
    lia.
Defined.

(** ** The grid configuration model *)

Lemma find_value_eq {E : Type} (value : E -> string) (members : list E)
  (s : string) (m : E) :
  find (fun x => String.eqb (value x) s) members = Some m -> value m = s.
Proof. intro H. apply find_some in H as [_ H]. now apply String.eqb_eq. Qed.

Lemma run_validation_inr {A : Type} (v : validation A) (a : A) :
  run_validation v = inr a -> snd v = Some a.
Proof.
  destruct v as [errs [x|]]; unfold run_validation, ret, raise; cbn;
    congruence.
Qed.

Lemma run_validation_inl {A : Type} (v : validation A) (e : exn) :
  run_validation v = inl e -> exists errors, e = ValidationError errors.
Proof.
  destruct v as [errs [x|]]; unfold run_validation, ret, raise;
    [discriminate|].
  intro H. exists errs. congruence.
Qed.

Lemma grid_inner_display (output_type variable_name : string) :
  output_type <> "output_type" ->
  dict_display [ ("output_type", PStr output_type);
                 (output_type, PStr variable_name) ]
  = [ ("output_type", PStr output_type); (output_type, PStr variable_name) ].
Proof.
  intro H. unfold dict_display. cbn [fold_left dict_set fst snd].
  destruct (String.eqb "output_type" output_type) eqn:E; [|reflexivity].
  apply String.eqb_eq in E. symmetry in E. contradiction.
Qed.

Ltac grid_compute :=
  cbv -[LandAssimVariablesEnum.of_value LandShortVariablesEnum.of_value
        LandMediumVariablesEnum.of_value LandLongVariablesEnum.of_value
        ForcingVariablesEnum.of_value
        LandAssimVariablesEnum.name LandShortVariablesEnum.name
        LandMediumVariablesEnum.name LandLongVariablesEnum.name
        ForcingVariablesEnum.name].

(** A request the annotations admit is validated, and the script reads the
    three inputs back. *)
Lemma grid_accepted_round_trip (configuration output_type variable : string) :
  grid_accepted configuration output_type variable = true ->
  grid_main configuration output_type variable
  = inr (configuration, output_type, variable).
Proof.
  unfold grid_accepted. intro H.
  destruct (ConfigurationsEnum.of_value configuration) as [c|] eqn:Hc;
    [|discriminate].
  apply find_value_eq in Hc. subst configuration.
  apply andb_true_iff in H as [Ho Hv].
  destruct c; cbn [field_model is_output_type is_variable] in Ho, Hv;
    match type of Ho with
    | is_some (?f _) = true =>
        let ot := fresh "ot" in
        let Eo := fresh "Eo" in
        destruct (f output_type) as [ot|] eqn:Eo; [|discriminate Ho];
        apply find_value_eq in Eo; subst output_type; destruct ot
    end;
    match type of Hv with
    | is_some (?f _) = true =>
        let m := fresh "m" in
        let Ev := fresh "Ev" in
        destruct (f variable) as [m|] eqn:Ev; [|discriminate Hv];
        grid_compute; rewrite Ev; grid_compute;
        apply find_value_eq in Ev; subst variable;
        destruct m; reflexivity
    end.
Qed.

Lemma vap_None_l {A B : Type} (f : validation (A -> B)) (x : validation A) :
  snd f = None -> snd (f <*> x) = None.
Proof. unfold vap. cbn [snd]. now intros ->. Qed.

(** A validated request names a member of [ConfigurationsEnum]. *)
Lemma grid_validated_configuration (configuration : string) (inner : pydict)
  (cm : GridConfigurationModel.t) :
  GridConfigurationModel.model_validate
    (dict_display [ ("configuration", PStr configuration);
                    (configuration, PDict inner) ]) = inr cm ->
  exists c, ConfigurationsEnum.of_value configuration = Some c.
Proof.
  unfold dict_display. cbn [fold_left dict_set fst snd].
  destruct (String.eqb "configuration" configuration) eqn:E; intro H.
  - vm_compute in H. discriminate H.
  - destruct (ConfigurationsEnum.of_value configuration) as [c|] eqn:Hc;
      [now exists c|].
    apply run_validation_inr in H.
    assert (Hnone : snd (GridConfigurationModel.validate
                           [ ("configuration", PStr configuration);
                             (configuration, PDict inner) ]) = None).
    { unfold GridConfigurationModel.validate.
      do 35 apply vap_None_l.
      unfold vap, required_enum. cbn [dict_get].
      rewrite String.eqb_refl, Hc. reflexivity. }
    congruence.
Qed.

Ltac grid_block_in H :=
  cbv -[ShortAndAnalysisOutputEnum.of_value MediumOutputEnum.of_value
        LongOutputEnum.of_value ForcingOutputEnum.of_value
        LandAssimVariablesEnum.of_value LandShortVariablesEnum.of_value
        LandMediumVariablesEnum.of_value LandLongVariablesEnum.of_value
        ForcingVariablesEnum.of_value] in H.

(** What a validated dictionary [{"output_type": o, o: v}] says of [o] and
    [v], for each of the five models. *)
Ltac inner_accepts of_output of_variable :=
  intros o v x Hneq H; cbn [is_output_type is_variable];
  destruct (of_output o) as [ot|] eqn:Eo;
  [ apply find_value_eq in Eo; subst o; destruct ot;
    grid_block_in H;
    (destruct (of_variable v) as [m|]; [reflexivity|discriminate H])
  | grid_block_in H; rewrite Eo in H; cbv in H; discriminate H ].

Lemma Analysis_validate_accepts :
  forall (o v : string) (x : Analysis.t),
    o <> "output_type" ->
    snd (Analysis.validate [("output_type", PStr o); (o, PStr v)]) = Some x ->
    is_output_type ModelAnalysis o && is_variable ModelAnalysis v = true.
Proof.
  inner_accepts ShortAndAnalysisOutputEnum.of_value
                LandAssimVariablesEnum.of_value.
Qed.

Lemma ShortRange_validate_accepts :
  forall (o v : string) (x : ShortRange.t),
    o <> "output_type" ->
    snd (ShortRange.validate [("output_type", PStr o); (o, PStr v)]) = Some x ->
    is_output_type ModelShortRange o && is_variable ModelShortRange v = true.
Proof.
  inner_accepts ShortAndAnalysisOutputEnum.of_value
                LandShortVariablesEnum.of_value.
Qed.

Lemma MediumRange_validate_accepts :
  forall (o v : string) (x : MediumRange.t),
    o <> "output_type" ->
    snd (MediumRange.validate [("output_type", PStr o); (o, PStr v)]) = Some x ->
    is_output_type ModelMediumRange o && is_variable ModelMediumRange v = true.
Proof.
  inner_accepts MediumOutputEnum.of_value LandMediumVariablesEnum.of_value.
Qed.

Lemma LongRange_validate_accepts :
  forall (o v : string) (x : LongRange.t),
    o <> "output_type" ->
    snd (LongRange.validate [("output_type", PStr o); (o, PStr v)]) = Some x ->
    is_output_type ModelLongRange o && is_variable ModelLongRange v = true.
Proof.
  inner_accepts LongOutputEnum.of_value LandLongVariablesEnum.of_value.
Qed.

Lemma Forcing_validate_accepts :
  forall (o v : string) (x : Forcing.t),
    o <> "output_type" ->
    snd (Forcing.validate [("output_type", PStr o); (o, PStr v)]) = Some x ->
    is_output_type ModelForcing o && is_variable ModelForcing v = true.
Proof.
  inner_accepts ForcingOutputEnum.of_value ForcingVariablesEnum.of_value.
Qed.

Ltac grid_outer_in H :=
  cbv -[Analysis.validate ShortRange.validate MediumRange.validate
        LongRange.validate Forcing.validate] in H.

(** A validated request is one the annotations admit, unless its output
    type is the key [output_type] itself. *)
Lemma grid_validated_accepted (configuration output_type variable : string)
  (cm : GridConfigurationModel.t) :
  output_type <> "output_type" ->
  GridConfigurationModel.model_validate
    (grid_vars configuration output_type variable) = inr cm ->
  grid_accepted configuration output_type variable = true.
Proof.
  intros Hneq H. unfold grid_vars in H.
  rewrite (grid_inner_display _ variable Hneq) in H.
  destruct (grid_validated_configuration _ _ _ H) as [c Hc].
  unfold grid_accepted. rewrite Hc.
  apply find_value_eq in Hc. subst configuration.
  remember [("output_type", PStr output_type); (output_type, PStr variable)]
    as inner eqn:Hinner.
  destruct c; grid_outer_in H;
    match type of H with
    | context [?validate inner] =>
        let errs := fresh "errs" in
        let x := fresh "x" in
        let E := fresh "E" in
        destruct (validate inner) as [errs [x|]] eqn:E;
        [ apply (f_equal snd) in E; cbn [snd] in E; subst inner
        | cbv in H; discriminate H ]
    end;
    cbn [field_model];
    eauto using Analysis_validate_accepts, ShortRange_validate_accepts,
      MediumRange_validate_accepts, LongRange_validate_accepts,
      Forcing_validate_accepts.
Qed.

(** X17. For a request assembled from a configuration, an output type
    other than the key [output_type], and a variable name: when the
    configuration is a member of [ConfigurationsEnum] and the output type and
    the variable are values of the enumerations of the model of its field,
    the request is validated and the script reads the same three strings
    back from the model; otherwise validation fails with a
    [ValidationError].  No such request ends in an [AttributeError]. *)
Theorem grid_request_round_trip :
  forall configuration output_type variable_name : string,
    output_type <> "output_type" ->
    (grid_accepted configuration output_type variable_name = true ->
     grid_main configuration output_type variable_name
     = inr (configuration, output_type, variable_name))
    /\ (grid_accepted configuration output_type variable_name = false ->
        exists errors,
          grid_main configuration output_type variable_name
          = inl (Raised (ValidationError errors))).
Proof.
  intros c o v Hneq. split; [apply grid_accepted_round_trip|].
  intro Hacc. unfold grid_main.
  destruct (GridConfigurationModel.model_validate (grid_vars c o v))
    as [e|cm] eqn:Hm.
  - apply run_validation_inl in Hm as [errors ->]. now exists errors.
  - apply (grid_validated_accepted _ _ _ _ Hneq) in Hm. congruence.
Qed.

Lemma grid_request_round_trip_witness :
  grid_main "forcing_medium_range" "forcing" "RAINRATE"
  = inr ("forcing_medium_range", "forcing", "RAINRATE")
  /\ exists errors,
       grid_main "forcing_medium_range" "land" "RAINRATE"
       = inl (Raised (ValidationError errors)).
Proof.
  split.
  - apply (grid_request_round_trip
             "forcing_medium_range" "forcing" "RAINRATE");
      [discriminate | reflexivity].
  - apply (grid_request_round_trip "forcing_medium_range" "land" "RAINRATE");
      [discriminate | reflexivity].
Defined.

Lemma grid_output_type_key_AttributeError (configuration variable : string)
  (cm : GridConfigurationModel.t) :
  GridConfigurationModel.model_validate
    (grid_vars configuration "output_type" variable) = inr cm ->
  grid_main configuration "output_type" variable
  = inl (AttributeError "NoneType" "name").
Proof.
  intro H.
  destruct (grid_validated_configuration _ _ _ H) as [c Hc].
  apply find_value_eq in Hc. subst configuration.
  destruct c; grid_block_in H;
    match type of H with
    | context [?of_value variable] =>
        let ot := fresh "ot" in
        let Ev := fresh "Ev" in
        destruct (of_value variable) as [ot|] eqn:Ev;
        [ apply find_value_eq in Ev; subst variable; destruct ot;
          vm_compute; reflexivity
        | cbv in H; discriminate H ]
    end.
Qed.

(** X18. When the output type given is the string [output_type], the
    dictionary of the forecast holds the one key [output_type], with the
    variable name as its value: the script never reads three strings back,
    and a request that is validated all the same ends in the
    [AttributeError] of reading [name] from [None]. *)
Theorem grid_output_type_key_never_read_back :
  forall configuration variable_name : string,
    (forall r, grid_main configuration "output_type" variable_name <> inr r)
    /\ (forall cm,
          GridConfigurationModel.model_validate
            (grid_vars configuration "output_type" variable_name) = inr cm ->
          grid_main configuration "output_type" variable_name
          = inl (AttributeError "NoneType" "name")).
Proof.
  intros c v. split; [|apply grid_output_type_key_AttributeError].
  intros r Hr.
  destruct (GridConfigurationModel.model_validate
              (grid_vars c "output_type" v)) as [e|cm] eqn:Hm.
  - unfold grid_main in Hr. rewrite Hm in Hr. discriminate Hr.
  - apply grid_output_type_key_AttributeError in Hm. congruence.
Qed.

Lemma grid_output_type_key_never_read_back_witness :
  grid_main "forcing_medium_range" "output_type" "forcing"
  = inl (AttributeError "NoneType" "name").
Proof.
  eapply (proj2 (grid_output_type_key_never_read_back
                   "forcing_medium_range" "forcing")).
  vm_compute. reflexivity.
Defined.

(** X19. [GridConfigurationModel] has a field [medium_range_no_da], and
    [ConfigurationsEnum] has no member of that name: a request for the
    configuration [medium_range_no_da] is refused with a [ValidationError]
    whatever its output type and variable are, and in the model of every
    request that is validated the field is [None]. *)
Theorem grid_medium_range_no_da_never_set :
  (forall cm, grid_getattr cm "medium_range_no_da"
              = Some (AttrMediumRange
                        (GridConfigurationModel.medium_range_no_da cm)))
  /\ (forall output_type variable_name,
        exists errors,
          grid_main "medium_range_no_da" output_type variable_name
          = inl (Raised (ValidationError errors)))
  /\ (forall configuration output_type variable_name cm,
        GridConfigurationModel.model_validate
          (grid_vars configuration output_type variable_name) = inr cm ->
        GridConfigurationModel.medium_range_no_da cm = None).
Proof.
  split; [reflexivity|]. split.
  - intros o v. unfold grid_main.
    destruct (GridConfigurationModel.model_validate
                (grid_vars "medium_range_no_da" o v)) as [e|cm] eqn:Hm.
    + apply run_validation_inl in Hm as [errors ->]. now exists errors.
    + destruct (grid_validated_configuration _ _ _ Hm) as [c Hc].
      vm_compute in Hc. discriminate Hc.
  - intros c o v cm H. unfold grid_vars in H.
    remember (dict_display [("output_type", PStr o); (o, PStr v)])
      as inner eqn:Hinner.
    clear Hinner.
    destruct (grid_validated_configuration _ _ _ H) as [cc Hc].
    apply find_value_eq in Hc. subst c.
    destruct cc; grid_outer_in H;
      match type of H with
      | context [?validate inner] =>
          let errs := fresh "errs" in
          let x := fresh "x" in
          destruct (validate inner) as [errs [x|]];
          cbv in H; [|discriminate H]
      end;
      injection H as <-; reflexivity.
Qed.

(** ** Processing the chunks of reference files *)

(** The chunks of a split that succeeds are not empty as a list and, put
    end to end, are the files. *)
Lemma chunk_by_stepsize_concat {A : Type} (l : list A) (stepsize : Z)
  (chunks : list (list A)) :
  chunk_by_stepsize l stepsize = inr chunks ->
  List.concat chunks = l /\ chunks <> [].
Proof.
  unfold chunk_by_stepsize, num_partitions, array_split.
  set (n := List.length l).
  assert (Hsplit : forall k : Z,
             (0 < k)%Z ->
             List.concat (split_sizes (section_sizes n (Z.to_nat k)) l) = l
             /\ split_sizes (section_sizes n (Z.to_nat k)) l <> []).
  { intros k Hk.
    assert (Hk' : (0 < Z.to_nat k)%nat) by lia.
    destruct (split_sizes_spec (section_sizes n (Z.to_nat k)) l) as [Hc Hl].
    { now apply section_sizes_sum. }
    split; [exact Hc|]. intro Hnil.
    apply (f_equal (@List.length nat)) in Hl.
    rewrite length_map, Hnil, (section_sizes_length n _ Hk') in Hl.
    cbn in Hl. lia. }
  destruct (Z.gtb stepsize (Z.of_nat n)).
  - cbn [Z.leb Z.compare]. intro H. injection H as <-.
    apply (Hsplit 1%Z). lia.
  - destruct (Z.eqb stepsize 0); [discriminate|].
    destruct (Z.leb (Z.quot (Z.of_nat n) stepsize) 0) eqn:Hle;
      [discriminate|].
    intro H. injection H as <-. apply Hsplit. now apply Z.leb_gt.
Qed.

Lemma chunk_by_stepsize_succeeds {A : Type} (l : list A) (stepsize : Z) :
  (0 < stepsize)%Z -> exists chunks, chunk_by_stepsize l stepsize = inr chunks.
Proof.
  intro Hpos. unfold chunk_by_stepsize, num_partitions, array_split.
  destruct (Z.gtb stepsize (Z.of_nat (List.length l))) eqn:Hgt.
  - cbn [Z.leb Z.compare]. eexists. reflexivity.
  - rewrite Z.gtb_ltb in Hgt. apply Z.ltb_ge in Hgt.
    assert (Hz : Z.eqb stepsize 0 = false) by (apply Z.eqb_neq; lia).
    rewrite Hz.
    assert (Hq : (0 < Z.quot (Z.of_nat (List.length l)) stepsize)%Z).
    { rewrite Z.quot_div_nonneg by lia. apply Z.div_str_pos. lia. }
    apply Z.leb_gt in Hq. rewrite Hq. eexists. reflexivity.
Qed.

Lemma same_day_z_hour_key (a b : ref_row) :
  same_day_z_hour a b = true
  <-> (ref_day a, ref_z_hour a) = (ref_day b, ref_z_hour b).
Proof.
  unfold same_day_z_hour. rewrite andb_true_iff, !String.eqb_eq.
  split; [intros [-> ->]; reflexivity | intro H; now inversion H].
Qed.

(** Every row of [df_refs] is in one frame of the grouping and one only. *)
Lemma groupby_day_z_hour_partition (df_refs : list ref_row) :
  Permutation (List.concat (groupby_day_z_hour df_refs)) df_refs.
Proof.
  unfold groupby_day_z_hour. rewrite <- flat_map_concat_map.
  rewrite (Permutation_flat_map snd (sort_by_perm _ _)).
  rewrite flat_map_concat_map. symmetry.
  apply (group_by_partition (fun r => (ref_day r, ref_z_hour r))).
  apply same_day_z_hour_key.
Qed.

Section ProcessChunksFacts.

Context {table_row : Type} (file_chunk_loop : ref_row -> option (list table_row)).

Lemma concat_tables_app (o1 o2 : list (option (list table_row))) :
  concat_tables (o1 ++ o2) = concat_tables o1 ++ concat_tables o2.
Proof.
  induction o1 as [|[t|] o1 IH]; cbn [app concat_tables];
    [reflexivity | now rewrite IH, app_assoc | exact IH].
Qed.

Lemma concat_tables_concat (dfs : list (list ref_row)) :
  List.concat (map (fun df => concat_tables (map file_chunk_loop df)) dfs)
  = concat_tables (map file_chunk_loop (List.concat dfs)).
Proof.
  induction dfs as [|df dfs IH]; cbn [map List.concat]; [reflexivity|].
  now rewrite map_app, concat_tables_app, IH.
Qed.

Lemma concat_tables_perm (l l' : list ref_row) :
  Permutation l l' ->
  Permutation (concat_tables (map file_chunk_loop l))
    (concat_tables (map file_chunk_loop l')).
Proof.
  induction 1 as [|x l l' _ IH|x y l|l l' l'' _ IH1 _ IH2];
    cbn [map concat_tables].
  - constructor.
  - destruct (file_chunk_loop x); [now apply Permutation_app_head | exact IH].
  - destruct (file_chunk_loop x), (file_chunk_loop y); try reflexivity.
    rewrite !app_assoc. apply Permutation_app_tail, Permutation_app_comm.
  - now rewrite IH1.
Qed.

Lemma existsb_truthy_rows (output : list (option (list table_row))) :
  existsb table_truthy output = true -> concat_tables output <> [].
Proof.
  induction output as [|[[|x t]|] output IH]; cbn [existsb table_truthy orb
                                                   concat_tables app];
    [discriminate | exact IH | discriminate | exact IH].
Qed.

(** A chunk none of whose files gives a row is not written. *)
Lemma process_chunk_of_files_nothing_found (df : list ref_row)
  (process_by_z_hour : bool) :
  (forall r, In r df -> table_truthy (file_chunk_loop r) = false) ->
  process_chunk_of_files file_chunk_loop df process_by_z_hour
  = inl FileNotFoundError.
Proof.
  intro Hall. unfold process_chunk_of_files.
  assert (Hex : existsb table_truthy (map file_chunk_loop df) = false).
  { induction df as [|r df IH]; [reflexivity|].
    cbn [map existsb]. rewrite (Hall r (or_introl Logic.eq_refl)).
    apply IH. intros r' Hr'. apply Hall. now right. }
  now rewrite Hex.
Qed.

(** What a loop that ran to its end has written. *)
Lemma process_chunks_completed (dfs : list (list ref_row))
  (process_by_z_hour : bool) :
  snd (process_chunks file_chunk_loop dfs process_by_z_hour) = None ->
  map snd (fst (process_chunks file_chunk_loop dfs process_by_z_hour))
  = map (fun df => concat_tables (map file_chunk_loop df)) dfs
  /\ map (fun w => inr (fst w))
       (fst (process_chunks file_chunk_loop dfs process_by_z_hour))
     = map (fun df => chunk_filename df process_by_z_hour) dfs
  /\ forall w,
       In w (fst (process_chunks file_chunk_loop dfs process_by_z_hour)) ->
       snd w <> [].
Proof.
  induction dfs as [|df dfs IH]; cbn [process_chunks].
  - intros _. cbn. repeat split. intros w [].
  - unfold process_chunk_of_files at 1 2 3 4.
    destruct (existsb table_truthy (map file_chunk_loop df)) eqn:Hex;
      cbn [negb]; [|discriminate].
    destruct (chunk_filename df process_by_z_hour) as [e|filename] eqn:Hn;
      [discriminate|].
    cbn [fst snd map]. intro Hrest. destruct (IH Hrest) as (IH1 & IH2 & IH3).
    rewrite IH1, IH2, Hn. split; [reflexivity|]. split; [reflexivity|].
    intros w [<-|Hw]; [|now apply IH3].
    cbn [snd]. now apply existsb_truthy_rows.
Qed.

End ProcessChunksFacts.

(** X20. When no reference file gives a row (every file is missing or
    empty), nothing is written.  Splitting by [stepsize] the run stops with
    [FileNotFoundError], also for an empty list of files; grouping by day
    and z-hour it stops with [FileNotFoundError] unless the list of files is
    empty, in which case it ends without an error. *)
Theorem no_file_found_writes_nothing :
  forall (table_row : Type)
         (file_chunk_loop : ref_row -> option (list table_row))
         (df_refs : list ref_row) (process_by_z_hour : bool) (stepsize : Z),
    (forall r, In r df_refs -> table_truthy (file_chunk_loop r) = false) ->
    (process_by_z_hour = false -> (0 < stepsize)%Z) ->
    fetch_and_format_nwm_points file_chunk_loop df_refs process_by_z_hour
      stepsize
    = ([], match process_by_z_hour, df_refs with
           | true, [] => None
           | _, _ => Some FileNotFoundError
           end).
Proof.
  intros table_row f df_refs pbz stepsize Hall Hstep.
  unfold fetch_and_format_nwm_points.
  assert (Hfirst : forall (dfs : list (list ref_row)),
             dfs <> [] ->
             (forall r, In r (List.concat dfs) -> In r df_refs) ->
             process_chunks f dfs pbz = ([], Some FileNotFoundError)).
  { intros [|df dfs] Hne Hin; [congruence|].
    cbn [process_chunks].
    rewrite process_chunk_of_files_nothing_found; [reflexivity|].
    intros r Hr. apply Hall, Hin. cbn [List.concat].
    apply in_or_app. now left. }
  destruct pbz.
  - destruct df_refs as [|r0 rest]; [reflexivity|].
    pose proof (groupby_day_z_hour_partition (r0 :: rest)) as Hp.
    apply Hfirst.
    + intro Hnil. rewrite Hnil in Hp. cbn in Hp.
      apply Permutation_nil in Hp. discriminate Hp.
    + intros r Hr. exact (Permutation_in r Hp Hr).
  - destruct (chunk_by_stepsize_succeeds df_refs stepsize
                (Hstep Logic.eq_refl)) as [chunks Hc].
    destruct (chunk_by_stepsize_concat _ _ _ Hc) as [Hcat Hne].
    rewrite Hc.
    rewrite (Hfirst chunks Hne); [now destruct df_refs|].
    intros r Hr. now rewrite Hcat in Hr.
Qed.

Lemma no_file_found_writes_nothing_witness :
  fetch_and_format_nwm_points (fun _ : ref_row => @None (list Z))
    example_refs false 2
  = ([], Some FileNotFoundError)
  /\ fetch_and_format_nwm_points (fun _ : ref_row => @None (list Z))
       [] true 2
     = ([], None).
Proof.
  split.
  - apply (no_file_found_writes_nothing Z (fun _ => None) example_refs
             false 2); [reflexivity | lia].
  - apply (no_file_found_writes_nothing Z (fun _ => None) [] true 2);
      [intros r [] | discriminate].
Defined.

(** X21. When the run ends without an exception, every row of every table
    fetched is written once: the tables written, put end to end, are a
    rearrangement of the rows of the files found, and are those rows in the
    order of the files when the files are split by [stepsize].  No file
    without rows is written. *)
Theorem completed_run_writes_every_row_once :
  forall (table_row : Type)
         (file_chunk_loop : ref_row -> option (list table_row))
         (df_refs : list ref_row) (process_by_z_hour : bool) (stepsize : Z)
         (written : list (string * list table_row)),
    fetch_and_format_nwm_points file_chunk_loop df_refs process_by_z_hour
      stepsize = (written, None) ->
    Permutation (List.concat (map snd written))
      (concat_tables (map file_chunk_loop df_refs))
    /\ (process_by_z_hour = false ->
        List.concat (map snd written)
        = concat_tables (map file_chunk_loop df_refs))
    /\ (forall w, In w written -> snd w <> []).
Proof.
  intros table_row f df_refs pbz stepsize written.
  unfold fetch_and_format_nwm_points.
  assert (Hdone : forall dfs,
             process_chunks f dfs pbz = (written, None) ->
             List.concat (map snd written)
             = concat_tables (map f (List.concat dfs))
             /\ forall w, In w written -> snd w <> []).
  { intros dfs H.
    destruct (process_chunks_completed f dfs pbz) as (H1 & _ & H3).
    { now rewrite H. }
    rewrite H in H1, H3. cbn [fst] in H1, H3.
    split; [|exact H3]. rewrite H1. apply concat_tables_concat. }
  destruct pbz.
  - intro H. destruct (Hdone _ H) as [Hcat Hrows].
    split; [|split; [discriminate | exact Hrows]].
    rewrite Hcat. apply concat_tables_perm, groupby_day_z_hour_partition.
  - destruct (chunk_by_stepsize df_refs stepsize) as [e|chunks] eqn:Hc;
      [discriminate|].
    intro H. destruct (Hdone _ H) as [Hcat Hrows].
    destruct (chunk_by_stepsize_concat _ _ _ Hc) as [Hall _].
    rewrite Hall in Hcat.
    split; [now rewrite Hcat | split; [intros _; exact Hcat | exact Hrows]].
Qed.

Lemma completed_run_writes_every_row_once_witness :
  fetch_and_format_nwm_points example_file_chunk_loop example_refs true 2
  = ([ ("20230101T06.parquet", [5%Z]); ("20230102T00.parquet", [7%Z; 8%Z]) ],
     None)
  /\ Permutation [5%Z; 7%Z; 8%Z]
       (concat_tables (map example_file_chunk_loop example_refs)).
Proof.
  split; [reflexivity|].
  exact (proj1 (completed_run_writes_every_row_once Z example_file_chunk_loop
                  example_refs true 2
                  [ ("20230101T06.parquet", [5%Z]);
                    ("20230102T00.parquet", [7%Z; 8%Z]) ]
                  Logic.eq_refl)).
Defined.
